(** * FourQubitDetectorConstruction: geometry assembly and border surfaces

    A shallow embedding of [src/FourQubitDetectorConstruction.cc]: the
    detector-construction object, the Geant4/G4CMP tables it writes to
    (volume stores, lattice table, border-surface table, surface-property
    table, sensitive-detector manager), and the four member functions
    [Construct], [DefineMaterials], [SetupGeometry] and
    [AttachPhononSensor], written as state-passing code.

    Conventions.
    - A [G4double] value is kept as the arithmetic expression the source
      evaluates, over its decimal literals and the detector parameters;
      floating-point evaluation is not represented, so two values are equal
      when they are computed the same way.
    - A pointer is an [option]: [None] is the null pointer.  Objects made
      with [new] live in the table Geant4 registers them in, and the pointer
      is their position in that table.
    - Visualisation attributes and console output are not part of the
      state. *)

From Stdlib Require Import String List ZArith QArith Bool DecimalString.
From Stdlib Require Import Morphisms Setoid.
From stdpp Require Import base option list strings.

Open Scope string_scope.
Open Scope list_scope.

(** ** [G4double] *)

Inductive G4double :=
| dlit (mantissa : Z) (exponent : Z)   (* the literal [mantissa * 10^exponent] *)
| dadd (a b : G4double)
| dsub (a b : G4double)
| dmul (a b : G4double)
| ddiv (a b : G4double)
| dneg (a : G4double).

Declare Scope double_scope.
Delimit Scope double_scope with double.
Bind Scope double_scope with G4double.

(** Decimal literals are read as written: [1.6e-3] is [dlit 16 (-4)]. *)
Definition double_of_number (n : Number.number) : option G4double :=
  match n with
  | Number.Decimal (Decimal.Decimal i f) =>
      Some (dlit (Z.of_int (Decimal.app_int i f)) (- Z.of_nat (Decimal.nb_digits f)))
  | Number.Decimal (Decimal.DecimalExp i f e) =>
      Some (dlit (Z.of_int (Decimal.app_int i f))
                 (Z.of_int e - Z.of_nat (Decimal.nb_digits f)))
  | Number.Hexadecimal _ => None
  end.

Definition double_to_number (d : G4double) : option Number.number := None.

Number Notation G4double double_of_number double_to_number : double_scope.

Infix "+" := dadd : double_scope.
Infix "-" := dsub : double_scope.
Infix "*" := dmul : double_scope.
Infix "/" := ddiv : double_scope.
Notation "- x" := (dneg x) : double_scope.

(** The conversion of an [int] to [G4double]. *)
Definition of_int (z : Z) : G4double := dlit z 0.

(** ** Units (CLHEP system of units) *)

Module Units.
Definition millimeter : G4double := 1.
Definition meter : G4double := 1000 * millimeter.
Definition centimeter : G4double := 10 * millimeter.
Definition kilometer : G4double := 1000 * meter.
Definition micrometer : G4double := 1e-6 * meter.
Definition nanometer : G4double := 1e-9 * meter.
Definition mm : G4double := millimeter.
Definition cm : G4double := centimeter.
Definition km : G4double := kilometer.
Definition um : G4double := micrometer.
Definition nm : G4double := nanometer.
Definition nanosecond : G4double := 1.
Definition second : G4double := 1e9 * nanosecond.
Definition picosecond : G4double := 1e-12 * second.
Definition s : G4double := second.
Definition ps : G4double := picosecond.
Definition hertz : G4double := 1 / second.
Definition megaelectronvolt : G4double := 1.
Definition electronvolt : G4double := 1e-6 * megaelectronvolt.
Definition eV : G4double := electronvolt.
Definition pi : G4double := 3.14159265358979323846.
Definition radian : G4double := 1.
Definition degree : G4double := (pi / 180.0) * radian.
Definition deg : G4double := degree.
End Units.

(** ** Geometry values *)

Inductive G4Material := G4_AIR | G4_Ge | G4_Si | G4_Al | G4_W | G4_Nb.

Record G4ThreeVector := ThreeVector { vx : G4double; vy : G4double; vz : G4double }.

Definition vzero : G4ThreeVector := ThreeVector 0 0 0.

(** [operator+] of [G4ThreeVector]. *)
Definition vadd (a b : G4ThreeVector) : G4ThreeVector :=
  ThreeVector (vx a + vx b) (vy a + vy b) (vz a + vz b).

Inductive RotStep :=
| rotateX (a : G4double)
| rotateY (a : G4double)
| rotateZ (a : G4double).

(** A [G4RotationMatrix] starts as the identity and records the rotations
    applied to it, first one first. *)
Definition G4RotationMatrix := list RotStep.

Record G4Box := Box {
  box_name : string;
  box_hx : G4double;
  box_hy : G4double;
  box_hz : G4double
}.

(** ** Volumes *)

(** The assembly classes of the repository instantiated by [SetupGeometry]. *)
Inductive AssemblyClass :=
| FourQubitQubitHousing
| FourQubitTransmissionLine
| FourQubitResonatorAssembly
| FourQubitCurveFluxLine
| FourQubitTransmon
| FourQubitXmon
| FourQubitResonator
| FourQubitCurve
| FourQubitStraight.

(** The constructor arguments shared by [G4PVPlacement] and the assembly
    classes, the mother logical volume apart; [pExtra] holds the trailing
    arguments of [FourQubitCurve] and [FourQubitStraight]. *)
Record PlacementArgs := {
  pRot : option G4RotationMatrix;
  tLate : G4ThreeVector;
  pName : string;
  pMany : bool;
  pCopyNo : nat;
  pSurfChk : bool;
  pExtra : list G4double
}.

Record G4LogicalVolume := {
  lv_solid : G4Box;
  lv_material : option G4Material;
  lv_name : string;
  lv_sensitive : option string
}.

(** One entry of the material-role catalogue of an assembly, without its
    volume pointer: [(material, name)]. *)
Definition CatalogEntry : Type := string * string.

(** What the volume stores hold.  A plain placement bundles the solid, the
    logical volume and the [G4PVPlacement] this file creates together; an
    assembly is one instance of an assembly class with the catalogue it
    exposes.  [pMotherLogical] is the address, in the volume store, of the
    volume that owns the mother logical volume ([None] for the null
    pointer). *)
Inductive StoredVolume :=
| Placement (log : G4LogicalVolume) (args : PlacementArgs) (pMotherLogical : option nat)
| Assembly (cls : AssemblyClass) (args : PlacementArgs) (pMotherLogical : option nat)
           (catalog : list CatalogEntry).

(** A [G4VPhysicalVolume*]: either the physical volume of the store entry
    at [addr], or the volume held by entry [i] of the catalogue of the
    assembly stored at [addr]. *)
Inductive G4VPhysicalVolume :=
| PhysVol (addr : nat)
| SubVol (addr : nat) (i : nat).

(** ** Surface properties, border surfaces, lattices *)

Record ScatteringProperties := {
  anhCutoff : G4double;
  reflCutoff : G4double;
  anhCoeffs : list G4double;
  diffCoeffs : list G4double;
  specCoeffs : list G4double;
  anhFreqUnits : G4double;
  diffFreqUnits : G4double;
  specFreqUnits : G4double
}.

(** [G4CMPPhononElectrode] is default-constructed; it has no data the
    construction code sets. *)
Inductive G4CMPPhononElectrode := PhononElectrode.

Record G4CMPSurfaceProperty := {
  sp_name : string;
  sp_qAbsProb : G4double; sp_qReflProb : G4double;
  sp_eMinK : G4double; sp_hMinK : G4double;
  sp_pAbsProb : G4double; sp_pReflProb : G4double;
  sp_pSpecProb : G4double; sp_pMinK : G4double;
  sp_scattering : option ScatteringProperties;
  sp_phononTable : list (string * G4double);
  sp_phononElectrode : option G4CMPPhononElectrode
}.

Record G4CMPLogicalBorderSurface := {
  bs_name : string;
  bs_vol1 : option G4VPhysicalVolume;
  bs_vol2 : option G4VPhysicalVolume;
  bs_property : option nat
}.

Record G4LatticePhysical := {
  lat_material : option G4Material;
  lat_name : string;
  lat_miller : Z * Z * Z
}.

(** ** Detector parameters ([FourQubitDetectorParameters]) *)

Record DetectorParameters := {
  dp_useQubitHousing : bool;
  dp_useGroundPlane : bool;
  dp_useTransmissionLine : bool;
  dp_useResonatorAssembly : bool;
  dp_useFluxLines : bool;
  dp_siliconChipDimX : G4double;
  dp_siliconChipDimY : G4double;
  dp_siliconChipDimZ : G4double;
  dp_housingDimZ : G4double;
  dp_eps : G4double;
  dp_groundPlaneDimX : G4double;
  dp_groundPlaneDimY : G4double;
  dp_groundPlaneDimZ : G4double;
  dp_resonatorLateralSpacing : G4double;
  dp_centralResonatorOffsetX : G4double;
  dp_resonatorAssemblyBaseNbDimY : G4double;
  dp_transmissionLineCavityFullWidth : G4double;
  dp_topCenterFluxLineOffsetX : G4double;
  dp_topCenterFluxLineOffsetY : G4double;
  dp_topCenterFluxLineRotY : G4double;
  dp_bottomLeftFluxLineOffsetX : G4double;
  dp_bottomLeftFluxLineOffsetY : G4double;
  dp_bottomRightFluxLineOffsetX : G4double;
  dp_bottomRightFluxLineOffsetY : G4double;
  dp_resonatorCurveCentralRadius : G4double
}.

(** ** The state *)

(** The data members of [FourQubitDetectorConstruction]. *)
Record Members := {
  fLiquidHelium : option G4Material;
  fGermanium : option G4Material;
  fSilicon : option G4Material;
  fAluminum : option G4Material;
  fTungsten : option G4Material;
  fNiobium : option G4Material;
  fWorldPhys : option G4VPhysicalVolume;
  fSuperconductorSensitivity : option string;
  fConstructed : bool;
  fSiNbInterface : option nat;
  fSiCopperInterface : option nat;
  fSiVacuumInterface : option nat
}.

(** The process-wide Geant4 and G4CMP tables the construction code uses. *)
Record Kernel := {
  geometryHasBeenDestroyed : bool;
  volumeStore : list StoredVolume;
  latticeTable : list (G4VPhysicalVolume * G4LatticePhysical);
  borderSurfaceTable : list G4CMPLogicalBorderSurface;
  surfacePropertyTable : list G4CMPSurfaceProperty;
  sdManager : list string
}.

Record State := { this : Members; g4 : Kernel }.

(** The object as its constructor leaves it.  [fSilicon], [fNiobium] and
    the three interface pointers are not in the initialiser list; they are
    written by [DefineMaterials] and [SetupGeometry] before any use. *)
Definition new_FourQubitDetectorConstruction : Members :=
  {| fLiquidHelium := None; fGermanium := None; fSilicon := None;
     fAluminum := None; fTungsten := None; fNiobium := None;
     fWorldPhys := None; fSuperconductorSensitivity := None;
     fConstructed := false;
     fSiNbInterface := None; fSiCopperInterface := None;
     fSiVacuumInterface := None |}.

Definition empty_kernel (destroyed : bool) : Kernel :=
  {| geometryHasBeenDestroyed := destroyed; volumeStore := [];
     latticeTable := []; borderSurfaceTable := [];
     surfacePropertyTable := []; sdManager := [] |}.

Definition initial_state (destroyed : bool) : State :=
  {| this := new_FourQubitDetectorConstruction; g4 := empty_kernel destroyed |}.

(** *** Field updates *)

Definition with_volumeStore (v : list StoredVolume) (k : Kernel) : Kernel :=
  {| geometryHasBeenDestroyed := geometryHasBeenDestroyed k; volumeStore := v;
     latticeTable := latticeTable k; borderSurfaceTable := borderSurfaceTable k;
     surfacePropertyTable := surfacePropertyTable k; sdManager := sdManager k |}.

Definition with_latticeTable (l : list (G4VPhysicalVolume * G4LatticePhysical))
    (k : Kernel) : Kernel :=
  {| geometryHasBeenDestroyed := geometryHasBeenDestroyed k;
     volumeStore := volumeStore k;
     latticeTable := l; borderSurfaceTable := borderSurfaceTable k;
     surfacePropertyTable := surfacePropertyTable k; sdManager := sdManager k |}.

Definition with_borderSurfaceTable (b : list G4CMPLogicalBorderSurface)
    (k : Kernel) : Kernel :=
  {| geometryHasBeenDestroyed := geometryHasBeenDestroyed k;
     volumeStore := volumeStore k;
     latticeTable := latticeTable k; borderSurfaceTable := b;
     surfacePropertyTable := surfacePropertyTable k; sdManager := sdManager k |}.

Definition with_surfacePropertyTable (p : list G4CMPSurfaceProperty)
    (k : Kernel) : Kernel :=
  {| geometryHasBeenDestroyed := geometryHasBeenDestroyed k;
     volumeStore := volumeStore k;
     latticeTable := latticeTable k; borderSurfaceTable := borderSurfaceTable k;
     surfacePropertyTable := p; sdManager := sdManager k |}.

Definition with_sdManager (d : list string) (k : Kernel) : Kernel :=
  {| geometryHasBeenDestroyed := geometryHasBeenDestroyed k;
     volumeStore := volumeStore k;
     latticeTable := latticeTable k; borderSurfaceTable := borderSurfaceTable k;
     surfacePropertyTable := surfacePropertyTable k; sdManager := d |}.

Definition with_materials (he ge si al w nb : option G4Material) (m : Members) : Members :=
  {| fLiquidHelium := he; fGermanium := ge; fSilicon := si;
     fAluminum := al; fTungsten := w; fNiobium := nb;
     fWorldPhys := fWorldPhys m;
     fSuperconductorSensitivity := fSuperconductorSensitivity m;
     fConstructed := fConstructed m;
     fSiNbInterface := fSiNbInterface m;
     fSiCopperInterface := fSiCopperInterface m;
     fSiVacuumInterface := fSiVacuumInterface m |}.

Definition with_fWorldPhys (w : option G4VPhysicalVolume) (m : Members) : Members :=
  {| fLiquidHelium := fLiquidHelium m; fGermanium := fGermanium m;
     fSilicon := fSilicon m; fAluminum := fAluminum m;
     fTungsten := fTungsten m; fNiobium := fNiobium m;
     fWorldPhys := w;
     fSuperconductorSensitivity := fSuperconductorSensitivity m;
     fConstructed := fConstructed m;
     fSiNbInterface := fSiNbInterface m;
     fSiCopperInterface := fSiCopperInterface m;
     fSiVacuumInterface := fSiVacuumInterface m |}.

Definition with_fSuperconductorSensitivity (d : option string) (m : Members) : Members :=
  {| fLiquidHelium := fLiquidHelium m; fGermanium := fGermanium m;
     fSilicon := fSilicon m; fAluminum := fAluminum m;
     fTungsten := fTungsten m; fNiobium := fNiobium m;
     fWorldPhys := fWorldPhys m;
     fSuperconductorSensitivity := d;
     fConstructed := fConstructed m;
     fSiNbInterface := fSiNbInterface m;
     fSiCopperInterface := fSiCopperInterface m;
     fSiVacuumInterface := fSiVacuumInterface m |}.

Definition with_fConstructed (c : bool) (m : Members) : Members :=
  {| fLiquidHelium := fLiquidHelium m; fGermanium := fGermanium m;
     fSilicon := fSilicon m; fAluminum := fAluminum m;
     fTungsten := fTungsten m; fNiobium := fNiobium m;
     fWorldPhys := fWorldPhys m;
     fSuperconductorSensitivity := fSuperconductorSensitivity m;
     fConstructed := c;
     fSiNbInterface := fSiNbInterface m;
     fSiCopperInterface := fSiCopperInterface m;
     fSiVacuumInterface := fSiVacuumInterface m |}.

Definition with_interfaces (nb cu vac : option nat) (m : Members) : Members :=
  {| fLiquidHelium := fLiquidHelium m; fGermanium := fGermanium m;
     fSilicon := fSilicon m; fAluminum := fAluminum m;
     fTungsten := fTungsten m; fNiobium := fNiobium m;
     fWorldPhys := fWorldPhys m;
     fSuperconductorSensitivity := fSuperconductorSensitivity m;
     fConstructed := fConstructed m;
     fSiNbInterface := nb; fSiCopperInterface := cu; fSiVacuumInterface := vac |}.

(** ** A state monad for the construction code *)

Definition M (A : Type) : Type := State -> A * State.

Definition ret {A} (a : A) : M A := fun s => (a, s).

Definition bind {A B} (c : M A) (k : A -> M B) : M B :=
  fun s => let (a, s') := c s in k a s'.

Declare Scope construct_scope.
Delimit Scope construct_scope with construct.
Notation "x <- c ;; k" := (bind c (fun x => k))
  (at level 100, c at next level, right associativity) : construct_scope.
Notation "c ;; k" := (bind c (fun _ => k))
  (at level 100, right associativity) : construct_scope.

Definition member {A} (f : Members -> A) : M A := fun s => (f (this s), s).
Definition kernel {A} (f : Kernel -> A) : M A := fun s => (f (g4 s), s).
Definition set_this (f : Members -> Members) : M unit :=
  fun s => (tt, {| this := f (this s); g4 := g4 s |}).
Definition set_g4 (f : Kernel -> Kernel) : M unit :=
  fun s => (tt, {| this := this s; g4 := f (g4 s) |}).

(** [if (c) { body }] with no [else]. *)
Definition when (c : bool) (body : M unit) : M unit :=
  if c then body else ret tt.

(** A [for] loop over the elements of a list, in order. *)
Fixpoint for_each {A} (l : list A) (body : A -> M unit) : M unit :=
  match l with
  | [] => ret tt
  | x :: l' => bind (body x) (fun _ => for_each l' body)
  end.

(** Running a computation for its final state. *)
Definition exec {A} (c : M A) (s : State) : State := snd (c s).

Local Open Scope construct_scope.
Local Open Scope double_scope.

(** ** The assembly classes *)

(** Modelled from the spec: the assembly classes ([FourQubitTransmissionLine],
    [FourQubitResonatorAssembly], [FourQubitCurveFluxLine], [FourQubitTransmon],
    [FourQubitXmon], [FourQubitResonator], [FourQubitCurve],
    [FourQubitStraight], [FourQubitQubitHousing]) are declared in headers that
    are not among the sources.  An assembly is instantiated from its
    constructor arguments and exposes the flat catalogue of
    [(materialRole, name, Volume)] triples of its leaves; the library gives,
    for each class and constructor arguments, the material and name of each
    leaf, in catalogue order. *)
Definition AssemblyLibrary : Type := AssemblyClass -> PlacementArgs -> list CatalogEntry.

(** One element of [GetListOfAllFundamentalSubVolumes()]: the tuple
    [(material, name, physical volume)]. *)
Definition SubVolume : Type := string * string * G4VPhysicalVolume.

Definition get0 (t : SubVolume) : string := fst (fst t).
Definition get1 (t : SubVolume) : string := snd (fst t).
Definition get2 (t : SubVolume) : G4VPhysicalVolume := snd t.

(** An instance of an assembly class, as the construction code sees it. *)
Record AssemblyInstance := {
  inst_addr : nat;
  inst_catalog : list CatalogEntry
}.

Definition GetPhysicalVolume (a : AssemblyInstance) : G4VPhysicalVolume :=
  PhysVol (inst_addr a).

(** The logical volume of an assembly, as a mother for later placements. *)
Definition GetLogicalVolume (a : AssemblyInstance) : option nat :=
  Some (inst_addr a).

Definition GetListOfAllFundamentalSubVolumes (a : AssemblyInstance) : list SubVolume :=
  imap (fun i e => (fst e, snd e, SubVol (inst_addr a) i)) (inst_catalog a).

(** ** Geant4 and G4CMP operations *)

Definition store_volume (v : StoredVolume) : M nat :=
  fun s => (length (volumeStore (g4 s)),
            {| this := this s;
               g4 := with_volumeStore (volumeStore (g4 s) ++ [v]) (g4 s) |}).

(** [new G4PVPlacement(pRot, tlate, pCurrentLogical, pName, pMotherLogical,
    pMany, pCopyNo, pSurfChk)]; the result is the address of the new entry. *)
Definition new_G4PVPlacement (log : G4LogicalVolume) (args : PlacementArgs)
    (pMotherLogical : option nat) : M nat :=
  store_volume (Placement log args pMotherLogical).

(** [new C(pRot, tLate, pName, pMotherLogical, pMany, pCopyNo, pSurfChk, ...)]
    for an assembly class [C]. *)
Definition new_Assembly (lib : AssemblyLibrary) (cls : AssemblyClass)
    (args : PlacementArgs) (pMotherLogical : option nat) : M AssemblyInstance :=
  a <- store_volume (Assembly cls args pMotherLogical (lib cls args)) ;;
  ret {| inst_addr := a; inst_catalog := lib cls args |}.

(** [new G4CMPLogicalBorderSurface(name, vol1, vol2, surfaceProperty)]:
    the table records every surface constructed, in construction order. *)
Definition new_G4CMPLogicalBorderSurface (name : string)
    (vol1 vol2 : option G4VPhysicalVolume) (prop : option nat) : M unit :=
  set_g4 (fun k => with_borderSurfaceTable
    (borderSurfaceTable k ++
       [{| bs_name := name; bs_vol1 := vol1; bs_vol2 := vol2; bs_property := prop |}]) k).

(** [G4CMPLogicalBorderSurface::CleanSurfaceTable()]. *)
Definition CleanSurfaceTable : M unit := set_g4 (with_borderSurfaceTable []).

(** [G4LatticeManager::Reset()]. *)
Definition LatticeManager_Reset : M unit := set_g4 (with_latticeTable []).

(** [LM->RegisterLattice(vol, lattice)]. *)
Definition RegisterLattice (vol : G4VPhysicalVolume) (lat : G4LatticePhysical) : M unit :=
  set_g4 (fun k => with_latticeTable (latticeTable k ++ [(vol, lat)]) k).

(** [Clean()] on the physical-volume, logical-volume and solid stores. *)
Definition Clean_stores : M unit := set_g4 (with_volumeStore []).

(** [new G4CMPSurfaceProperty(name, qAbsProb, qReflProb, eMinK, hMinK,
    pAbsProb, pReflProb, pSpecProb, pMinK)]. *)
Definition new_G4CMPSurfaceProperty (name : string)
    (qAbsProb qReflProb eMinK hMinK pAbsProb pReflProb pSpecProb pMinK : G4double)
    : M (option nat) :=
  fun s =>
    (Some (length (surfacePropertyTable (g4 s))),
     {| this := this s;
        g4 := with_surfacePropertyTable
                (surfacePropertyTable (g4 s) ++
                 [{| sp_name := name;
                     sp_qAbsProb := qAbsProb; sp_qReflProb := qReflProb;
                     sp_eMinK := eMinK; sp_hMinK := hMinK;
                     sp_pAbsProb := pAbsProb; sp_pReflProb := pReflProb;
                     sp_pSpecProb := pSpecProb; sp_pMinK := pMinK;
                     sp_scattering := None;
                     sp_phononTable := [];
                     sp_phononElectrode := None |}]) (g4 s) |}).

(** A member call [p->f(...)] on a surface property: the object [p] points
    to is replaced by [f] of it. *)
Definition on_property (p : option nat) (f : G4CMPSurfaceProperty -> G4CMPSurfaceProperty)
    : M unit :=
  match p with
  | None => ret tt
  | Some a => set_g4 (fun k => with_surfacePropertyTable (alter f a (surfacePropertyTable k)) k)
  end.

Definition AddScatteringProperties (sc : ScatteringProperties)
    (p : G4CMPSurfaceProperty) : G4CMPSurfaceProperty :=
  {| sp_name := sp_name p;
     sp_qAbsProb := sp_qAbsProb p; sp_qReflProb := sp_qReflProb p;
     sp_eMinK := sp_eMinK p; sp_hMinK := sp_hMinK p;
     sp_pAbsProb := sp_pAbsProb p; sp_pReflProb := sp_pReflProb p;
     sp_pSpecProb := sp_pSpecProb p; sp_pMinK := sp_pMinK p;
     sp_scattering := Some sc;
     sp_phononTable := sp_phononTable p;
     sp_phononElectrode := sp_phononElectrode p |}.

(** The constant properties of a [G4MaterialPropertiesTable], in the order
    their keys were first added: adding a key that is present replaces its
    value. *)
Fixpoint table_set (key : string) (value : G4double)
    (table : list (string * G4double)) : list (string * G4double) :=
  match table with
  | [] => [(key, value)]
  | (k, v) :: table' =>
      if String.eqb k key then (k, value) :: table'
      else (k, v) :: table_set key value table'
  end.

Fixpoint table_get (key : string) (table : list (string * G4double)) : option G4double :=
  match table with
  | [] => None
  | (k, v) :: table' => if String.eqb k key then Some v else table_get key table'
  end.

(** [sensorProp->AddConstProperty(key, value)] on the table
    [GetPhononMaterialPropertiesTablePointer()] returns. *)
Definition AddConstProperty (key : string) (value : G4double)
    (p : G4CMPSurfaceProperty) : G4CMPSurfaceProperty :=
  {| sp_name := sp_name p;
     sp_qAbsProb := sp_qAbsProb p; sp_qReflProb := sp_qReflProb p;
     sp_eMinK := sp_eMinK p; sp_hMinK := sp_hMinK p;
     sp_pAbsProb := sp_pAbsProb p; sp_pReflProb := sp_pReflProb p;
     sp_pSpecProb := sp_pSpecProb p; sp_pMinK := sp_pMinK p;
     sp_scattering := sp_scattering p;
     sp_phononTable := table_set key value (sp_phononTable p);
     sp_phononElectrode := sp_phononElectrode p |}.

Definition SetPhononElectrode (e : G4CMPPhononElectrode)
    (p : G4CMPSurfaceProperty) : G4CMPSurfaceProperty :=
  {| sp_name := sp_name p;
     sp_qAbsProb := sp_qAbsProb p; sp_qReflProb := sp_qReflProb p;
     sp_eMinK := sp_eMinK p; sp_hMinK := sp_hMinK p;
     sp_pAbsProb := sp_pAbsProb p; sp_pReflProb := sp_pReflProb p;
     sp_pSpecProb := sp_pSpecProb p; sp_pMinK := sp_pMinK p;
     sp_scattering := sp_scattering p;
     sp_phononTable := sp_phononTable p;
     sp_phononElectrode := Some e |}.

(** [SDman->AddNewDetector(sd)]: a detector is stored under its name, and
    one whose name is already stored is not stored again. *)
Definition AddNewDetector (sd : option string) : M unit :=
  match sd with
  | None => ret tt
  | Some name =>
      set_g4 (fun k => with_sdManager
        (if existsb (String.eqb name) (sdManager k) then sdManager k
         else sdManager k ++ [name]) k)
  end.

(** [log->SetSensitiveDetector(sd)] on the logical volume of the placement
    stored at [a]. *)
Definition SetSensitiveDetector (a : nat) (sd : option string) : M unit :=
  set_g4 (fun k => with_volumeStore
    (alter (fun v => match v with
                     | Placement log args mother =>
                         Placement {| lv_solid := lv_solid log;
                                      lv_material := lv_material log;
                                      lv_name := lv_name log;
                                      lv_sensitive := sd |} args mother
                     | Assembly _ _ _ _ => v
                     end) a (volumeStore k)) k).

(** [str.find(pat)]: the position of the first occurrence, [None] for
    [std::string::npos]. *)
Definition find (str pat : string) : option nat := String.index 0 pat str.

(** [!p] for a pointer [p]. *)
Definition is_null {A} (p : option A) : bool :=
  match p with Some _ => false | None => true end.

(** [pos != std::string::npos]. *)
Definition not_npos (pos : option nat) : bool :=
  match pos with Some _ => true | None => false end.

(** [sprintf(name, "ResonatorAssembly_%d", iR)]. *)
Definition sprintf_ResonatorAssembly (iR : nat) : string :=
  "ResonatorAssembly_" +:+ NilEmpty.string_of_uint (Nat.to_uint iR).

(** ** [FourQubitDetectorConstruction::AttachPhononSensor] *)

Definition AttachPhononSensor (surfProp : option nat) : M unit :=
  if is_null surfProp then ret tt
  else
      on_property surfProp (AddConstProperty "filmAbsorption" 0.0) ;;
      on_property surfProp (AddConstProperty "filmThickness" (90 * Units.nm)) ;;
      on_property surfProp (AddConstProperty "gapEnergy" (1.6e-3 * Units.eV)) ;;
      on_property surfProp (AddConstProperty "lowQPLimit" 3) ;;
      on_property surfProp (AddConstProperty "phononLifetime" (4.17 * Units.ps)) ;;
      on_property surfProp (AddConstProperty "phononLifetimeSlope" 0.29) ;;
      on_property surfProp (AddConstProperty "vSound" (3.480 * Units.km / Units.s)) ;;
      on_property surfProp (AddConstProperty "subgapAbsorption" 0.0) ;;
      on_property surfProp (SetPhononElectrode PhononElectrode).

(** ** [FourQubitDetectorConstruction::DefineMaterials] *)

Definition DefineMaterials : M unit :=
  set_this (with_materials (Some G4_AIR) (Some G4_Ge) (Some G4_Si)
                           (Some G4_Al) (Some G4_W) (Some G4_Nb)).

(** ** [FourQubitDetectorConstruction::SetupGeometry] *)

(** The block every assembly is followed by ("Do the logical border creation
    now"): for each entry of the catalogue, in order, a border surface
    between the silicon chip and the sub-volume is constructed if the
    material contains "Vacuum", and one if it contains "Niobium". *)
Definition border_creation_loop (phys_siliconChip : G4VPhysicalVolume)
    (assembly : AssemblyInstance) : M unit :=
  for_each (GetListOfAllFundamentalSubVolumes assembly) (fun subVol =>
    let tempName := "border_siliconChip_" +:+ get1 subVol in
    when (not_npos (find (get0 subVol) "Vacuum"))
      (vac <- member fSiVacuumInterface ;;
       new_G4CMPLogicalBorderSurface tempName (Some phys_siliconChip)
                                     (Some (get2 subVol)) vac) ;;
    when (not_npos (find (get0 subVol) "Niobium"))
      (nb <- member fSiNbInterface ;;
       new_G4CMPLogicalBorderSurface tempName (Some phys_siliconChip)
                                     (Some (get2 subVol)) nb)).

Definition checkOverlaps : bool := true.

(** The arguments [(pRot, tLate, pName, ..., false, 0, checkOverlaps)]
    every assembly and nested placement is given. *)
Definition placed (rot : option G4RotationMatrix) (t : G4ThreeVector)
    (name : string) (extra : list G4double) : PlacementArgs :=
  {| pRot := rot; tLate := t; pName := name;
     pMany := false; pCopyNo := 0; pSurfChk := checkOverlaps; pExtra := extra |}.

(** The border-surface property types, defined on the first construction
    only. *)
Definition define_surface_properties : M unit :=
  let GHz := 1e9 * Units.hertz in
  let anhCoeffs := [0; 0; 0; 0; 0; 0] in
  let diffCoeffs := [1; 0; 0; 0; 0; 0] in
  let specCoeffs := [0; 0; 0; 0; 0; 0] in
  let anhCutoff := 520 in
  let reflCutoff := 350 in
  let scattering :=
    {| anhCutoff := anhCutoff; reflCutoff := reflCutoff;
       anhCoeffs := anhCoeffs; diffCoeffs := diffCoeffs; specCoeffs := specCoeffs;
       anhFreqUnits := GHz; diffFreqUnits := GHz; specFreqUnits := GHz |} in
  constructed <- member fConstructed ;;
  when (negb constructed)
    (nb <- new_G4CMPSurfaceProperty "SiNbInterface" 1.0 0.0 0.0 0.0 0.1 1.0 0.0 0.0 ;;
     cu <- new_G4CMPSurfaceProperty "SiCopperInterface" 1.0 0.0 0.0 0.0 1.0 0.0 0.0 0.0 ;;
     vac <- new_G4CMPSurfaceProperty "SiVacuumInterface" 0.0 1.0 0.0 0.0 0.0 1.0 0.0 0.0 ;;
     set_this (with_interfaces nb cu vac) ;;
     on_property nb (AddScatteringProperties scattering) ;;
     on_property cu (AddScatteringProperties scattering) ;;
     on_property vac (AddScatteringProperties scattering) ;;
     AttachPhononSensor nb).

(** The transmission line, inside [if (dp_useTransmissionLine)]. *)
Definition build_transmissionLine (lib : AssemblyLibrary)
    (phys_siliconChip : G4VPhysicalVolume) (log_groundPlane : option nat) : M unit :=
  let transmissionLineTranslate := ThreeVector 0 0 0.0 in
  tLine <- new_Assembly lib FourQubitTransmissionLine
             (placed None transmissionLineTranslate "TransmissionLine" [])
             log_groundPlane ;;
  border_creation_loop phys_siliconChip tLine.

(** The six resonator assemblies, inside [if (dp_useResonatorAssembly)]. *)
Definition build_resonatorAssemblies (lib : AssemblyLibrary) (dp : DetectorParameters)
    (phys_siliconChip : G4VPhysicalVolume) (log_groundPlane : option nat) : M unit :=
  let nR := 6%nat in
  for_each (seq 0 nR) (fun iR =>
    let resonatorAssemblyTranslate :=
      if (iR <=? 2)%nat then
        ThreeVector
          (dp_resonatorLateralSpacing dp * of_int (Z.of_nat iR - 1)
             + dp_centralResonatorOffsetX dp)
          (0.5 * dp_resonatorAssemblyBaseNbDimY dp
             + 0.5 * dp_transmissionLineCavityFullWidth dp)
          0.0
      else
        ThreeVector
          (dp_resonatorLateralSpacing dp * of_int (Z.of_nat iR - 4)
             - dp_centralResonatorOffsetX dp)
          (-1 * (0.5 * dp_resonatorAssemblyBaseNbDimY dp
                   + 0.5 * dp_transmissionLineCavityFullWidth dp))
          0.0 in
    let rotAssembly :=
      if (iR <=? 2)%nat then None else Some [rotateZ (180 * Units.deg)] in
    let resonatorAssemblyName := sprintf_ResonatorAssembly iR in
    resonatorAssembly <- new_Assembly lib FourQubitResonatorAssembly
        (placed rotAssembly resonatorAssemblyTranslate resonatorAssemblyName [])
        log_groundPlane ;;
    border_creation_loop phys_siliconChip resonatorAssembly).

(** The flux lines, inside [if (dp_useFluxLines)]. *)
Definition build_fluxLines (lib : AssemblyLibrary) (dp : DetectorParameters)
    (phys_siliconChip : G4VPhysicalVolume) (log_groundPlane : option nat) : M unit :=
  let topStraightFluxLineTranslate :=
    ThreeVector (dp_topCenterFluxLineOffsetX dp) (dp_topCenterFluxLineOffsetY dp) 0 in
  let rotation := [rotateY (dp_topCenterFluxLineRotY dp)] in
  topStraightFLine <- new_Assembly lib FourQubitCurveFluxLine
      (placed (Some rotation) topStraightFluxLineTranslate "TopStraightFluxLine" [])
      log_groundPlane ;;
  border_creation_loop phys_siliconChip topStraightFLine ;;
  (* bottom left *)
  let bottomStraightFluxLineTranslate :=
    ThreeVector (dp_bottomLeftFluxLineOffsetX dp)
                (-1 * dp_bottomLeftFluxLineOffsetY dp) 0 in
  let rotBottomCenter := [rotateZ (180 * Units.deg); rotateY (180 * Units.deg)] in
  bottomStraightFLine <- new_Assembly lib FourQubitCurveFluxLine
      (placed (Some rotBottomCenter) bottomStraightFluxLineTranslate
              "BottomStraightFluxLine" []) log_groundPlane ;;
  border_creation_loop phys_siliconChip bottomStraightFLine ;;
  (* bottom right *)
  let bottomRightFluxLineTranslate :=
    ThreeVector (dp_bottomRightFluxLineOffsetX dp)
                (-1 * dp_bottomRightFluxLineOffsetY dp) 0 in
  let rotBottomRight := [rotateZ (180 * Units.deg)] in
  bottomRightFLine <- new_Assembly lib FourQubitCurveFluxLine
      (placed (Some rotBottomRight) bottomRightFluxLineTranslate
              "bottomRightFluxLine" []) log_groundPlane ;;
  border_creation_loop phys_siliconChip bottomRightFLine.

(** An assembly instantiated and immediately followed by its border
    creation loop, as for the transmons, Xmons and resonators. *)
Definition build_element (lib : AssemblyLibrary) (cls : AssemblyClass)
    (rot : option G4RotationMatrix) (t : G4ThreeVector) (name : string)
    (phys_siliconChip : G4VPhysicalVolume) (log_groundPlane : option nat) : M unit :=
  element <- new_Assembly lib cls (placed rot t name []) log_groundPlane ;;
  border_creation_loop phys_siliconChip element.

(** The transmons, Xmons and resonators placed in the ground plane. *)
Definition build_qubits (lib : AssemblyLibrary)
    (phys_siliconChip : G4VPhysicalVolume) (log_groundPlane : option nat) : M unit :=
  let mm := Units.mm in
  (* transmon *)
  let locateTransmon0 := ThreeVector (1.43 * mm) (1.17 * mm) 0 in
  build_element lib FourQubitTransmon None locateTransmon0 "Transmon"
                phys_siliconChip log_groundPlane ;;
  let locateTransmon1 := ThreeVector (0.5 * mm) (-1.0 * mm) 0 in
  build_element lib FourQubitTransmon None locateTransmon1 "Transmon"
                phys_siliconChip log_groundPlane ;;
  (* Xmon *)
  let locateXmon0 := ThreeVector (-1.0 * mm) (1.0 * mm) 0 in
  build_element lib FourQubitXmon None locateXmon0 "Xmon"
                phys_siliconChip log_groundPlane ;;
  let locateXmon1 := ThreeVector (-1.0 * mm) (-1.0 * mm) 0 in
  let rotBottomRightXmon := [rotateX (180 * Units.deg)] in
  build_element lib FourQubitXmon (Some rotBottomRightXmon) locateXmon1 "Xmon"
                phys_siliconChip log_groundPlane ;;
  (* Resonator *)
  let locatetopResonator0 := ThreeVector (-0.39 * mm) (0.39 * mm) 0 in
  build_element lib FourQubitResonator None locatetopResonator0 "Resonator0"
                phys_siliconChip log_groundPlane ;;
  let locatetopResonator1 := ThreeVector (1.17 * mm) (0.39 * mm) 0 in
  build_element lib FourQubitResonator None locatetopResonator1 "Resonator1"
                phys_siliconChip log_groundPlane ;;
  (* bottom resonators *)
  let locatebottomResonator0 := ThreeVector (-1.17 * mm) (-0.39 * mm) 0 in
  let rotBottomResonator0 := [rotateZ (180 * Units.deg)] in
  build_element lib FourQubitResonator (Some rotBottomResonator0)
                locatebottomResonator0 "Resonator0"
                phys_siliconChip log_groundPlane ;;
  let locatebottomResonator1 := ThreeVector (0.39 * mm) (-0.39 * mm) 0 in
  let rotBottomResonator1 := [rotateZ (180 * Units.deg)] in
  build_element lib FourQubitResonator (Some rotBottomResonator1)
                locatebottomResonator1 "Resonator1"
                phys_siliconChip log_groundPlane.

(** The "other pieces": three curves and three straights placed from the
    running anchor [anchorq1], then the border creation loops the source
    has for them. *)
Definition build_otherPieces (lib : AssemblyLibrary) (dp : DetectorParameters)
    (phys_siliconChip : G4VPhysicalVolume) (log_groundPlane : option nat) : M unit :=
  let mm := Units.mm in
  let um := Units.um in
  (* q1 *)
  let anchorq1 := ThreeVector (1.3755 * mm) (0.692 * mm) 0 in
  (* c1 *)
  let locatebottomCurve1 := ThreeVector (1.3755 * mm) (0.692 * mm) 0 in
  let rotBottomCurve1 := [rotateZ (180 * Units.deg)] in
  bottomCurve1 <- new_Assembly lib FourQubitCurve
      (placed (Some rotBottomCurve1) locatebottomCurve1 "Curve1" [45 * um; 90; 180])
      log_groundPlane ;;
  (* line 1 *)
  let locatebottomStraight1 :=
    ThreeVector (-0.5 * 312 * um) (dp_resonatorCurveCentralRadius dp) 0 in
  let rotBottomStraight1 := [rotateZ (180 * Units.deg)] in
  bottomStraight1 <- new_Assembly lib FourQubitStraight
      (placed (Some rotBottomStraight1) (vadd anchorq1 locatebottomStraight1)
              "Straight1" [312 * um]) log_groundPlane ;;
  let anchorq1 := vadd anchorq1 locatebottomStraight1 in
  (* c2 *)
  let locatebottomCurve2 :=
    ThreeVector (-0.5 * 312 * um) (dp_resonatorCurveCentralRadius dp) 0 in
  let rotBottomCurve2 := [rotateZ (180 * Units.deg)] in
  bottomCurve2 <- new_Assembly lib FourQubitCurve
      (placed (Some rotBottomCurve2) (vadd anchorq1 locatebottomCurve2)
              "Curve2" [45 * um; 0; 90]) log_groundPlane ;;
  let anchorq1 := vadd anchorq1 locatebottomCurve2 in
  (* line 2 *)
  let locatebottomStraight2 :=
    ThreeVector (-1.0 * dp_resonatorCurveCentralRadius dp) (0.5 * 320 * um) 0 in
  let rotBottomStraight2 := [rotateZ (90 * Units.deg)] in
  bottomStraight2 <- new_Assembly lib FourQubitStraight
      (placed (Some rotBottomStraight2) (vadd anchorq1 locatebottomStraight2)
              "Straight2" [320 * um]) log_groundPlane ;;
  let anchorq1 := vadd anchorq1 locatebottomStraight2 in
  (* c3 *)
  let locatebottomCurve3 :=
    ThreeVector (dp_resonatorCurveCentralRadius dp) (0.5 * 320 * um) 0 in
  let rotBottomCurve3 := [rotateZ (270 * Units.deg)] in
  bottomCurve3 <- new_Assembly lib FourQubitCurve
      (placed (Some rotBottomCurve3) (vadd anchorq1 locatebottomCurve3)
              "Curve3" [45 * um; 0; 90]) log_groundPlane ;;
  let anchorq1 := vadd anchorq1 locatebottomCurve3 in
  (* line 3 *)
  let locatebottomStraight3 :=
    ThreeVector (0.5 * 260 * um) (dp_resonatorCurveCentralRadius dp) 0 in
  let rotBottomStraight3 := [rotateZ (180 * Units.deg)] in
  bottomStraight3 <- new_Assembly lib FourQubitStraight
      (placed (Some rotBottomStraight3) (vadd anchorq1 locatebottomStraight3)
              "Straight3" [260 * um]) log_groundPlane ;;
  (* Do the logical border creation now *)
  border_creation_loop phys_siliconChip bottomStraight1 ;;
  border_creation_loop phys_siliconChip bottomCurve1.

(** Everything inside [if (dp_useGroundPlane)]. *)
Definition build_groundPlane (lib : AssemblyLibrary) (dp : DetectorParameters)
    (phys_siliconChip : G4VPhysicalVolume) (log_world : option nat) : M unit :=
  let solid_groundPlane :=
    Box "GroundPlane_solid" (0.5 * dp_groundPlaneDimX dp)
        (0.5 * dp_groundPlaneDimY dp) (0.5 * dp_groundPlaneDimZ dp) in
  niobium <- member fNiobium ;;
  let log_groundPlane :=
    {| lv_solid := solid_groundPlane; lv_material := niobium;
       lv_name := "GroundPlane_log"; lv_sensitive := None |} in
  let groundPlaneTranslate :=
    ThreeVector 0 0 (0.5 * dp_housingDimZ dp + dp_eps dp + dp_groundPlaneDimZ dp * 0.5) in
  groundPlane <- new_G4PVPlacement log_groundPlane
      (placed None groundPlaneTranslate "GroundPlane" []) log_world ;;
  let phys_groundPlane := PhysVol groundPlane in
  let log_groundPlane := Some groundPlane in
  nb <- member fSiNbInterface ;;
  new_G4CMPLogicalBorderSurface "border_siliconChip_groundPlane"
      (Some phys_siliconChip) (Some phys_groundPlane) nb ;;
  when (dp_useTransmissionLine dp)
    (build_transmissionLine lib phys_siliconChip log_groundPlane) ;;
  when (dp_useResonatorAssembly dp)
    (build_resonatorAssemblies lib dp phys_siliconChip log_groundPlane) ;;
  when (dp_useFluxLines dp)
    (build_fluxLines lib dp phys_siliconChip log_groundPlane) ;;
  build_qubits lib phys_siliconChip log_groundPlane ;;
  build_otherPieces lib dp phys_siliconChip log_groundPlane.

(** The components and their interfaces: world, silicon chip, and the
    optional housing and ground plane; then the sensitivity object. *)
Definition construct_components (lib : AssemblyLibrary) (dp : DetectorParameters) : M unit :=
  (* World *)
  let solid_world := Box "World" (55 * Units.cm) (55 * Units.cm) (55 * Units.cm) in
  helium <- member fLiquidHelium ;;
  let log_world :=
    {| lv_solid := solid_world; lv_material := helium;
       lv_name := "World"; lv_sensitive := None |} in
  world <- new_G4PVPlacement log_world
      {| pRot := None; tLate := vzero; pName := "World";
         pMany := false; pCopyNo := 0; pSurfChk := false; pExtra := [] |} None ;;
  set_this (with_fWorldPhys (Some (PhysVol world))) ;;
  let log_world := Some world in
  (* the qubit chip substrate *)
  let solid_siliconChip :=
    Box "QubitChip_solid" (0.5 * dp_siliconChipDimX dp)
        (0.5 * dp_siliconChipDimY dp) (0.5 * dp_siliconChipDimZ dp) in
  silicon <- member fSilicon ;;
  let log_siliconChip :=
    {| lv_solid := solid_siliconChip; lv_material := silicon;
       lv_name := "SiliconChip_log"; lv_sensitive := None |} in
  let siliconChipTranslate :=
    ThreeVector 0 0 (0.5 * (dp_housingDimZ dp - dp_siliconChipDimZ dp) + dp_eps dp) in
  siliconChip <- new_G4PVPlacement log_siliconChip
      (placed None siliconChipTranslate "SiliconChip" []) log_world ;;
  let phys_siliconChip := PhysVol siliconChip in
  (* the silicon lattice *)
  let phys_siliconLattice :=
    {| lat_material := silicon; lat_name := "Si"; lat_miller := (1, 0, 0)%Z |} in
  RegisterLattice phys_siliconChip phys_siliconLattice ;;
  (* border surfaces *)
  worldPhys <- member fWorldPhys ;;
  vac <- member fSiVacuumInterface ;;
  new_G4CMPLogicalBorderSurface "border_siliconChip_world"
      (Some phys_siliconChip) worldPhys vac ;;
  (* the copper qubit housing *)
  when (dp_useQubitHousing dp)
    (qubitHousing <- new_Assembly lib FourQubitQubitHousing
         (placed None (ThreeVector 0 0 0) "QubitHousing" []) log_world ;;
     let phys_qubitHousing := GetPhysicalVolume qubitHousing in
     cu <- member fSiCopperInterface ;;
     new_G4CMPLogicalBorderSurface "border_siliconChip_qubitHousing"
         (Some phys_siliconChip) (Some phys_qubitHousing) cu) ;;
  (* the ground plane and what is located in it *)
  when (dp_useGroundPlane dp)
    (build_groundPlane lib dp phys_siliconChip log_world) ;;
  (* the sensitivity object *)
  sensitivity <- member fSuperconductorSensitivity ;;
  when (is_null sensitivity)
    (set_this (with_fSuperconductorSensitivity (Some "PhononElectrode"))) ;;
  sensitivity <- member fSuperconductorSensitivity ;;
  AddNewDetector sensitivity ;;
  SetSensitiveDetector siliconChip sensitivity.

Definition SetupGeometry (lib : AssemblyLibrary) (dp : DetectorParameters) : M unit :=
  define_surface_properties ;;
  construct_components lib dp.

(** ** [FourQubitDetectorConstruction::Construct] *)

(** The body of [if (fConstructed)]: the derived state of the previous
    construction is removed. *)
Definition teardown : M unit :=
  destroyed <- kernel geometryHasBeenDestroyed ;;
  when (negb destroyed) Clean_stores ;;
  LatticeManager_Reset ;;
  CleanSurfaceTable.

Definition Construct (lib : AssemblyLibrary) (dp : DetectorParameters)
    : M (option G4VPhysicalVolume) :=
  constructed <- member fConstructed ;;
  when constructed teardown ;;
  DefineMaterials ;;
  SetupGeometry lib dp ;;
  set_this (with_fConstructed true) ;;
  member fWorldPhys.

(** ** Observations on a state *)

Definition vol_args (v : StoredVolume) : PlacementArgs :=
  match v with Placement _ args _ => args | Assembly _ args _ _ => args end.

Definition vol_mother (v : StoredVolume) : option nat :=
  match v with Placement _ _ m => m | Assembly _ _ m _ => m end.

(** The assembly class of a stored volume; [None] for a plain placement. *)
Definition vol_class (v : StoredVolume) : option AssemblyClass :=
  match v with Placement _ _ _ => None | Assembly cls _ _ _ => Some cls end.

Definition vol_catalog (v : StoredVolume) : list CatalogEntry :=
  match v with Placement _ _ _ => [] | Assembly _ _ _ catalog => catalog end.

Definition AssemblyClass_eqb (a b : AssemblyClass) : bool :=
  match a, b with
  | FourQubitQubitHousing, FourQubitQubitHousing
  | FourQubitTransmissionLine, FourQubitTransmissionLine
  | FourQubitResonatorAssembly, FourQubitResonatorAssembly
  | FourQubitCurveFluxLine, FourQubitCurveFluxLine
  | FourQubitTransmon, FourQubitTransmon
  | FourQubitXmon, FourQubitXmon
  | FourQubitResonator, FourQubitResonator
  | FourQubitCurve, FourQubitCurve
  | FourQubitStraight, FourQubitStraight => true
  | _, _ => false
  end.

(** The class and name of every volume in the store, in address order. *)
Definition volume_summary (s : State) : list (option AssemblyClass * string) :=
  map (fun v => (vol_class v, pName (vol_args v))) (volumeStore (g4 s)).

(** How many instances of an assembly class the store holds. *)
Definition count_class (cls : AssemblyClass) (s : State) : nat :=
  length (List.filter
            (fun v => match vol_class v with
                      | Some c => AssemblyClass_eqb c cls
                      | None => false
                      end) (volumeStore (g4 s))).

(** How many plain placements of a given name the store holds. *)
Definition count_placement (name : string) (s : State) : nat :=
  length (List.filter
            (fun v => match vol_class v with
                      | Some _ => false
                      | None => String.eqb (pName (vol_args v)) name
                      end) (volumeStore (g4 s))).

(** The assembly stored at an address, as the construction code held it. *)
Definition assembly_at (s : State) (a : nat) : AssemblyInstance :=
  {| inst_addr := a;
     inst_catalog := match volumeStore (g4 s) !! a with
                     | Some v => vol_catalog v
                     | None => []
                     end |}.

Definition interface_names (s : State) : list string :=
  map bs_name (borderSurfaceTable (g4 s)).

(** Whether the volume at [a] is [root] or is placed, directly or through
    its mothers, in the logical volume of [root]. *)
Fixpoint descends (fuel : nat) (store : list StoredVolume) (root a : nat) : bool :=
  (a =? root)%nat ||
  match fuel with
  | O => false
  | S fuel' =>
      match store !! a with
      | Some v =>
          match vol_mother v with
          | Some m => descends fuel' store root m
          | None => false
          end
      | None => false
      end
  end.

(** A stored volume with its mother address taken relative to [root]. *)
Definition rebase (root : nat) (v : StoredVolume) : StoredVolume :=
  match v with
  | Placement log args m => Placement log args (option_map (fun a => a - root)%nat m)
  | Assembly cls args m catalog =>
      Assembly cls args (option_map (fun a => a - root)%nat m) catalog
  end.

(** The volume tree under the world volume [fWorldPhys] points to: its
    volumes in placement order, each with the position of its mother in the
    tree. *)
Definition volume_tree (s : State) : list StoredVolume :=
  match fWorldPhys (this s) with
  | Some (PhysVol root) =>
      let store := volumeStore (g4 s) in
      map (fun av => rebase root (snd av))
          (List.filter (fun av => descends (length store) store root (fst av))
                       (imap (fun a v => (a, v)) store))
  | _ => []
  end.

(** ** The border creation loop in closed form *)

(** The surfaces one catalogue entry gives rise to. *)
Definition leaf_borders (vac nb : option nat) (phys_siliconChip : G4VPhysicalVolume)
    (subVol : SubVolume) : list G4CMPLogicalBorderSurface :=
  let tempName := "border_siliconChip_" +:+ get1 subVol in
  (if not_npos (find (get0 subVol) "Vacuum")
   then [{| bs_name := tempName; bs_vol1 := Some phys_siliconChip;
            bs_vol2 := Some (get2 subVol); bs_property := vac |}]
   else []) ++
  (if not_npos (find (get0 subVol) "Niobium")
   then [{| bs_name := tempName; bs_vol1 := Some phys_siliconChip;
            bs_vol2 := Some (get2 subVol); bs_property := nb |}]
   else []).

Definition catalog_borders (vac nb : option nat) (phys_siliconChip : G4VPhysicalVolume)
    (catalog : list SubVolume) : list G4CMPLogicalBorderSurface :=
  flat_map (leaf_borders vac nb phys_siliconChip) catalog.

Definition add_borders (bs : list G4CMPLogicalBorderSurface) (s : State) : State :=
  {| this := this s;
     g4 := with_borderSurfaceTable (borderSurfaceTable (g4 s) ++ bs) (g4 s) |}.

(** The surfaces the loop creates for an assembly. *)
Definition instance_borders (vac nb : option nat) (phys_siliconChip : G4VPhysicalVolume)
    (assembly : AssemblyInstance) : list G4CMPLogicalBorderSurface :=
  catalog_borders vac nb phys_siliconChip (GetListOfAllFundamentalSubVolumes assembly).

(** The surfaces the loop creates for the assembly stored at [a], with the
    chip at [chip], in state [s]. *)
Definition borders_of (s : State) (chip a : nat) : list G4CMPLogicalBorderSurface :=
  instance_borders (fSiVacuumInterface (this s)) (fSiNbInterface (this s))
    (PhysVol chip) (assembly_at s a).

(** The names the loop gives the surfaces of a catalogue. *)
Definition catalog_names (catalog : list CatalogEntry) : list string :=
  flat_map (fun e =>
    (if not_npos (find (fst e) "Vacuum")
     then ["border_siliconChip_" +:+ snd e] else []) ++
    (if not_npos (find (fst e) "Niobium")
     then ["border_siliconChip_" +:+ snd e] else []))
    catalog.

(** Program equivalence: the same result and final state from every state. *)
Definition eqM {A} : relation (M A) := pointwise_relation State eq.

(** Whether a border surface has a catalogue entry of the assembly stored
    at [a] as its second volume. *)
Definition touches (a : nat) (b : G4CMPLogicalBorderSurface) : bool :=
  match bs_vol2 b with
  | Some (SubVol a' _) => (a' =? a)%nat
  | _ => false
  end.

(** The addresses at which the store holds an instance of a class. *)
Definition class_addresses (cls : AssemblyClass) (s : State) : list nat :=
  map fst
    (List.filter
       (fun av => match vol_class (snd av) with
                  | Some c => AssemblyClass_eqb c cls
                  | None => false
                  end)
       (imap (fun a v => (a, v)) (volumeStore (g4 s)))).

(** The detector parameters with the three toggles nested under the ground
    plane replaced. *)
Definition with_nested_toggles (transmissionLine resonatorAssembly fluxLines : bool)
    (dp : DetectorParameters) : DetectorParameters :=
  {| dp_useQubitHousing := dp_useQubitHousing dp;
     dp_useGroundPlane := dp_useGroundPlane dp;
     dp_useTransmissionLine := transmissionLine;
     dp_useResonatorAssembly := resonatorAssembly;
     dp_useFluxLines := fluxLines;
     dp_siliconChipDimX := dp_siliconChipDimX dp;
     dp_siliconChipDimY := dp_siliconChipDimY dp;
     dp_siliconChipDimZ := dp_siliconChipDimZ dp;
     dp_housingDimZ := dp_housingDimZ dp;
     dp_eps := dp_eps dp;
     dp_groundPlaneDimX := dp_groundPlaneDimX dp;
     dp_groundPlaneDimY := dp_groundPlaneDimY dp;
     dp_groundPlaneDimZ := dp_groundPlaneDimZ dp;
     dp_resonatorLateralSpacing := dp_resonatorLateralSpacing dp;
     dp_centralResonatorOffsetX := dp_centralResonatorOffsetX dp;
     dp_resonatorAssemblyBaseNbDimY := dp_resonatorAssemblyBaseNbDimY dp;
     dp_transmissionLineCavityFullWidth := dp_transmissionLineCavityFullWidth dp;
     dp_topCenterFluxLineOffsetX := dp_topCenterFluxLineOffsetX dp;
     dp_topCenterFluxLineOffsetY := dp_topCenterFluxLineOffsetY dp;
     dp_topCenterFluxLineRotY := dp_topCenterFluxLineRotY dp;
     dp_bottomLeftFluxLineOffsetX := dp_bottomLeftFluxLineOffsetX dp;
     dp_bottomLeftFluxLineOffsetY := dp_bottomLeftFluxLineOffsetY dp;
     dp_bottomRightFluxLineOffsetX := dp_bottomRightFluxLineOffsetX dp;
     dp_bottomRightFluxLineOffsetY := dp_bottomRightFluxLineOffsetY dp;
     dp_resonatorCurveCentralRadius := dp_resonatorCurveCentralRadius dp |}.

(** ** Stages, relocation and invariants of the construction *)

(** How many catalogue entries have a material containing [pat]. *)
Definition count_material (pat : string) (catalog : list CatalogEntry) : nat :=
  length (List.filter (fun e => not_npos (find (fst e) pat)) catalog).

(** The surface the border creation loop creates for entry [i], named
    [name], of the assembly stored at [addr], with surface property
    [prop]. *)
Definition leaf_border (chip : G4VPhysicalVolume) (addr i : nat) (name : string)
    (prop : option nat) : G4CMPLogicalBorderSurface :=
  {| bs_name := "border_siliconChip_" +:+ name; bs_vol1 := Some chip;
     bs_vol2 := Some (SubVol addr i); bs_property := prop |}.

(** The state with everything [Construct] writes before it reads it
    cleared: the six material pointers and the world pointer; on an object
    that has constructed before, the border surface and lattice tables and,
    unless the run manager has destroyed the geometry, the volume stores;
    on an object that has not, the three interface pointers. *)
Definition cleared (s : State) : State :=
  let m := this s in
  let k := g4 s in
  {| this :=
       {| fLiquidHelium := None; fGermanium := None; fSilicon := None;
          fAluminum := None; fTungsten := None; fNiobium := None;
          fWorldPhys := None;
          fSuperconductorSensitivity := fSuperconductorSensitivity m;
          fConstructed := fConstructed m;
          fSiNbInterface := if fConstructed m then fSiNbInterface m else None;
          fSiCopperInterface := if fConstructed m then fSiCopperInterface m else None;
          fSiVacuumInterface := if fConstructed m then fSiVacuumInterface m else None |};
     g4 :=
       if fConstructed m then
         {| geometryHasBeenDestroyed := geometryHasBeenDestroyed k;
            volumeStore := if geometryHasBeenDestroyed k then volumeStore k else [];
            latticeTable := [];
            borderSurfaceTable := [];
            surfacePropertyTable := surfacePropertyTable k;
            sdManager := sdManager k |}
       else k |}.

(** *** Addresses moved by [n] *)

Definition shift_vol (n : nat) (v : G4VPhysicalVolume) : G4VPhysicalVolume :=
  match v with
  | PhysVol a => PhysVol (n + a)
  | SubVol a i => SubVol (n + a) i
  end.

Definition shift_stored (n : nat) (v : StoredVolume) : StoredVolume :=
  match v with
  | Placement log args m => Placement log args (option_map (Nat.add n) m)
  | Assembly cls args m catalog => Assembly cls args (option_map (Nat.add n) m) catalog
  end.

Definition shift_border (n : nat) (b : G4CMPLogicalBorderSurface)
    : G4CMPLogicalBorderSurface :=
  {| bs_name := bs_name b;
     bs_vol1 := option_map (shift_vol n) (bs_vol1 b);
     bs_vol2 := option_map (shift_vol n) (bs_vol2 b);
     bs_property := bs_property b |}.

Definition shift_lattice (n : nat) (e : G4VPhysicalVolume * G4LatticePhysical)
    : G4VPhysicalVolume * G4LatticePhysical :=
  (shift_vol n (fst e), snd e).

Definition shift_instance (n : nat) (a : AssemblyInstance) : AssemblyInstance :=
  {| inst_addr := n + inst_addr a; inst_catalog := inst_catalog a |}.

(** The state [s] moved behind the stored volumes, lattices and border
    surfaces given: they come first, and every address of [s] is moved by
    the number of those volumes. *)
Definition relocate (volumes : list StoredVolume)
    (lattices : list (G4VPhysicalVolume * G4LatticePhysical))
    (borders : list G4CMPLogicalBorderSurface) (s : State) : State :=
  let n := length volumes in
  {| this := with_fWorldPhys (option_map (shift_vol n) (fWorldPhys (this s))) (this s);
     g4 := {| geometryHasBeenDestroyed := geometryHasBeenDestroyed (g4 s);
              volumeStore := volumes ++ map (shift_stored n) (volumeStore (g4 s));
              latticeTable := lattices ++ map (shift_lattice n) (latticeTable (g4 s));
              borderSurfaceTable :=
                borders ++ map (shift_border n) (borderSurfaceTable (g4 s));
              surfacePropertyTable := surfacePropertyTable (g4 s);
              sdManager := sdManager (g4 s) |} |}.

(** The state with the volume stores, the lattice table and the border
    surface table emptied, and the world pointer null. *)
Definition emptied (s : State) : State :=
  {| this := with_fWorldPhys None (this s);
     g4 := {| geometryHasBeenDestroyed := geometryHasBeenDestroyed (g4 s);
              volumeStore := []; latticeTable := []; borderSurfaceTable := [];
              surfacePropertyTable := surfacePropertyTable (g4 s);
              sdManager := sdManager (g4 s) |} |}.

(** *** Well-formed border surfaces and volumes *)

(** Whether a pointer to a physical volume points into the store, at an
    address not below [lo]: to a stored volume, or to an entry of the
    catalogue of a stored assembly. *)
Definition endpoint_in (lo : nat) (store : list StoredVolume)
    (v : option G4VPhysicalVolume) : bool :=
  match v with
  | Some (PhysVol a) => (lo <=? a)%nat && (a <? length store)%nat
  | Some (SubVol a i) =>
      (lo <=? a)%nat &&
      match store !! a with
      | Some x => (i <? length (vol_catalog x))%nat
      | None => false
      end
  | None => false
  end.

(** The sensitive detector of a stored volume. *)
Definition vol_sensitive (v : StoredVolume) : option string :=
  match v with Placement log _ _ => lv_sensitive log | Assembly _ _ _ _ => None end.

(** A border surface of the generation whose world volume is stored at
    [world]: it joins the silicon chip, stored next after the world, to a
    volume of the generation, with one of the three surface properties of
    [m]. *)
Definition interface_well_formed (world : nat) (store : list StoredVolume) (m : Members)
    (b : G4CMPLogicalBorderSurface) : Prop :=
  bs_vol1 b = Some (PhysVol (S world)) /\
  endpoint_in world store (bs_vol2 b) = true /\
  In (bs_property b) [fSiNbInterface m; fSiCopperInterface m; fSiVacuumInterface m].

(** A volume stored at [a], placed in the generation whose world volume is
    stored at [world]: it is not sensitive, it was placed with the overlap
    check on, and its mother is a volume of the generation stored before
    it. *)
Definition placed_in_generation (world a : nat) (v : StoredVolume) : Prop :=
  vol_sensitive v = None /\
  pSurfChk (vol_args v) = true /\
  exists mother, vol_mother v = Some mother /\ (world <= mother < a)%nat.

(** *** The stages of [Construct] *)

(** The state [SetupGeometry] places its components in: after the
    teardown, if there is one, the materials and the surface properties. *)
Definition prepared (s : State) : State :=
  exec (DefineMaterials ;; define_surface_properties)
       (exec (when (fConstructed (this s)) teardown) s).

(** The world and the silicon chip as [SetupGeometry] places them. *)
Definition world_volume (m : Members) : StoredVolume :=
  Placement
    {| lv_solid := Box "World" (55 * Units.cm) (55 * Units.cm) (55 * Units.cm);
       lv_material := fLiquidHelium m; lv_name := "World"; lv_sensitive := None |}
    {| pRot := None; tLate := vzero; pName := "World";
       pMany := false; pCopyNo := 0; pSurfChk := false; pExtra := [] |} None.

Definition chip_volume (dp : DetectorParameters) (m : Members) (world : nat)
    (sensitive : option string) : StoredVolume :=
  Placement
    {| lv_solid := Box "QubitChip_solid" (0.5 * dp_siliconChipDimX dp)
                       (0.5 * dp_siliconChipDimY dp) (0.5 * dp_siliconChipDimZ dp);
       lv_material := fSilicon m; lv_name := "SiliconChip_log";
       lv_sensitive := sensitive |}
    (placed None
       (ThreeVector 0 0 (0.5 * (dp_housingDimZ dp - dp_siliconChipDimZ dp) + dp_eps dp))
       "SiliconChip" [])
    (Some world).

(** The state after the world, the chip, the lattice and the chip-world
    border surface. *)
Definition world_and_chip (dp : DetectorParameters) (s : State) : State :=
  let world := length (volumeStore (g4 s)) in
  {| this := with_fWorldPhys (Some (PhysVol world)) (this s);
     g4 := {| geometryHasBeenDestroyed := geometryHasBeenDestroyed (g4 s);
              volumeStore :=
                volumeStore (g4 s) ++
                [world_volume (this s); chip_volume dp (this s) world None];
              latticeTable :=
                latticeTable (g4 s) ++
                [(PhysVol (S world),
                  {| lat_material := fSilicon (this s); lat_name := "Si";
                     lat_miller := (1, 0, 0)%Z |})];
              borderSurfaceTable :=
                borderSurfaceTable (g4 s) ++
                [{| bs_name := "border_siliconChip_world";
                    bs_vol1 := Some (PhysVol (S world));
                    bs_vol2 := Some (PhysVol world);
                    bs_property := fSiVacuumInterface (this s) |}];
              surfacePropertyTable := surfacePropertyTable (g4 s);
              sdManager := sdManager (g4 s) |} |}.

(** The housing and the ground plane, for the world stored at [world] and
    the chip stored next after it. *)
Definition housing_and_groundPlane (lib : AssemblyLibrary) (dp : DetectorParameters)
    (world : nat) : M unit :=
  when (dp_useQubitHousing dp)
    (qubitHousing <- new_Assembly lib FourQubitQubitHousing
         (placed None (ThreeVector 0 0 0) "QubitHousing" []) (Some world) ;;
     let phys_qubitHousing := GetPhysicalVolume qubitHousing in
     cu <- member fSiCopperInterface ;;
     new_G4CMPLogicalBorderSurface "border_siliconChip_qubitHousing"
         (Some (PhysVol (S world))) (Some phys_qubitHousing) cu) ;;
  when (dp_useGroundPlane dp)
    (build_groundPlane lib dp (PhysVol (S world)) (Some world)).

(** The sensitivity object, for the chip stored at [chip]. *)
Definition establish_sensitivity (chip : nat) : M unit :=
  sensitivity <- member fSuperconductorSensitivity ;;
  when (is_null sensitivity)
    (set_this (with_fSuperconductorSensitivity (Some "PhononElectrode"))) ;;
  sensitivity <- member fSuperconductorSensitivity ;;
  AddNewDetector sensitivity ;;
  SetSensitiveDetector chip sensitivity.

(** The sensitivity object after [SetupGeometry]: the one there was, or a
    new one. *)
Definition sensitivity_after (m : Members) : option string :=
  match fSuperconductorSensitivity m with
  | Some d => Some d
  | None => Some "PhononElectrode"
  end.

(** *** Any number of constructions *)

(** The state after the constructions [builds], run in order from [s]. *)
Definition constructions (builds : list (AssemblyLibrary * DetectorParameters))
    (s : State) : State :=
  fold_left (fun s b => exec (Construct (fst b) (snd b)) s) builds s.

(** What the next construction relies on: the sensitivity object, if there
    is one, is the one named "PhononElectrode" and the only detector of the
    manager; and unless the object has constructed before, the lattice
    table and the border surface table are empty. *)
Definition ready (s : State) : Prop :=
  ((fSuperconductorSensitivity (this s) = None /\ sdManager (g4 s) = []) \/
   (fSuperconductorSensitivity (this s) = Some "PhononElectrode" /\
    sdManager (g4 s) = ["PhononElectrode"])) /\
  (fConstructed (this s) = true \/
   (latticeTable (g4 s) = [] /\ borderSurfaceTable (g4 s) = [])).

(** The surface properties as the first construction leaves them. *)
Definition first_surface_properties : list G4CMPSurfaceProperty :=
  surfacePropertyTable
    (g4 (exec define_surface_properties (initial_state false))).

(** An object that has constructed before, as every construction leaves
    it: with the three surface properties and the pointers to them, and
    with the sensitivity object, the only detector of the manager. *)
Definition settled (destroyed : bool) (s : State) : Prop :=
  (fConstructed (this s) = true /\
   fSuperconductorSensitivity (this s) = Some "PhononElectrode" /\
   fSiNbInterface (this s) = Some 0%nat /\ fSiCopperInterface (this s) = Some 1%nat /\
   fSiVacuumInterface (this s) = Some 2%nat) /\
  geometryHasBeenDestroyed (g4 s) = destroyed /\
  surfacePropertyTable (g4 s) = first_surface_properties /\
  sdManager (g4 s) = ["PhononElectrode"].

(** ** Concrete inputs *)

(** A set of detector parameters with the five toggles as given; lengths in
    millimetres. *)
Definition example_parameters
    (housing groundPlane transmissionLine resonatorAssembly fluxLines : bool)
    : DetectorParameters :=
  {| dp_useQubitHousing := housing;
     dp_useGroundPlane := groundPlane;
     dp_useTransmissionLine := transmissionLine;
     dp_useResonatorAssembly := resonatorAssembly;
     dp_useFluxLines := fluxLines;
     dp_siliconChipDimX := 8.0; dp_siliconChipDimY := 8.0;
     dp_siliconChipDimZ := 0.38;
     dp_housingDimZ := 9.525;
     dp_eps := 0.0001;
     dp_groundPlaneDimX := 8.0; dp_groundPlaneDimY := 8.0;
     dp_groundPlaneDimZ := 0.00009;
     dp_resonatorLateralSpacing := 2.5;
     dp_centralResonatorOffsetX := 0.5;
     dp_resonatorAssemblyBaseNbDimY := 1.5;
     dp_transmissionLineCavityFullWidth := 0.04;
     dp_topCenterFluxLineOffsetX := 0.25; dp_topCenterFluxLineOffsetY := 3.0;
     dp_topCenterFluxLineRotY := 0.0;
     dp_bottomLeftFluxLineOffsetX := 2.25; dp_bottomLeftFluxLineOffsetY := 3.0;
     dp_bottomRightFluxLineOffsetX := 2.75; dp_bottomRightFluxLineOffsetY := 3.0;
     dp_resonatorCurveCentralRadius := 0.05 |}.

(** Every assembly but the housing exposes a niobium layer and a vacuum
    cavity, each named after the name the assembly was given. *)
Definition named_library : AssemblyLibrary :=
  fun cls args =>
    match cls with
    | FourQubitQubitHousing => []
    | _ => [("Niobium", pName args +:+ "_baseNbLayer");
            ("Vacuum", pName args +:+ "_cavity")]
    end.

(** The transmission line exposes a leaf of a material neither rule
    recognises, followed by a niobium leaf; nothing else has leaves. *)
Definition unrecognized_library : AssemblyLibrary :=
  fun cls args =>
    match cls with
    | FourQubitTransmissionLine =>
        [("Silicon", pName args +:+ "_support");
         ("Niobium", pName args +:+ "_baseNbLayer")]
    | _ => []
    end.

(** The transmission line exposes one leaf whose material name contains
    both "Niobium" and "Vacuum"; nothing else has leaves. *)
Definition overlapping_library : AssemblyLibrary :=
  fun cls args =>
    match cls with
    | FourQubitTransmissionLine => [("NiobiumVacuumGap", pName args +:+ "_gap")]
    | _ => []
    end.

(** No assembly has leaves. *)
Definition empty_library : AssemblyLibrary := fun _ _ => [].

(** What [AttachPhononSensor] does to the property its argument points to. *)
Definition attach_sensor (p : G4CMPSurfaceProperty) : G4CMPSurfaceProperty :=
  SetPhononElectrode PhononElectrode
    (AddConstProperty "subgapAbsorption" 0.0
    (AddConstProperty "vSound" (3.480 * Units.km / Units.s)
    (AddConstProperty "phononLifetimeSlope" 0.29
    (AddConstProperty "phononLifetime" (4.17 * Units.ps)
    (AddConstProperty "lowQPLimit" 3
    (AddConstProperty "gapEnergy" (1.6e-3 * Units.eV)
    (AddConstProperty "filmThickness" (90 * Units.nm)
    (AddConstProperty "filmAbsorption" 0.0 p)))))))).

(** The state after the member call [p->f(...)] on the property at [a]. *)
Definition update_property (a : nat) (f : G4CMPSurfaceProperty -> G4CMPSurfaceProperty)
    (s : State) : State :=
  {| this := this s;
     g4 := with_surfacePropertyTable (alter f a (surfacePropertyTable (g4 s))) (g4 s) |}.

(** A surface property as its constructor leaves it, and a state whose
    property table holds it alone. *)
Definition example_property : G4CMPSurfaceProperty :=
  {| sp_name := "SiNbInterface";
     sp_qAbsProb := 1.0; sp_qReflProb := 0.0; sp_eMinK := 0.0; sp_hMinK := 0.0;
     sp_pAbsProb := 0.1; sp_pReflProb := 1.0; sp_pSpecProb := 0.0; sp_pMinK := 0.0;
     sp_scattering := None;
     sp_phononTable := [];
     sp_phononElectrode := None |}.

Definition example_state : State :=
  {| this := new_FourQubitDetectorConstruction;
     g4 := with_surfacePropertyTable [example_property] (empty_kernel false) |}.

Close Scope double_scope.

(** * Properties *)

(** ** Rewriting inside programs *)

#[export] Instance eqM_equiv {A} : Equivalence (@eqM A).
Proof. unfold eqM. typeclasses eauto. Qed.

#[export] Instance bind_Proper {A B} :
  Proper (eqM ==> pointwise_relation A eqM ==> eqM) (@bind A B).
Proof.
  intros c c' Hc k k' Hk s. unfold bind. rewrite (Hc s).
  destruct (c' s) as [a s']. apply Hk.
Qed.

#[export] Instance when_Proper : Proper (eq ==> eqM ==> eqM) when.
Proof. intros c c' -> b b' Hb s. destruct c'; simpl; [apply Hb|reflexivity]. Qed.

#[export] Instance for_each_Proper {A} (l : list A) :
  Proper (pointwise_relation A eqM ==> eqM) (for_each l).
Proof.
  intros f g Hfg. induction l as [|x l IH]; simpl; [reflexivity|].
  apply bind_Proper; [apply Hfg | intros _; apply IH].
Qed.

(** ** The border creation loop *)

Lemma add_borders_nil s : add_borders [] s = s.
Proof.
  destruct s as [m k]; destruct k; unfold add_borders, with_borderSurfaceTable; simpl.
  now rewrite app_nil_r.
Qed.

Lemma add_borders_app bs1 bs2 s :
  add_borders bs2 (add_borders bs1 s) = add_borders (bs1 ++ bs2) s.
Proof.
  unfold add_borders, with_borderSurfaceTable; simpl. now rewrite app_assoc.
Qed.

(** One iteration of the loop body. *)
Lemma loop_body_run chip (subVol : SubVolume) s :
  (let tempName := "border_siliconChip_" +:+ get1 subVol in
   when (not_npos (find (get0 subVol) "Vacuum"))
     (vac <- member fSiVacuumInterface ;;
      new_G4CMPLogicalBorderSurface tempName (Some chip) (Some (get2 subVol)) vac) ;;
   when (not_npos (find (get0 subVol) "Niobium"))
     (nb <- member fSiNbInterface ;;
      new_G4CMPLogicalBorderSurface tempName (Some chip) (Some (get2 subVol)) nb)) s
  = (tt, add_borders (leaf_borders (fSiVacuumInterface (this s))
                                   (fSiNbInterface (this s)) chip subVol) s).
Proof.
  unfold leaf_borders, bind, when, member, new_G4CMPLogicalBorderSurface, set_g4, ret.
  destruct (not_npos (find (get0 subVol) "Vacuum"));
    destruct (not_npos (find (get0 subVol) "Niobium")); simpl;
    try reflexivity.
  - unfold add_borders, with_borderSurfaceTable; simpl. now rewrite <- app_assoc.
  - now rewrite add_borders_nil.
Qed.

Lemma border_creation_loop_run chip inst s :
  border_creation_loop chip inst s
  = (tt, add_borders (instance_borders (fSiVacuumInterface (this s))
                        (fSiNbInterface (this s)) chip inst) s).
Proof.
  unfold border_creation_loop, instance_borders.
  generalize (GetListOfAllFundamentalSubVolumes inst) as l.
  intros l; revert s; induction l as [|x l IH]; intros s.
  - simpl. now rewrite add_borders_nil.
  - cbn [for_each]. unfold bind at 1. rewrite loop_body_run, IH.
    simpl. now rewrite add_borders_app.
Qed.

(** ** The construction with every border creation loop in closed form *)

Section Closed.

(** The closed form is stated over two names, [borders] for
    [instance_borders] and [table_app] for the concatenation of border
    surface tables, so that evaluating a construction leaves the surfaces
    of each assembly as one term. *)
Variable borders :
  option nat -> option nat -> G4VPhysicalVolume -> AssemblyInstance ->
  list G4CMPLogicalBorderSurface.
Hypothesis borders_eq : borders = instance_borders.
Variable table_app :
  list G4CMPLogicalBorderSurface -> list G4CMPLogicalBorderSurface ->
  list G4CMPLogicalBorderSurface.
Hypothesis table_app_eq : table_app = @app G4CMPLogicalBorderSurface.

Definition border_creation (phys_siliconChip : G4VPhysicalVolume)
    (assembly : AssemblyInstance) : M unit :=
  fun s =>
    (tt, {| this := this s;
            g4 := with_borderSurfaceTable
                    (table_app (borderSurfaceTable (g4 s))
                       (borders (fSiVacuumInterface (this s))
                          (fSiNbInterface (this s)) phys_siliconChip assembly))
                    (g4 s) |}).

Lemma border_creation_loop_eqM chip inst :
  eqM (border_creation_loop chip inst) (border_creation chip inst).
Proof.
  intros s. rewrite border_creation_loop_run.
  unfold border_creation, add_borders. now rewrite borders_eq, table_app_eq.
Qed.

Lemma Construct_closed_form (lib : AssemblyLibrary) (dp : DetectorParameters) :
  { c : M (option G4VPhysicalVolume) | eqM (Construct lib dp) c }.
Proof.
  eexists.
  unfold Construct, SetupGeometry, construct_components, build_groundPlane,
    build_transmissionLine, build_resonatorAssemblies, build_fluxLines,
    build_qubits, build_otherPieces, build_element.
  cbv zeta.
  setoid_rewrite border_creation_loop_eqM.
  reflexivity.
Defined.

Definition Construct_closed (lib : AssemblyLibrary) (dp : DetectorParameters)
  : M (option G4VPhysicalVolume) :=
  Eval cbv beta iota delta [proj1_sig Construct_closed_form] in
  proj1_sig (Construct_closed_form lib dp).

Lemma Construct_run lib dp s : Construct lib dp s = Construct_closed lib dp s.
Proof. exact (proj2_sig (Construct_closed_form lib dp) s). Qed.

End Closed.

(** Running every [Construct] of the goal in closed form: after
    [closed_form], [vm_compute] evaluates the constructions and leaves the
    surfaces of each assembly as one [borders] term. *)
Ltac closed_form :=
  let B := fresh "borders" in
  let HB := fresh "Hborders" in
  let A := fresh "table_app" in
  let HA := fresh "Htable_app" in
  pose (B := instance_borders);
  assert (HB : B = instance_borders) by reflexivity;
  pose (A := @app G4CMPLogicalBorderSurface);
  assert (HA : A = @app G4CMPLogicalBorderSurface) by reflexivity;
  clearbody B A;
  unfold exec;
  rewrite ?(Construct_run B HB A HA).

(** Evaluating the state a construction from the initial state ends in:
    every occurrence in the goal is replaced by the evaluated state, in
    which the surfaces of each assembly are an [instance_borders] term. *)
Ltac evaluate_build :=
  match goal with
  | |- context [exec (Construct ?lib ?dp) (initial_state ?d)] =>
      let E := fresh "E" in
      let B := fresh "borders" in
      let HB := fresh "Hborders" in
      let A := fresh "table_app" in
      let HA := fresh "Htable_app" in
      pose (B := instance_borders);
      assert (HB : B = instance_borders) by reflexivity;
      pose (A := @app G4CMPLogicalBorderSurface);
      assert (HA : A = @app G4CMPLogicalBorderSurface) by reflexivity;
      clearbody B A;
      eassert (E : exec (Construct lib dp) (initial_state d) = _);
      [ unfold exec; rewrite (Construct_run B HB A HA); vm_compute; reflexivity | ];
      subst B A;
      rewrite !E; clear E
  end.

(** Case analysis on the toggles of the detector parameters: the three
    nested toggles are only looked at when the ground plane is built. *)
Ltac toggle_cases dp :=
  let h := fresh "housing" in
  let g := fresh "groundPlane" in
  let t := fresh "transmissionLine" in
  let r := fresh "resonatorAssembly" in
  let f := fresh "fluxLines" in
  destruct dp as [h g t r f ? ? ? ? ? ? ? ? ? ? ? ? ? ? ? ? ? ? ? ?];
  destruct h; destruct g; [destruct t; destruct r; destruct f | | destruct t; destruct r; destruct f | ].

(** ** General facts about [Construct] *)

Lemma Construct_constructed lib dp s :
  fConstructed (this (exec (Construct lib dp) s)) = true.
Proof.
  unfold exec, Construct, bind, member, set_this.
  destruct (when (fConstructed (this s)) teardown s) as [u s1].
  destruct (DefineMaterials s1) as [u1 s2].
  destruct (SetupGeometry lib dp s2) as [u2 s3].
  reflexivity.
Qed.

Lemma Construct_returns_world lib dp s :
  fst (Construct lib dp s) = fWorldPhys (this (exec (Construct lib dp) s)).
Proof.
  unfold exec, Construct, bind, member, set_this.
  destruct (when (fConstructed (this s)) teardown s) as [u s1].
  destruct (DefineMaterials s1) as [u1 s2].
  destruct (SetupGeometry lib dp s2) as [u2 s3].
  reflexivity.
Qed.

(** On an object that has constructed before, [Construct] is the teardown
    followed by the construction proper. *)
Lemma Construct_after_built lib dp s :
  fConstructed (this s) = true ->
  exec (Construct lib dp) s
  = exec (DefineMaterials ;; SetupGeometry lib dp ;; set_this (with_fConstructed true))
         (exec teardown s).
Proof.
  intros H. unfold exec, Construct, bind, member, set_this. rewrite H.
  unfold when. destruct (teardown s) as [u s1]. cbn [snd].
  destruct (DefineMaterials s1) as [u1 s2].
  destruct (SetupGeometry lib dp s2) as [u2 s3].
  reflexivity.
Qed.

Lemma teardown_clears s :
  borderSurfaceTable (g4 (exec teardown s)) = [] /\
  latticeTable (g4 (exec teardown s)) = [].
Proof.
  unfold exec, teardown, bind, kernel, when.
  destruct (geometryHasBeenDestroyed (g4 s)); split; reflexivity.
Qed.

(** The names of the surfaces of an assembly depend on its catalogue only. *)
Lemma instance_borders_names vac nb chip inst :
  map bs_name (instance_borders vac nb chip inst) = catalog_names (inst_catalog inst).
Proof.
  unfold instance_borders, GetListOfAllFundamentalSubVolumes, catalog_borders,
    catalog_names.
  generalize (inst_addr inst) as a. generalize (inst_catalog inst) as l.
  intros l a.
  assert (G : forall (k : nat -> nat),
    map bs_name (flat_map (leaf_borders vac nb chip)
                   (imap (fun i e => (fst e, snd e, SubVol a (k i))) l))
    = flat_map (fun e =>
        (if not_npos (find (fst e) "Vacuum")
         then ["border_siliconChip_" +:+ snd e] else []) ++
        (if not_npos (find (fst e) "Niobium")
         then ["border_siliconChip_" +:+ snd e] else [])) l).
  { induction l as [|e l IH]; intros k; [reflexivity|].
    cbn [imap flat_map]. rewrite map_app.
    specialize (IH (fun i => k (S i))). unfold compose. cbn beta.
    rewrite <- IH. f_equal.
    unfold leaf_borders, get0, get1, get2. cbn [fst snd].
    destruct (not_npos (find (fst e) "Vacuum"));
      destruct (not_npos (find (fst e) "Niobium")); reflexivity. }
  apply (G (fun i => i)).
Qed.

(** ** Rebuilding *)

Section NamesCongruence.

Variable names : list G4CMPLogicalBorderSurface -> list string.
Hypothesis names_eq : names = map bs_name.
Variable borders :
  option nat -> option nat -> G4VPhysicalVolume -> AssemblyInstance ->
  list G4CMPLogicalBorderSurface.
Hypothesis borders_eq : borders = instance_borders.
Variable table_app :
  list G4CMPLogicalBorderSurface -> list G4CMPLogicalBorderSurface ->
  list G4CMPLogicalBorderSurface.
Hypothesis table_app_eq : table_app = @app G4CMPLogicalBorderSurface.

Lemma names_app_cong x y x' y' :
  names x = names x' -> names y = names y' ->
  names (table_app x y) = names (table_app x' y').
Proof. subst. rewrite !map_app. now intros -> ->. Qed.

Lemma names_borders_cong vac nb chip inst vac' nb' chip' inst' :
  inst_catalog inst = inst_catalog inst' ->
  names (borders vac nb chip inst) = names (borders vac' nb' chip' inst').
Proof. subst. rewrite !instance_borders_names. now intros ->. Qed.

Lemma names_cons_cong b l b' l' :
  bs_name b = bs_name b' -> names l = names l' ->
  names (b :: l) = names (b' :: l').
Proof. subst. cbn [map]. now intros -> ->. Qed.

End NamesCongruence.

(** When the run manager has not destroyed the geometry, a second
    construction ends in the state the first one ended in. *)
Lemma rebuild_same_state lib dp :
  exec (Construct lib dp) (exec (Construct lib dp) (initial_state false))
  = exec (Construct lib dp) (initial_state false).
Proof. toggle_cases dp; closed_form; vm_compute; reflexivity. Qed.

(** Whatever the run manager's flag, a construction on emptied volume
    stores ends in the state the first one ended in. *)
Lemma rebuild_after_clean lib dp destroyed :
  exec (Construct lib dp)
       (exec Clean_stores (exec (Construct lib dp) (initial_state destroyed)))
  = exec (Construct lib dp) (initial_state destroyed).
Proof. destruct destroyed; toggle_cases dp; closed_form; vm_compute; reflexivity. Qed.

Lemma rebuild_same_tree lib dp destroyed :
  volume_tree (exec (Construct lib dp) (exec (Construct lib dp) (initial_state destroyed)))
  = volume_tree (exec (Construct lib dp) (initial_state destroyed)).
Proof.
  destruct destroyed; [|now rewrite rebuild_same_state].
  toggle_cases dp; closed_form; vm_compute; reflexivity.
Qed.

Lemma rebuild_same_names lib dp destroyed :
  interface_names (exec (Construct lib dp)
                        (exec (Construct lib dp) (initial_state destroyed)))
  = interface_names (exec (Construct lib dp) (initial_state destroyed)).
Proof.
  destruct destroyed; [|now rewrite rebuild_same_state].
  unfold interface_names.
  remember (@map G4CMPLogicalBorderSurface string bs_name) as names eqn:Hnames.
  toggle_cases dp; closed_form; vm_compute;
    repeat first
      [ reflexivity
      | apply (names_app_cong names Hnames _ Htable_app)
      | apply (names_borders_cong names Hnames _ Hborders)
      | apply (names_cons_cong names Hnames) ].
Qed.

(** C3.  Calling [Construct] twice in succession with the same library and
    parameters is idempotent.  With [s1] the state after the first call,
    the second call first runs [teardown], which leaves the border surface
    table and the lattice table empty, and only then defines materials and
    sets up the geometry; the second generation has the same list of
    interface names as the first (so every name occurs as often as before:
    nothing of the first generation is left to collide with) and the same
    volume tree under the world volume.  When the volume stores are emptied
    for the second call, by [Construct] itself (geometry not destroyed by
    the run manager) or by the run manager before the call, the second call
    ends in the very state the first one ended in. *)
Theorem rebuild_idempotent lib dp destroyed :
  let s1 := exec (Construct lib dp) (initial_state destroyed) in
  let torn := exec teardown s1 in
  let s2 := exec (Construct lib dp) s1 in
  (borderSurfaceTable (g4 torn) = [] /\ latticeTable (g4 torn) = []) /\
  s2 = exec (DefineMaterials ;; SetupGeometry lib dp ;;
             set_this (with_fConstructed true)) torn /\
  interface_names s2 = interface_names s1 /\
  volume_tree s2 = volume_tree s1 /\
  exec (Construct lib dp) (exec Clean_stores s1) = s1 /\
  exec (Construct lib dp) (exec (Construct lib dp) (initial_state false))
  = exec (Construct lib dp) (initial_state false).
Proof.
  intros s1 torn s2. subst s1 torn s2.
  split; [apply teardown_clears|].
  split; [apply Construct_after_built, Construct_constructed|].
  split; [apply rebuild_same_names|].
  split; [apply rebuild_same_tree|].
  split; [apply rebuild_after_clean|apply rebuild_same_state].
Qed.

(** ** The constant-property table *)

Lemma table_get_set key key' value table :
  table_get key (table_set key' value table)
  = if String.eqb key' key then Some value else table_get key table.
Proof.
  induction table as [|[k v] table IH]; cbn.
  - destruct (String.eqb_spec key' key); reflexivity.
  - destruct (String.eqb_spec k key') as [->|Hk]; cbn.
    + destruct (String.eqb_spec key' key); reflexivity.
    + rewrite IH. destruct (String.eqb_spec k key) as [->|Hk'].
      * destruct (String.eqb_spec key' key); [congruence|reflexivity].
      * reflexivity.
Qed.

Lemma table_set_same key value table :
  table_get key table = Some value -> table_set key value table = table.
Proof.
  induction table as [|[k v] table IH]; cbn; [discriminate|].
  destruct (String.eqb_spec k key) as [->|Hk].
  - now intros [= ->].
  - intros H. now rewrite IH.
Qed.

(** ** [AttachPhononSensor] *)

Lemma on_property_run a f s : on_property (Some a) f s = (tt, update_property a f s).
Proof. reflexivity. Qed.

Lemma bind_run {A B} (c : M A) (k : A -> M B) s a s' :
  c s = (a, s') -> bind c k s = k a s'.
Proof. unfold bind. now intros ->. Qed.

Lemma update_property_twice a f g s :
  update_property a f (update_property a g s) = update_property a (f ∘ g) s.
Proof.
  unfold update_property, with_surfacePropertyTable. cbn.
  now rewrite list_alter_alter_eq.
Qed.

Lemma AttachPhononSensor_run p s :
  exec (AttachPhononSensor (Some p)) s = update_property p attach_sensor s.
Proof.
  unfold exec, AttachPhononSensor. cbn [is_null].
  repeat (erewrite bind_run; [|apply on_property_run]).
  rewrite on_property_run. cbn [snd].
  rewrite !update_property_twice. reflexivity.
Qed.

Lemma attach_sensor_table p :
  sp_phononTable (attach_sensor p)
  = table_set "subgapAbsorption" 0.0
    (table_set "vSound" (3.480 * Units.km / Units.s)
    (table_set "phononLifetimeSlope" 0.29
    (table_set "phononLifetime" (4.17 * Units.ps)
    (table_set "lowQPLimit" 3
    (table_set "gapEnergy" (1.6e-3 * Units.eV)
    (table_set "filmThickness" (90 * Units.nm)
    (table_set "filmAbsorption" 0.0 (sp_phononTable p))))))))%double.
Proof. reflexivity. Qed.

Lemma attach_sensor_idempotent p : attach_sensor (attach_sensor p) = attach_sensor p.
Proof.
  destruct p as [name q1 q2 q3 q4 q5 q6 q7 q8 scattering table electrode].
  cbv beta iota delta
    [attach_sensor SetPhononElectrode AddConstProperty
     sp_name sp_qAbsProb sp_qReflProb sp_eMinK sp_hMinK sp_pAbsProb
     sp_pReflProb sp_pSpecProb sp_pMinK sp_scattering sp_phononTable
     sp_phononElectrode].
  f_equal.
  repeat (rewrite table_set_same;
          [ | rewrite !table_get_set; reflexivity ]).
  reflexivity.
Qed.

(** C9.  [AttachPhononSensor] on the null pointer returns without changing
    the state.  On a pointer [p] to a surface property it leaves the
    detector object, the volume stores, the border surface table, the
    lattice table, the detector manager and every other surface property as
    they were; the property at [p] keeps its name and scattering properties
    and gets the phonon electrode and the eight sensor constants; and
    attaching again changes nothing (the previous model is replaced by an
    equal one). *)
Theorem AttachPhononSensor_spec p prop s :
  surfacePropertyTable (g4 s) !! p = Some prop ->
  let s' := exec (AttachPhononSensor (Some p)) s in
  AttachPhononSensor None s = (tt, s) /\
  exec (AttachPhononSensor (Some p)) s' = s' /\
  this s' = this s /\
  volumeStore (g4 s') = volumeStore (g4 s) /\
  borderSurfaceTable (g4 s') = borderSurfaceTable (g4 s) /\
  latticeTable (g4 s') = latticeTable (g4 s) /\
  sdManager (g4 s') = sdManager (g4 s) /\
  (forall q, q <> p ->
     surfacePropertyTable (g4 s') !! q = surfacePropertyTable (g4 s) !! q) /\
  exists prop',
    surfacePropertyTable (g4 s') !! p = Some prop' /\
    sp_phononElectrode prop' = Some PhononElectrode /\
    sp_name prop' = sp_name prop /\
    sp_scattering prop' = sp_scattering prop /\
    map (fun key => table_get key (sp_phononTable prop'))
        ["filmAbsorption"; "filmThickness"; "gapEnergy"; "lowQPLimit";
         "phononLifetime"; "phononLifetimeSlope"; "vSound"; "subgapAbsorption"]
    = [Some 0.0; Some (90 * Units.nm); Some (1.6e-3 * Units.eV); Some 3;
       Some (4.17 * Units.ps); Some 0.29; Some (3.480 * Units.km / Units.s);
       Some 0.0]%double.
Proof.
  intros Hp s'. subst s'. rewrite !AttachPhononSensor_run.
  split; [reflexivity|]. split.
  { rewrite update_property_twice. unfold update_property. do 2 f_equal.
    apply list_alter_ext; [|reflexivity].
    intros x _. apply attach_sensor_idempotent. }
  unfold update_property.
  cbn [this g4 with_surfacePropertyTable surfacePropertyTable volumeStore
       borderSurfaceTable latticeTable sdManager geometryHasBeenDestroyed].
  do 5 (split; [reflexivity|]). split.
  { intros q Hq. apply list_lookup_alter_ne. congruence. }
  exists (attach_sensor prop). split.
  { rewrite list_lookup_alter_eq, Hp. reflexivity. }
  do 3 (split; [reflexivity|]).
  cbn [map]. rewrite attach_sensor_table, !table_get_set. reflexivity.
Qed.

Lemma AttachPhononSensor_spec_witness :
  surfacePropertyTable (g4 example_state) !! 0 = Some example_property /\
  exec (AttachPhononSensor (Some 0)) (exec (AttachPhononSensor (Some 0)) example_state)
  = exec (AttachPhononSensor (Some 0)) example_state.
Proof.
  split; [reflexivity|].
  exact (proj1 (proj2 (AttachPhononSensor_spec 0 example_property example_state eq_refl))).
Defined.

(** ** The surface properties across constructions *)

Lemma Construct_keeps_properties lib dp s :
  fConstructed (this s) = true ->
  surfacePropertyTable (g4 (exec (Construct lib dp) s)) = surfacePropertyTable (g4 s) /\
  fSiNbInterface (this (exec (Construct lib dp) s)) = fSiNbInterface (this s) /\
  fSiCopperInterface (this (exec (Construct lib dp) s)) = fSiCopperInterface (this s) /\
  fSiVacuumInterface (this (exec (Construct lib dp) s)) = fSiVacuumInterface (this s).
Proof.
  destruct s as [[he ge si al w nb world sens constructed pnb pcu pvac]
                 [destroyed store lattice table props sd]].
  cbn [this fConstructed]. intros ->.
  destruct destroyed, sens; toggle_cases dp; closed_form; vm_compute; repeat split.
Qed.

(** C10.  The first construction defines exactly three surface properties,
    Si-Nb, Si-Copper and Si-Vacuum in this order, each with the scattering
    properties, and attaches the phonon sensor to the Si-Nb property only;
    the three member pointers point to them.  Every later construction on
    the same object, with whatever library and parameters, leaves the
    property table and the three pointers as the first one left them. *)
Theorem surface_properties_defined_once lib dp destroyed :
  let s1 := exec (Construct lib dp) (initial_state destroyed) in
  map sp_name (surfacePropertyTable (g4 s1))
  = ["SiNbInterface"; "SiCopperInterface"; "SiVacuumInterface"] /\
  (fSiNbInterface (this s1) = Some 0 /\ fSiCopperInterface (this s1) = Some 1 /\
   fSiVacuumInterface (this s1) = Some 2) /\
  map sp_phononElectrode (surfacePropertyTable (g4 s1))
  = [Some PhononElectrode; None; None] /\
  map (fun p => length (sp_phononTable p)) (surfacePropertyTable (g4 s1)) = [8; 0; 0] /\
  Forall (fun p => option_map diffCoeffs (sp_scattering p)
                   = Some [1; 0; 0; 0; 0; 0]%double)
         (surfacePropertyTable (g4 s1)) /\
  forall (rebuilds : list (AssemblyLibrary * DetectorParameters)),
    let s := fold_left (fun s r => exec (Construct (fst r) (snd r)) s) rebuilds s1 in
    surfacePropertyTable (g4 s) = surfacePropertyTable (g4 s1) /\
    fSiNbInterface (this s) = Some 0 /\ fSiCopperInterface (this s) = Some 1 /\
    fSiVacuumInterface (this s) = Some 2.
Proof.
  intros s1.
  assert (H1 : surfacePropertyTable (g4 s1)
               = surfacePropertyTable
                   (g4 (exec (Construct empty_library
                                (example_parameters false false false false false))
                             (initial_state false))) /\
               fSiNbInterface (this s1) = Some 0 /\
               fSiCopperInterface (this s1) = Some 1 /\
               fSiVacuumInterface (this s1) = Some 2).
  { subst s1. toggle_cases dp; closed_form; vm_compute; repeat split. }
  destruct H1 as (Ht & Hnb & Hcu & Hvac).
  rewrite Ht.
  split; [vm_compute; reflexivity|].
  split; [auto|].
  split; [vm_compute; reflexivity|].
  split; [vm_compute; reflexivity|].
  split; [vm_compute; repeat constructor|].
  intros rebuilds. rewrite <- Ht.
  assert (Hc : fConstructed (this s1) = true) by apply Construct_constructed.
  clearbody s1. clear Ht. revert s1 Hnb Hcu Hvac Hc.
  induction rebuilds as [|[lib' dp'] rebuilds IH]; intros s1 Hnb Hcu Hvac Hc;
    cbn [fold_left fst snd].
  - auto.
  - destruct (Construct_keeps_properties lib' dp' s1 Hc) as (Et & Enb & Ecu & Evac).
    rewrite <- Et.
    apply IH; try congruence. apply Construct_constructed.
Qed.

(** ** Leaves neither rule recognises, and leaves both recognise *)

Lemma flat_map_delete_nil {A B} (f : A -> list B) (l : list A) i x :
  l !! i = Some x -> f x = [] -> flat_map f l = flat_map f (delete i l).
Proof.
  revert i; induction l as [|y l IH]; intros [|i] Hl Hx; try discriminate.
  - cbn in Hl. injection Hl as ->. cbn. now rewrite Hx.
  - cbn. f_equal. now apply IH.
Qed.

(** C1, as the code has it.  A catalogue entry whose material contains
    neither "Vacuum" nor "Niobium" is skipped: the border creation loop
    runs to its end and creates exactly the surfaces of the catalogue
    without that entry.  No construction aborts: [Construct] always
    returns the world volume and leaves the object constructed. *)
Theorem unrecognized_leaf_skipped chip inst i material name s :
  inst_catalog inst !! i = Some (material, name) ->
  find material "Vacuum" = None ->
  find material "Niobium" = None ->
  border_creation_loop chip inst s
  = (tt, add_borders
           (catalog_borders (fSiVacuumInterface (this s)) (fSiNbInterface (this s)) chip
              (delete i (GetListOfAllFundamentalSubVolumes inst))) s) /\
  forall lib dp s0,
    fConstructed (this (exec (Construct lib dp) s0)) = true /\
    fst (Construct lib dp s0) = fWorldPhys (this (exec (Construct lib dp) s0)).
Proof.
  intros Hi Hv Hn. split.
  - rewrite border_creation_loop_run. unfold instance_borders, catalog_borders.
    do 2 f_equal.
    apply flat_map_delete_nil with (x := (material, name, SubVol (inst_addr inst) i)).
    + unfold GetListOfAllFundamentalSubVolumes. rewrite list_lookup_imap.
      apply fmap_Some. exists (material, name). split; [exact Hi | reflexivity].
    + unfold leaf_borders, get0. cbn [fst snd]. now rewrite Hv, Hn.
  - intros lib dp s0. split.
    + apply Construct_constructed.
    + apply Construct_returns_world.
Qed.

Lemma unrecognized_leaf_skipped_witness :
  let inst := {| inst_addr := 3;
                 inst_catalog := [("Silicon", "TransmissionLine_support");
                                  ("Niobium", "TransmissionLine_baseNbLayer")] |} in
  (inst_catalog inst !! 0 = Some ("Silicon", "TransmissionLine_support") /\
   find "Silicon" "Vacuum" = None /\ find "Silicon" "Niobium" = None) /\
  border_creation_loop (PhysVol 1) inst (initial_state false)
  = (tt, add_borders
           (catalog_borders None None (PhysVol 1)
              (delete 0 (GetListOfAllFundamentalSubVolumes inst)))
           (initial_state false)).
Proof.
  intros inst. split.
  - repeat split.
  - exact (proj1 (unrecognized_leaf_skipped (PhysVol 1) inst 0 "Silicon"
                    "TransmissionLine_support" (initial_state false)
                    eq_refl eq_refl eq_refl)).
Defined.

(** C1, as stated, fails.  With a transmission line whose first leaf is of
    material "Silicon", the construction does not abort: it returns the
    world volume, leaves the object constructed, creates the surface of
    the next leaf of the same assembly and none for the silicon leaf. *)
Lemma unrecognized_leaf_does_not_abort :
  let lib := unrecognized_library in
  let dp := example_parameters false true true false false in
  let s := exec (Construct lib dp) (initial_state false) in
  assembly_at s 3
  = {| inst_addr := 3;
       inst_catalog := [("Silicon", "TransmissionLine_support");
                        ("Niobium", "TransmissionLine_baseNbLayer")] |} /\
  (find "Silicon" "Vacuum" = None /\ find "Silicon" "Niobium" = None) /\
  fConstructed (this s) = true /\
  fst (Construct lib dp (initial_state false)) = Some (PhysVol 0) /\
  List.filter (touches 3) (borderSurfaceTable (g4 s))
  = [{| bs_name := "border_siliconChip_TransmissionLine_baseNbLayer";
        bs_vol1 := Some (PhysVol 1); bs_vol2 := Some (SubVol 3 1);
        bs_property := Some 0 |}].
Proof. vm_compute. repeat split. Qed.

(** C2, at the failing input.  A transmission line with one leaf of
    material "NiobiumVacuumGap" gets two border surfaces for that leaf, of
    the same name, one with the Si-Vacuum property and one with the Si-Nb
    property. *)
Lemma two_interfaces_for_one_leaf :
  let s := exec (Construct overlapping_library
                   (example_parameters false true true false false))
                (initial_state false) in
  assembly_at s 3
  = {| inst_addr := 3;
       inst_catalog := [("NiobiumVacuumGap", "TransmissionLine_gap")] |} /\
  List.filter (touches 3) (borderSurfaceTable (g4 s))
  = [{| bs_name := "border_siliconChip_TransmissionLine_gap";
        bs_vol1 := Some (PhysVol 1); bs_vol2 := Some (SubVol 3 0);
        bs_property := fSiVacuumInterface (this s) |};
     {| bs_name := "border_siliconChip_TransmissionLine_gap";
        bs_vol1 := Some (PhysVol 1); bs_vol2 := Some (SubVol 3 0);
        bs_property := fSiNbInterface (this s) |}] /\
  fSiVacuumInterface (this s) <> fSiNbInterface (this s).
Proof. vm_compute. repeat split. discriminate. Qed.

(** ** Interface names *)

(** C4, at the failing input.  With leaves named after the name their
    assembly was given, the two assemblies named "Transmon" give two border
    surfaces of the same name, for different volumes: the interface names
    of one generation are not unique.  Every surface does have the silicon
    chip as its first volume. *)
Lemma interface_names_not_unique :
  let s := exec (Construct named_library
                   (example_parameters false true false false false))
                (initial_state false) in
  ~ NoDup (interface_names s) /\
  List.filter (fun b => String.eqb (bs_name b) "border_siliconChip_Transmon_baseNbLayer")
              (borderSurfaceTable (g4 s))
  = [{| bs_name := "border_siliconChip_Transmon_baseNbLayer";
        bs_vol1 := Some (PhysVol 1); bs_vol2 := Some (SubVol 3 0);
        bs_property := Some 0 |};
     {| bs_name := "border_siliconChip_Transmon_baseNbLayer";
        bs_vol1 := Some (PhysVol 1); bs_vol2 := Some (SubVol 4 0);
        bs_property := Some 0 |}] /\
  Forall (fun b => bs_vol1 b = Some (PhysVol 1)) (borderSurfaceTable (g4 s)).
Proof.
  intros s. split; [|split].
  - apply (bool_decide_eq_false_1 (NoDup (interface_names s))). vm_compute. reflexivity.
  - vm_compute. reflexivity.
  - vm_compute. repeat constructor.
Qed.

(** ** Which volumes and surfaces a configuration gives *)

Lemma filter_touches_instance_borders a vac nb chip inst :
  List.filter (touches a) (instance_borders vac nb chip inst)
  = if (inst_addr inst =? a)%nat then instance_borders vac nb chip inst else [].
Proof.
  unfold instance_borders, GetListOfAllFundamentalSubVolumes, catalog_borders.
  generalize (inst_addr inst) as b. generalize (inst_catalog inst) as l.
  intros l b.
  assert (G : forall (k : nat -> nat),
    List.filter (touches a)
      (flat_map (leaf_borders vac nb chip)
         (imap (fun i e => (fst e, snd e, SubVol b (k i))) l))
    = if (b =? a)%nat
      then flat_map (leaf_borders vac nb chip)
             (imap (fun i e => (fst e, snd e, SubVol b (k i))) l)
      else []).
  { induction l as [|e l IH]; intros k.
    - cbn. now destruct (b =? a)%nat.
    - cbn [imap flat_map]. rewrite List.filter_app.
      specialize (IH (fun i => k (S i))). unfold compose. cbn beta.
      rewrite IH.
      unfold leaf_borders, get0, get1, get2, touches. cbn [fst snd].
      destruct (not_npos (find (fst e) "Vacuum"));
        destruct (not_npos (find (fst e) "Niobium"));
        cbn; destruct (b =? a)%nat; reflexivity. }
  apply (G (fun i => i)).
Qed.

Lemma filter_touches_other a vac nb chip inst :
  (inst_addr inst =? a)%nat = false ->
  List.filter (touches a) (instance_borders vac nb chip inst) = [].
Proof. intros H. now rewrite filter_touches_instance_borders, H. Qed.

Lemma filter_touches_same a vac nb chip inst :
  (inst_addr inst =? a)%nat = true ->
  List.filter (touches a) (instance_borders vac nb chip inst)
  = instance_borders vac nb chip inst.
Proof. intros H. now rewrite filter_touches_instance_borders, H. Qed.

Lemma filter_app_nil {A} (p : A -> bool) x y :
  List.filter p x = [] -> List.filter p y = [] -> List.filter p (x ++ y) = [].
Proof. intros Hx Hy. now rewrite List.filter_app, Hx, Hy. Qed.

Lemma filter_app_skip {A} (p : A -> bool) x y r :
  List.filter p y = [] -> List.filter p x = r -> List.filter p (x ++ y) = r.
Proof. intros Hy Hx. now rewrite List.filter_app, Hx, Hy, List.app_nil_r. Qed.

Lemma filter_app_hit {A} (p : A -> bool) x y r :
  List.filter p x = [] -> List.filter p y = r -> List.filter p (x ++ y) = r.
Proof. intros Hx Hy. now rewrite List.filter_app, Hx, Hy. Qed.

Lemma fold_left_app_flat_map {A B} (f : A -> list B) l init :
  fold_left (fun acc a => acc ++ f a) l init = init ++ flat_map f l.
Proof.
  revert init; induction l as [|a l IH]; intros init; cbn.
  - now rewrite List.app_nil_r.
  - now rewrite IH, <- List.app_assoc.
Qed.

(** No surface of a table built by concatenation touches the assembly. *)
Ltac untouched :=
  repeat first
    [ reflexivity
    | apply filter_touches_other; reflexivity
    | apply filter_app_nil ].

(** The surfaces of a table built by concatenation that touch an assembly
    are those of the one segment created for it. *)
Ltac touched :=
  repeat first
    [ apply filter_app_skip; [apply filter_touches_other; reflexivity | ]
    | apply filter_app_hit;
      [solve [untouched] | apply filter_touches_same; reflexivity] ].

(** C5, as the code has it.  With the ground plane on and every other
    toggle off, the store holds the world, one silicon chip, one ground
    plane and no housing, transmission line, resonator assembly or flux
    line; but it also holds the two transmons, two Xmons, four resonators,
    three curves and three straights, which no toggle guards.  The border
    surfaces are chip-world and chip-ground-plane, followed by the
    surfaces of the leaves of the transmons, Xmons and resonators, in this
    order; every surface after these is the surface of a leaf of one of
    the curves and straights. *)
Theorem groundPlane_only_build lib dp destroyed :
  dp_useGroundPlane dp = true ->
  dp_useQubitHousing dp = false ->
  dp_useTransmissionLine dp = false ->
  dp_useResonatorAssembly dp = false ->
  dp_useFluxLines dp = false ->
  let s := exec (Construct lib dp) (initial_state destroyed) in
  volume_summary s
  = [(None, "World"); (None, "SiliconChip"); (None, "GroundPlane");
     (Some FourQubitTransmon, "Transmon"); (Some FourQubitTransmon, "Transmon");
     (Some FourQubitXmon, "Xmon"); (Some FourQubitXmon, "Xmon");
     (Some FourQubitResonator, "Resonator0"); (Some FourQubitResonator, "Resonator1");
     (Some FourQubitResonator, "Resonator0"); (Some FourQubitResonator, "Resonator1");
     (Some FourQubitCurve, "Curve1"); (Some FourQubitStraight, "Straight1");
     (Some FourQubitCurve, "Curve2"); (Some FourQubitStraight, "Straight2");
     (Some FourQubitCurve, "Curve3"); (Some FourQubitStraight, "Straight3")] /\
  exists chain,
    borderSurfaceTable (g4 s)
    = [{| bs_name := "border_siliconChip_world"; bs_vol1 := Some (PhysVol 1);
          bs_vol2 := Some (PhysVol 0); bs_property := fSiVacuumInterface (this s) |};
       {| bs_name := "border_siliconChip_groundPlane"; bs_vol1 := Some (PhysVol 1);
          bs_vol2 := Some (PhysVol 2); bs_property := fSiNbInterface (this s) |}]
      ++ flat_map (borders_of s 1) [3; 4; 5; 6; 7; 8; 9; 10] ++ chain /\
    Forall (fun b => exists a, In a [11; 12; 13; 14; 15; 16] /\ In b (borders_of s 1 a))
           chain.
Proof.
  destruct dp as [h g t r f ? ? ? ? ? ? ? ? ? ? ? ? ? ? ? ? ? ? ? ?].
  intros Hg Hh Ht Hr Hf s.
  cbn [dp_useGroundPlane dp_useQubitHousing dp_useTransmissionLine
       dp_useResonatorAssembly dp_useFluxLines] in Hg, Hh, Ht, Hr, Hf.
  subst g h t r f.
  split; [unfold s; evaluate_build; reflexivity|].
  exists (flat_map (borders_of s 1) [12; 11]). split.
  - rewrite <- flat_map_app.
    change ([3; 4; 5; 6; 7; 8; 9; 10] ++ [12; 11]) with [3; 4; 5; 6; 7; 8; 9; 10; 12; 11].
    unfold s.
    evaluate_build.
    rewrite <- fold_left_app_flat_map.
    reflexivity.
  - clearbody s. apply List.Forall_forall. intros b Hb.
    apply List.in_flat_map in Hb. destruct Hb as (a & Ha & Hb).
    exists a. split; [|exact Hb].
    destruct Ha as [<-|[<-|[]]]; cbn [In]; auto 10.
Qed.

Lemma groundPlane_only_build_witness :
  let dp := example_parameters false true false false false in
  (dp_useGroundPlane dp = true /\ dp_useQubitHousing dp = false /\
   dp_useTransmissionLine dp = false /\ dp_useResonatorAssembly dp = false /\
   dp_useFluxLines dp = false) /\
  volume_summary (exec (Construct named_library dp) (initial_state false))
  = [(None, "World"); (None, "SiliconChip"); (None, "GroundPlane");
     (Some FourQubitTransmon, "Transmon"); (Some FourQubitTransmon, "Transmon");
     (Some FourQubitXmon, "Xmon"); (Some FourQubitXmon, "Xmon");
     (Some FourQubitResonator, "Resonator0"); (Some FourQubitResonator, "Resonator1");
     (Some FourQubitResonator, "Resonator0"); (Some FourQubitResonator, "Resonator1");
     (Some FourQubitCurve, "Curve1"); (Some FourQubitStraight, "Straight1");
     (Some FourQubitCurve, "Curve2"); (Some FourQubitStraight, "Straight2");
     (Some FourQubitCurve, "Curve3"); (Some FourQubitStraight, "Straight3")].
Proof.
  intros dp. split.
  - repeat split.
  - exact (proj1 (groundPlane_only_build named_library dp false
                    eq_refl eq_refl eq_refl eq_refl eq_refl)).
Defined.

(** C5, as stated, fails.  With the ground plane on and every other toggle
    off there are two transmons, two Xmons and four resonators even when no
    assembly has leaves, and with two leaves per assembly there are
    twenty-two border surfaces, not two. *)
Lemma groundPlane_only_has_qubits :
  let dp := example_parameters false true false false false in
  let s := exec (Construct empty_library dp) (initial_state false) in
  let s' := exec (Construct named_library dp) (initial_state false) in
  (count_class FourQubitTransmon s = 2 /\ count_class FourQubitXmon s = 2 /\
   count_class FourQubitResonator s = 4) /\
  length (borderSurfaceTable (g4 s')) = 22.
Proof. vm_compute. repeat split. Qed.

(** C6, as the code has it.  With the ground plane and the flux lines on,
    exactly three curved flux lines are instantiated, named
    TopStraightFluxLine, BottomStraightFluxLine and bottomRightFluxLine;
    for each of them, the border surfaces that touch its leaves are exactly
    those the border creation loop derives from its catalogue. *)
Theorem fluxLines_build lib dp destroyed :
  dp_useGroundPlane dp = true ->
  dp_useFluxLines dp = true ->
  let s := exec (Construct lib dp) (initial_state destroyed) in
  count_class FourQubitCurveFluxLine s = 3 /\
  map (fun a => option_map (fun v => pName (vol_args v)) (volumeStore (g4 s) !! a))
      (class_addresses FourQubitCurveFluxLine s)
  = [Some "TopStraightFluxLine"; Some "BottomStraightFluxLine";
     Some "bottomRightFluxLine"] /\
  Forall (fun a => List.filter (touches a) (borderSurfaceTable (g4 s)) = borders_of s 1 a)
         (class_addresses FourQubitCurveFluxLine s).
Proof.
  destruct dp as [h g t r f ? ? ? ? ? ? ? ? ? ? ? ? ? ? ? ? ? ? ? ?].
  cbn [dp_useGroundPlane dp_useFluxLines].
  intros -> ->.
  destruct h, t, r; evaluate_build;
    (split; [reflexivity|]); (split; [reflexivity|]);
    match goal with
    | |- Forall _ ?l => let l' := eval lazy in l in change l with l'
    end;
    repeat constructor; cbn [borderSurfaceTable g4]; touched.
Qed.

Lemma fluxLines_build_witness :
  let dp := example_parameters false true false false true in
  (dp_useGroundPlane dp = true /\ dp_useFluxLines dp = true) /\
  count_class FourQubitCurveFluxLine
    (exec (Construct named_library dp) (initial_state false)) = 3.
Proof.
  intros dp. split.
  - repeat split.
  - exact (proj1 (fluxLines_build named_library dp false eq_refl eq_refl)).
Defined.

(** C6, as stated, fails: with the flux lines on there are three curved
    flux lines, not two. *)
Lemma three_flux_lines :
  let s := exec (Construct empty_library
                   (example_parameters false true false false true))
                (initial_state false) in
  count_class FourQubitCurveFluxLine s = 3 /\
  count_class FourQubitCurveFluxLine s <> 2.
Proof. vm_compute. split; [reflexivity|discriminate]. Qed.

(** C7, at the failing input.  With two classifiable leaves in every
    catalogue, Curve1 and Straight1 get the two border surfaces of their
    leaves, and Curve2, Straight2, Curve3 and Straight3 get none. *)
Lemma chain_elements_without_interfaces :
  let s := exec (Construct named_library
                   (example_parameters false true false false false))
                (initial_state false) in
  map (fun a => option_map (fun v => pName (vol_args v)) (volumeStore (g4 s) !! a))
      [11; 12; 13; 14; 15; 16]
  = [Some "Curve1"; Some "Straight1"; Some "Curve2"; Some "Straight2";
     Some "Curve3"; Some "Straight3"] /\
  map (fun a => length (borders_of s 1 a)) [11; 12; 13; 14; 15; 16]
  = [2; 2; 2; 2; 2; 2] /\
  map (fun a => length (List.filter (touches a) (borderSurfaceTable (g4 s))))
      [11; 12; 13; 14; 15; 16]
  = [2; 2; 0; 0; 0; 0].
Proof. vm_compute. repeat split. Qed.

(** C8.  With the ground plane off, the store holds the world and one
    silicon chip, and the housing when its toggle is on, and nothing that
    is nested under the ground plane; the border surfaces are chip-world,
    and chip-housing when the housing toggle is on: with the housing off
    too, exactly one.  The toggles of the transmission line, the resonator
    assemblies and the flux lines are inert: whatever their values,
    [Construct] returns the same result and state from every state. *)
Theorem no_groundPlane_build lib dp destroyed :
  dp_useGroundPlane dp = false ->
  let s := exec (Construct lib dp) (initial_state destroyed) in
  volume_summary s
  = [(None, "World"); (None, "SiliconChip")]
    ++ (if dp_useQubitHousing dp
        then [(Some FourQubitQubitHousing, "QubitHousing")] else []) /\
  count_placement "SiliconChip" s = 1 /\
  fWorldPhys (this s) = Some (PhysVol 0) /\
  borderSurfaceTable (g4 s)
  = [{| bs_name := "border_siliconChip_world"; bs_vol1 := Some (PhysVol 1);
        bs_vol2 := Some (PhysVol 0); bs_property := fSiVacuumInterface (this s) |}]
    ++ (if dp_useQubitHousing dp
        then [{| bs_name := "border_siliconChip_qubitHousing";
                 bs_vol1 := Some (PhysVol 1); bs_vol2 := Some (PhysVol 2);
                 bs_property := fSiCopperInterface (this s) |}]
        else []) /\
  forall transmissionLine resonatorAssembly fluxLines s0,
    Construct lib (with_nested_toggles transmissionLine resonatorAssembly fluxLines dp) s0
    = Construct lib dp s0.
Proof.
  intros Hg. split; [|split; [|split; [|split]]].
  5: { intros t r f s0. unfold Construct, SetupGeometry, construct_components.
       cbn [with_nested_toggles dp_useGroundPlane dp_useQubitHousing
            dp_siliconChipDimX dp_siliconChipDimY dp_siliconChipDimZ
            dp_housingDimZ dp_eps].
       rewrite Hg. reflexivity. }
  all: destruct dp as [h g t r f ? ? ? ? ? ? ? ? ? ? ? ? ? ? ? ? ? ? ? ?];
    cbn [dp_useGroundPlane dp_useQubitHousing] in *; subst g;
    destruct h; closed_form; vm_compute; reflexivity.
Qed.

Lemma no_groundPlane_build_witness :
  let dp := example_parameters false false true true true in
  let s := exec (Construct named_library dp) (initial_state false) in
  dp_useGroundPlane dp = false /\
  borderSurfaceTable (g4 s)
  = [{| bs_name := "border_siliconChip_world"; bs_vol1 := Some (PhysVol 1);
        bs_vol2 := Some (PhysVol 0); bs_property := fSiVacuumInterface (this s) |}].
Proof.
  intros dp s. split; [reflexivity|].
  exact (proj1 (proj2 (proj2 (proj2
           (no_groundPlane_build named_library dp false eq_refl))))).
Defined.

(** * Further properties *)

(** ** Classification by substring *)

Lemma append_nil_l s : "" +:+ s = s.
Proof. reflexivity. Qed.

Lemma append_cons c s t : String c s +:+ t = String c (s +:+ t).
Proof. reflexivity. Qed.

Lemma substring_append_exact pre pat post :
  substring (String.length pre) (String.length pat) (pre +:+ pat +:+ post) = pat.
Proof.
  induction pre as [|c pre IH].
  - rewrite append_nil_l. cbn [String.length].
    induction pat as [|c pat IH].
    + rewrite append_nil_l. now destruct post.
    + rewrite append_cons. cbn. now rewrite IH.
  - rewrite append_cons. cbn. exact IH.
Qed.

Lemma substring_0_all s : substring 0 (String.length s) s = s.
Proof. induction s as [|c s IH]; cbn; [reflexivity|now rewrite IH]. Qed.

Lemma substring_split m n s :
  String.length (substring m n s) = n ->
  s = substring 0 m s +:+ substring m n s
      +:+ substring (m + n) (String.length s - (m + n)) s.
Proof.
  revert m n; induction s as [|c s IH]; intros m n H.
  - destruct m, n; cbn in *; try discriminate; reflexivity.
  - destruct m as [|m].
    + destruct n as [|n].
      * cbn. rewrite !append_nil_l. f_equal. symmetry. apply substring_0_all.
      * cbn in H. injection H as H. cbn. rewrite append_nil_l, append_cons. f_equal.
        specialize (IH 0 n H). cbn in IH.
        replace (substring 0 0 s) with "" in IH by now destruct s.
        rewrite append_nil_l in IH. exact IH.
    + cbn in H. cbn. rewrite append_cons. f_equal. exact (IH m n H).
Qed.

(** X2.  The test [str.find(pat) != std::string::npos] of the border
    creation loop holds exactly when [pat] occurs in [str] as a contiguous
    substring, with the same letter case: a material is recognised by
    containing "Vacuum" or "Niobium" anywhere in its name. *)
Theorem find_contains str pat :
  not_npos (find str pat) = true <-> exists pre post, str = pre +:+ pat +:+ post.
Proof.
  unfold find, not_npos. split.
  - destruct (index 0 pat str) as [m|] eqn:E; [intros _|discriminate].
    apply index_correct1 in E.
    exists (substring 0 m str),
           (substring (m + String.length pat)
                      (String.length str - (m + String.length pat)) str).
    pose proof (substring_split m (String.length pat) str) as H.
    rewrite E in H. now apply H.
  - intros (pre & post & ->).
    destruct (index 0 pat (pre +:+ pat +:+ post)) as [m|] eqn:E; [reflexivity|].
    exfalso. destruct pat as [|c pat].
    + apply index_correct4 in E. lia.
    + apply (index_correct3 0 (String.length pre)) in E; [|discriminate|lia].
      apply E, substring_append_exact.
Qed.

(** ** The contract of the border creation loop *)

Lemma catalog_borders_imap vac nb chip addr (k : nat -> nat) catalog :
  let new := catalog_borders vac nb chip
               (imap (fun i e => (fst e, snd e, SubVol addr (k i))) catalog) in
  length new = count_material "Vacuum" catalog + count_material "Niobium" catalog /\
  (forall b, In b new ->
     exists i material name,
       catalog !! i = Some (material, name) /\
       ((b = leaf_border chip addr (k i) name vac /\
         not_npos (find material "Vacuum") = true) \/
        (b = leaf_border chip addr (k i) name nb /\
         not_npos (find material "Niobium") = true))) /\
  (forall i material name,
     catalog !! i = Some (material, name) ->
     (not_npos (find material "Vacuum") = true ->
      In (leaf_border chip addr (k i) name vac) new) /\
     (not_npos (find material "Niobium") = true ->
      In (leaf_border chip addr (k i) name nb) new)).
Proof.
  revert k. induction catalog as [|[material name] catalog IH]; intros k new.
  - repeat split; try (intros; discriminate). intros b [].
  - subst new. cbn [imap catalog_borders flat_map fst snd].
    specialize (IH (fun i => k (S i))). cbn zeta in IH.
    unfold catalog_borders in IH. unfold compose.
    destruct IH as (IHlen & IHsound & IHcomplete).
    unfold count_material in *. cbn [List.filter fst].
    set (rest := flat_map _ _) in *.
    unfold leaf_borders, get0, get1, get2. cbn [fst snd].
    fold (leaf_border chip addr (k 0) name vac).
    fold (leaf_border chip addr (k 0) name nb).
    split; [|split].
    + rewrite !length_app, IHlen.
      destruct (not_npos (find material "Vacuum"));
        destruct (not_npos (find material "Niobium")); cbn [length]; lia.
    + intros b Hb. rewrite !in_app_iff in Hb. destruct Hb as [[Hb|Hb]|Hb].
      * exists 0, material, name. split; [reflexivity|]. left.
        destruct (not_npos (find material "Vacuum")); [|destruct Hb].
        destruct Hb as [<-|[]]. now split.
      * exists 0, material, name. split; [reflexivity|]. right.
        destruct (not_npos (find material "Niobium")); [|destruct Hb].
        destruct Hb as [<-|[]]. now split.
      * destruct (IHsound b Hb) as (i & m & n & Hi & H).
        exists (S i), m, n. split; [exact Hi|exact H].
    + intros [|i] m n Hi.
      * cbn in Hi. injection Hi as <- <-. split; intros ->;
          rewrite !in_app_iff; [left; left|left; right]; now left.
      * cbn in Hi. destruct (IHcomplete i m n Hi) as [Hv Hn].
        split; intros H; rewrite in_app_iff; right; auto.
Qed.

(** X1.  The contract of the loop that follows an assembly in
    [SetupGeometry].  Run for the assembly [inst] and the chip [chip], from
    any state, it changes the border surface table only, and only by
    appending to it.  The number of surfaces appended is the number of
    catalogue entries whose material contains "Vacuum" plus the number of
    those whose material contains "Niobium".  Every surface appended joins
    the chip to a leaf that is in the catalogue of [inst], is named after
    that leaf, and has the Si-Vacuum property for a material containing
    "Vacuum" or the Si-Nb property for a material containing "Niobium"; and
    every entry with such a material has its surface.  An empty catalogue
    leaves the state as it is. *)
Theorem border_creation_loop_contract chip inst s :
  let s' := exec (border_creation_loop chip inst) s in
  let vac := fSiVacuumInterface (this s) in
  let nb := fSiNbInterface (this s) in
  let catalog := inst_catalog inst in
  this s' = this s /\
  with_borderSurfaceTable (borderSurfaceTable (g4 s)) (g4 s') = g4 s /\
  (catalog = [] -> s' = s) /\
  exists new,
    borderSurfaceTable (g4 s') = borderSurfaceTable (g4 s) ++ new /\
    length new = count_material "Vacuum" catalog + count_material "Niobium" catalog /\
    (forall b, In b new ->
       exists i material name,
         catalog !! i = Some (material, name) /\
         ((b = leaf_border chip (inst_addr inst) i name vac /\
           not_npos (find material "Vacuum") = true) \/
          (b = leaf_border chip (inst_addr inst) i name nb /\
           not_npos (find material "Niobium") = true))) /\
    (forall i material name,
       catalog !! i = Some (material, name) ->
       (not_npos (find material "Vacuum") = true ->
        In (leaf_border chip (inst_addr inst) i name vac) new) /\
       (not_npos (find material "Niobium") = true ->
        In (leaf_border chip (inst_addr inst) i name nb) new)).
Proof.
  intros s' vac nb catalog. subst s'. unfold exec.
  rewrite border_creation_loop_run. cbn [snd].
  split; [reflexivity|]. split.
  { destruct s as [m [f st lt bt pt sd]]. reflexivity. }
  split.
  { subst catalog. intros Hc.
    unfold instance_borders, GetListOfAllFundamentalSubVolumes. rewrite Hc.
    apply add_borders_nil. }
  exists (instance_borders vac nb chip inst).
  split; [reflexivity|].
  apply (catalog_borders_imap vac nb chip (inst_addr inst) (fun i => i) catalog).
Qed.

(** ** What [Construct] reads *)

(** X3.  [Construct] reads no stale data: its result and the state it
    ends in are the same when everything it writes before reading it is
    cleared first.  The constructor leaves [fSilicon], [fNiobium] and the
    three interface pointers uninitialised; the materials and the world
    pointer are written before any use, the interface pointers are too on
    an object that has not constructed before, and on one that has, the
    old border surfaces, lattices and (unless the run manager has destroyed
    the geometry) stored volumes have no influence. *)
Theorem Construct_reads_no_stale_data lib dp s :
  Construct lib dp s = Construct lib dp (cleared s).
Proof.
  destruct s as [[he ge si al w nb world sens constructed pnb pcu pvac]
                 [destroyed store lattice table props sd]].
  unfold cleared. cbn [this g4 fConstructed fSuperconductorSensitivity fSiNbInterface
    fSiCopperInterface fSiVacuumInterface geometryHasBeenDestroyed volumeStore
    surfacePropertyTable sdManager].
  destruct constructed, destroyed; vm_compute; reflexivity.
Qed.

(** ** Relocation *)

Section Simulation.

Variable volumes : list StoredVolume.
Variable lattices : list (G4VPhysicalVolume * G4LatticePhysical).
Variable borders : list G4CMPLogicalBorderSurface.

Let n := length volumes.
Let moved := relocate volumes lattices borders.

(** [c2], run from a state moved behind [volumes], [lattices] and
    [borders], does what [c1] does from the state itself, moved; their
    results are related by [R]. *)
Definition simulates {A} (R : A -> A -> Prop) (c1 c2 : M A) : Prop :=
  forall s, R (fst (c1 s)) (fst (c2 (moved s))) /\ snd (c2 (moved s)) = moved (snd (c1 s)).

Definition same_address (a1 a2 : nat) : Prop := a2 = n + a1.
Definition same_instance (i1 i2 : AssemblyInstance) : Prop := i2 = shift_instance n i1.
Definition same_volume (v1 v2 : option G4VPhysicalVolume) : Prop :=
  v2 = option_map (shift_vol n) v1.

Lemma sim_ret {A} (R : A -> A -> Prop) a1 a2 : R a1 a2 -> simulates R (ret a1) (ret a2).
Proof. intros H s. split; [exact H|reflexivity]. Qed.

Lemma sim_bind {A B} (RA : A -> A -> Prop) (RB : B -> B -> Prop) c1 c2 k1 k2 :
  simulates RA c1 c2 ->
  (forall a1 a2, RA a1 a2 -> simulates RB (k1 a1) (k2 a2)) ->
  simulates RB (bind c1 k1) (bind c2 k2).
Proof.
  intros Hc Hk s. unfold bind.
  destruct (Hc s) as [Ha Hs].
  destruct (c1 s) as [a1 s1], (c2 (moved s)) as [a2 s2]. cbn [fst snd] in *. subst s2.
  apply (Hk a1 a2 Ha).
Qed.

Lemma sim_when c b1 b2 : simulates eq b1 b2 -> simulates eq (when c b1) (when c b2).
Proof. intros H. destruct c; [exact H|]. now apply sim_ret. Qed.

Lemma sim_for_each {A} (l : list A) f1 f2 :
  (forall x, simulates eq (f1 x) (f2 x)) -> simulates eq (for_each l f1) (for_each l f2).
Proof.
  intros H. induction l as [|x l IH]; cbn [for_each]; [now apply sim_ret|].
  apply (sim_bind eq); [apply H|intros ? ? ?; exact IH].
Qed.

Lemma sim_member {A} (f : Members -> A) :
  (forall w m, f (with_fWorldPhys w m) = f m) -> simulates eq (member f) (member f).
Proof. intros H s. split; [|reflexivity]. cbn. symmetry. apply H. Qed.

Lemma sim_member_fWorldPhys : simulates same_volume (member fWorldPhys) (member fWorldPhys).
Proof. intros s. split; reflexivity. Qed.

Lemma sim_set_fWorldPhys w1 w2 :
  same_volume w1 w2 ->
  simulates eq (set_this (with_fWorldPhys w1)) (set_this (with_fWorldPhys w2)).
Proof. intros -> s. split; reflexivity. Qed.

Lemma sim_set_this (g : Members -> Members) :
  (forall w m, g (with_fWorldPhys w m) = with_fWorldPhys w (g m)) ->
  (forall m, fWorldPhys (g m) = fWorldPhys m) ->
  simulates eq (set_this g) (set_this g).
Proof.
  intros H1 H2 s. split; [reflexivity|].
  unfold moved, relocate, set_this. cbn [snd this g4]. now rewrite H1, H2.
Qed.

Lemma sim_store_volume v1 v2 :
  v2 = shift_stored n v1 -> simulates same_address (store_volume v1) (store_volume v2).
Proof.
  intros -> s. unfold store_volume, same_address, moved, relocate.
  cbn [fst snd this g4 volumeStore with_volumeStore geometryHasBeenDestroyed
       latticeTable borderSurfaceTable surfacePropertyTable sdManager].
  split.
  - now rewrite length_app, length_map.
  - now rewrite map_app, app_assoc.
Qed.

Lemma sim_new_G4PVPlacement log args m1 m2 :
  m2 = option_map (Nat.add n) m1 ->
  simulates same_address (new_G4PVPlacement log args m1) (new_G4PVPlacement log args m2).
Proof. intros ->. now apply sim_store_volume. Qed.

Lemma sim_new_Assembly lib cls args m1 m2 :
  m2 = option_map (Nat.add n) m1 ->
  simulates same_instance (new_Assembly lib cls args m1) (new_Assembly lib cls args m2).
Proof.
  intros ->. unfold new_Assembly.
  apply (sim_bind same_address); [now apply sim_store_volume|].
  intros a1 a2 ->. now apply sim_ret.
Qed.

Lemma sim_new_G4CMPLogicalBorderSurface name v1 v1' v2 v2' prop :
  same_volume v1 v1' -> same_volume v2 v2' ->
  simulates eq (new_G4CMPLogicalBorderSurface name v1 v2 prop)
               (new_G4CMPLogicalBorderSurface name v1' v2' prop).
Proof.
  intros -> -> s. split; [reflexivity|].
  unfold new_G4CMPLogicalBorderSurface, set_g4, moved, relocate.
  cbn [snd this g4 volumeStore with_borderSurfaceTable geometryHasBeenDestroyed
       latticeTable borderSurfaceTable surfacePropertyTable sdManager].
  now rewrite map_app, app_assoc.
Qed.

Lemma sim_RegisterLattice a lat :
  simulates eq (RegisterLattice (PhysVol a) lat) (RegisterLattice (PhysVol (n + a)) lat).
Proof.
  intros s. split; [reflexivity|].
  unfold RegisterLattice, set_g4, moved, relocate.
  cbn [snd this g4 volumeStore with_latticeTable geometryHasBeenDestroyed
       latticeTable borderSurfaceTable surfacePropertyTable sdManager].
  now rewrite map_app, app_assoc.
Qed.

Lemma instance_borders_shift vac nb chip inst :
  instance_borders vac nb (shift_vol n chip) (shift_instance n inst)
  = map (shift_border n) (instance_borders vac nb chip inst).
Proof.
  unfold instance_borders, GetListOfAllFundamentalSubVolumes, catalog_borders,
    shift_instance. cbn [inst_addr inst_catalog].
  generalize (inst_addr inst) as a. generalize (inst_catalog inst) as l.
  intros l a.
  assert (G : forall (k : nat -> nat),
    flat_map (leaf_borders vac nb (shift_vol n chip))
      (imap (fun i e => (fst e, snd e, SubVol (n + a) (k i))) l)
    = map (shift_border n)
        (flat_map (leaf_borders vac nb chip)
           (imap (fun i e => (fst e, snd e, SubVol a (k i))) l))).
  { induction l as [|e l IH]; intros k; [reflexivity|].
    cbn [imap flat_map]. rewrite map_app.
    specialize (IH (fun i => k (S i))). unfold compose. cbn beta.
    rewrite IH. f_equal.
    unfold leaf_borders, get0, get1, get2. cbn [fst snd].
    destruct (not_npos (find (fst e) "Vacuum"));
      destruct (not_npos (find (fst e) "Niobium")); reflexivity. }
  apply (G (fun i => i)).
Qed.

Lemma sim_border_creation_loop chip inst1 inst2 :
  same_instance inst1 inst2 ->
  simulates eq (border_creation_loop (PhysVol chip) inst1)
               (border_creation_loop (PhysVol (n + chip)) inst2).
Proof.
  intros -> s. rewrite !border_creation_loop_run. split; [reflexivity|].
  change (PhysVol (n + chip)) with (shift_vol n (PhysVol chip)).
  unfold add_borders, moved, relocate.
  cbn [snd this g4 volumeStore with_borderSurfaceTable geometryHasBeenDestroyed
       latticeTable borderSurfaceTable surfacePropertyTable sdManager with_fWorldPhys
       fSiVacuumInterface fSiNbInterface].
  now rewrite instance_borders_shift, map_app, app_assoc.
Qed.

Lemma sim_AddNewDetector sd : simulates eq (AddNewDetector sd) (AddNewDetector sd).
Proof. intros s. destruct sd; split; reflexivity. Qed.

Lemma alter_map_shift (f : StoredVolume -> StoredVolume) a l :
  (forall v, f (shift_stored n v) = shift_stored n (f v)) ->
  alter f a (map (shift_stored n) l) = map (shift_stored n) (alter f a l).
Proof.
  intros H. revert a; induction l as [|v l IH]; intros [|a]; cbn; try reflexivity.
  - now rewrite H.
  - f_equal. apply IH.
Qed.

Lemma sim_SetSensitiveDetector a sd :
  simulates eq (SetSensitiveDetector a sd) (SetSensitiveDetector (n + a) sd).
Proof.
  intros s. split; [reflexivity|].
  unfold SetSensitiveDetector, set_g4, moved, relocate.
  cbn [snd this g4 volumeStore with_volumeStore geometryHasBeenDestroyed
       latticeTable borderSurfaceTable surfacePropertyTable sdManager].
  unfold n at 1. rewrite alter_app_r, alter_map_shift; [reflexivity|].
  now intros [log args m|cls args m catalog].
Qed.

Lemma sim_define_surface_properties :
  simulates eq define_surface_properties define_surface_properties.
Proof.
  intros s.
  destruct s as [[he ge si al w nb world sens constructed pnb pcu pvac]
                 [destroyed store lattice table props sd]].
  destruct constructed; split; reflexivity.
Qed.

Create HintDb simulation discriminated.

Ltac sim_intro :=
  let a1 := fresh "a" in
  let a2 := fresh "a" in
  let H := fresh "H" in
  intros a1 a2 H;
  first [ subst a2
        | unfold same_address in H; subst a2
        | unfold same_instance in H; subst a2
        | unfold same_volume in H; subst a2 ].

(** Walking through a program, one operation at a time. *)
Ltac sim :=
  cbv beta zeta;
  lazymatch goal with
  | |- simulates _ (bind _ _) (bind _ _) => eapply sim_bind; [ sim | sim_intro; sim ]
  | |- simulates _ (when _ _) (when _ _) => apply sim_when; sim
  | |- simulates _ (for_each _ _) (for_each _ _) => apply sim_for_each; intros ?; sim
  | |- simulates _ (ret _) (ret _) => apply sim_ret; reflexivity
  | |- simulates _ (member fWorldPhys) _ => apply sim_member_fWorldPhys
  | |- simulates _ (member _) _ => apply sim_member; reflexivity
  | |- simulates _ (set_this (with_fWorldPhys _)) _ => apply sim_set_fWorldPhys; reflexivity
  | |- simulates _ (set_this _) _ => apply sim_set_this; reflexivity
  | |- simulates _ (new_G4PVPlacement _ _ _) _ => apply sim_new_G4PVPlacement; reflexivity
  | |- simulates _ (new_Assembly _ _ _ _) _ => apply sim_new_Assembly; reflexivity
  | |- simulates _ (new_G4CMPLogicalBorderSurface _ _ _ _) _ =>
      apply sim_new_G4CMPLogicalBorderSurface; reflexivity
  | |- simulates _ (RegisterLattice _ _) _ => apply sim_RegisterLattice
  | |- simulates _ (border_creation_loop _ _) _ =>
      apply sim_border_creation_loop; reflexivity
  | |- simulates _ (AddNewDetector _) _ => apply sim_AddNewDetector
  | |- simulates _ (SetSensitiveDetector _ _) _ => apply sim_SetSensitiveDetector
  | |- simulates _ define_surface_properties _ => apply sim_define_surface_properties
  | |- _ => solve [auto 1 with simulation]
  end.

Lemma sim_build_element lib cls rot t name chip groundPlane :
  simulates eq
    (build_element lib cls rot t name (PhysVol chip) (Some groundPlane))
    (build_element lib cls rot t name (PhysVol (n + chip)) (Some (n + groundPlane))).
Proof. unfold build_element. sim. Qed.

Hint Resolve sim_build_element : simulation.

Lemma sim_build_transmissionLine lib chip groundPlane :
  simulates eq
    (build_transmissionLine lib (PhysVol chip) (Some groundPlane))
    (build_transmissionLine lib (PhysVol (n + chip)) (Some (n + groundPlane))).
Proof. unfold build_transmissionLine. sim. Qed.

Lemma sim_build_resonatorAssemblies lib dp chip groundPlane :
  simulates eq
    (build_resonatorAssemblies lib dp (PhysVol chip) (Some groundPlane))
    (build_resonatorAssemblies lib dp (PhysVol (n + chip)) (Some (n + groundPlane))).
Proof. unfold build_resonatorAssemblies. sim. Qed.

Lemma sim_build_fluxLines lib dp chip groundPlane :
  simulates eq
    (build_fluxLines lib dp (PhysVol chip) (Some groundPlane))
    (build_fluxLines lib dp (PhysVol (n + chip)) (Some (n + groundPlane))).
Proof. unfold build_fluxLines. sim. Qed.

Lemma sim_build_qubits lib chip groundPlane :
  simulates eq
    (build_qubits lib (PhysVol chip) (Some groundPlane))
    (build_qubits lib (PhysVol (n + chip)) (Some (n + groundPlane))).
Proof. unfold build_qubits. sim. Qed.

Lemma sim_build_otherPieces lib dp chip groundPlane :
  simulates eq
    (build_otherPieces lib dp (PhysVol chip) (Some groundPlane))
    (build_otherPieces lib dp (PhysVol (n + chip)) (Some (n + groundPlane))).
Proof. unfold build_otherPieces. sim. Qed.

Hint Resolve sim_build_transmissionLine sim_build_resonatorAssemblies
  sim_build_fluxLines sim_build_qubits sim_build_otherPieces : simulation.

Lemma sim_build_groundPlane lib dp chip world :
  simulates eq
    (build_groundPlane lib dp (PhysVol chip) (Some world))
    (build_groundPlane lib dp (PhysVol (n + chip)) (Some (n + world))).
Proof. unfold build_groundPlane. sim. Qed.

Hint Resolve sim_build_groundPlane : simulation.

Lemma sim_construct_components lib dp :
  simulates eq (construct_components lib dp) (construct_components lib dp).
Proof. unfold construct_components. sim. Qed.

Lemma sim_SetupGeometry lib dp :
  simulates eq (SetupGeometry lib dp) (SetupGeometry lib dp).
Proof.
  unfold SetupGeometry.
  eapply sim_bind; [apply sim_define_surface_properties|].
  intros ? ? ?. apply sim_construct_components.
Qed.

End Simulation.

Lemma SetupGeometry_ignores_fWorldPhys lib dp w s :
  SetupGeometry lib dp {| this := with_fWorldPhys w (this s); g4 := g4 s |}
  = SetupGeometry lib dp s.
Proof.
  destruct s as [[he ge si al w0 nb world sens constructed pnb pcu pvac]
                 [destroyed store lattice table props sd]].
  destruct constructed; vm_compute; reflexivity.
Qed.

Lemma relocate_emptied s :
  relocate (volumeStore (g4 s)) (latticeTable (g4 s)) (borderSurfaceTable (g4 s)) (emptied s)
  = {| this := with_fWorldPhys None (this s); g4 := g4 s |}.
Proof.
  destruct s as [m [destroyed store lattice table props sd]].
  unfold relocate, emptied. cbn. now rewrite !app_nil_r.
Qed.

(** X4.  [SetupGeometry] is independent of what the stores hold.  From any
    state, it ends in the state it ends in from empty volume stores, lattice
    table and border surface table, moved behind what there was: the volumes,
    lattices and border surfaces there were are kept, in place and
    unchanged; the new ones come after them and are those of the run from
    empty tables, with every address (mothers, border surface volumes,
    lattice volume, world pointer) moved by the number of volumes there
    were. *)
Theorem SetupGeometry_relocates lib dp s :
  exec (SetupGeometry lib dp) s
  = relocate (volumeStore (g4 s)) (latticeTable (g4 s)) (borderSurfaceTable (g4 s))
      (exec (SetupGeometry lib dp) (emptied s)).
Proof.
  unfold exec.
  rewrite <- (SetupGeometry_ignores_fWorldPhys lib dp None s).
  rewrite <- relocate_emptied.
  apply sim_SetupGeometry.
Qed.

(** ** Invariants of the construction *)

Section Growth.

(** The generation under construction has its world stored at [world];
    the data members are [m] throughout. *)
Variable world : nat.
Variable m : Members.

(** [s'] is [s] with volumes and border surfaces of the generation of
    [world] appended. *)
Definition grows (s s' : State) : Prop :=
  this s' = this s /\
  geometryHasBeenDestroyed (g4 s') = geometryHasBeenDestroyed (g4 s) /\
  latticeTable (g4 s') = latticeTable (g4 s) /\
  surfacePropertyTable (g4 s') = surfacePropertyTable (g4 s) /\
  sdManager (g4 s') = sdManager (g4 s) /\
  (exists vs, volumeStore (g4 s') = volumeStore (g4 s) ++ vs) /\
  (forall a v, volumeStore (g4 s') !! a = Some v -> length (volumeStore (g4 s)) <= a ->
               placed_in_generation world a v) /\
  (exists bs, borderSurfaceTable (g4 s') = borderSurfaceTable (g4 s) ++ bs /\
              Forall (interface_well_formed world (volumeStore (g4 s')) m) bs).

(** The volume at address [fst k] is of the generation and exposes the
    catalogue [snd k]. *)
Definition known (s : State) (k : nat * list CatalogEntry) : Prop :=
  world <= fst k /\
  exists x, volumeStore (g4 s) !! fst k = Some x /\ vol_catalog x = snd k.

(** Run from a state whose data members are [m] and in which the volumes
    [L] are known, [c] only appends volumes and border surfaces of the
    generation, and the volumes [L'] of its result are known afterwards. *)
Definition run_grows {A} (L : list (nat * list CatalogEntry)) (c : M A)
    (L' : A -> list (nat * list CatalogEntry)) : Prop :=
  forall s, this s = m -> Forall (known s) L ->
    grows s (snd (c s)) /\ Forall (known (snd (c s))) (L' (fst (c s))).

Lemma endpoint_in_app lo store vs v :
  endpoint_in lo store v = true -> endpoint_in lo (store ++ vs) v = true.
Proof.
  destruct v as [[a|a i]|]; unfold endpoint_in; [| |discriminate].
  - rewrite !andb_true_iff, !Nat.ltb_lt, length_app.
    intros [H1 H2]. split; [exact H1|lia].
  - rewrite !andb_true_iff. intros [Hlo H]. split; [exact Hlo|].
    destruct (store !! a) as [x|] eqn:E; [|discriminate].
    now rewrite (lookup_app_l_Some _ _ _ _ E).
Qed.

Lemma interface_well_formed_app store vs b :
  interface_well_formed world store m b -> interface_well_formed world (store ++ vs) m b.
Proof. intros (H1 & H2 & H3). repeat split; auto using endpoint_in_app. Qed.

Lemma lookup_snoc_ge {A} (l : list A) v a x :
  (l ++ [v]) !! a = Some x -> length l <= a -> a = length l /\ x = v.
Proof.
  intros H Ha. rewrite lookup_app_r in H by assumption.
  destruct (a - length l) as [|k] eqn:E; [|discriminate].
  cbn in H. injection H as H. split; [lia|congruence].
Qed.

Lemma grows_refl s : grows s s.
Proof.
  split; [reflexivity|]. do 4 (split; [reflexivity|]).
  split; [exists []; now rewrite app_nil_r|]. split.
  - intros a v H Ha. apply lookup_lt_Some in H. lia.
  - exists []. split; [now rewrite app_nil_r|constructor].
Qed.

Lemma grows_trans s1 s2 s3 : grows s1 s2 -> grows s2 s3 -> grows s1 s3.
Proof.
  intros (Ht & Hf & Hl & Hp & Hd & (vs & Hv) & Hg & (bs & Hb & Hw))
         (Ht' & Hf' & Hl' & Hp' & Hd' & (vs' & Hv') & Hg' & (bs' & Hb' & Hw')).
  split; [congruence|]. do 4 (split; [congruence|]).
  split; [exists (vs ++ vs'); now rewrite Hv', Hv, app_assoc|]. split.
  - intros a v H Hlo.
    destruct (Nat.lt_ge_cases a (length (volumeStore (g4 s2)))) as [Ha|Ha].
    + apply (Hg a v); [|assumption].
      rewrite Hv', lookup_app_l in H by assumption. exact H.
    + now apply (Hg' a v).
  - exists (bs ++ bs'). split; [now rewrite Hb', Hb, app_assoc|].
    apply Forall_app_2; [|exact Hw'].
    rewrite Hv'. eapply List.Forall_impl; [|exact Hw].
    intros b. apply interface_well_formed_app.
Qed.

Lemma known_grows s s' k : grows s s' -> known s k -> known s' k.
Proof.
  intros (_ & _ & _ & _ & _ & (vs & Hv) & _) (Hlo & x & Hx & Hc).
  split; [exact Hlo|]. exists x. split; [|exact Hc].
  rewrite Hv. now apply lookup_app_l_Some.
Qed.

Lemma rg_bind {A B} L (c : M A) L1 (k : A -> M B) L2 :
  run_grows L c L1 -> (forall a, run_grows (L1 a) (k a) L2) ->
  run_grows L (bind c k) L2.
Proof.
  intros Hc Hk s Hm HL. unfold bind.
  destruct (Hc s Hm HL) as [Hg HL1].
  destruct (c s) as [a s1]. cbn [fst snd] in *.
  assert (Hm1 : this s1 = m) by (destruct Hg as [-> _]; exact Hm).
  destruct (Hk a s1 Hm1 HL1) as [Hg2 HL2].
  split; [|exact HL2]. eapply grows_trans; eassumption.
Qed.

Lemma rg_weaken {A} L (c : M A) L1 L2 :
  run_grows L c L1 -> (forall a, incl (L2 a) (L1 a)) -> run_grows L c L2.
Proof.
  intros Hc Hi s Hm HL. destruct (Hc s Hm HL) as [Hg HL1].
  split; [exact Hg|].
  rewrite List.Forall_forall in *. intros k Hk. apply HL1, (Hi _ _ Hk).
Qed.

Lemma rg_ret {A} L (a : A) L' : incl (L' a) L -> run_grows L (ret a) L'.
Proof.
  intros Hi s Hm HL. split; [apply grows_refl|]. cbn.
  rewrite List.Forall_forall in *. intros k Hk. apply HL, (Hi _ Hk).
Qed.

Lemma rg_when L (c : bool) body :
  run_grows L body (fun _ => L) -> run_grows L (when c body) (fun _ => L).
Proof. intros H. destruct c; [exact H|]. apply rg_ret, incl_refl. Qed.

Lemma rg_for_each {A} L (l : list A) body :
  (forall x, run_grows L (body x) (fun _ => L)) ->
  run_grows L (for_each l body) (fun _ => L).
Proof.
  intros H. induction l as [|x l IH]; cbn [for_each].
  - apply rg_ret, incl_refl.
  - eapply rg_bind; [apply H|intros ?; exact IH].
Qed.

Lemma rg_bind_member {A B} L (f : Members -> A) (k : A -> M B) L2 :
  run_grows L (k (f m)) L2 -> run_grows L (bind (member f) k) L2.
Proof. intros H s Hm HL. unfold bind, member. rewrite Hm. now apply H. Qed.

Lemma rg_store_volume L v mother :
  vol_sensitive v = None -> pSurfChk (vol_args v) = true ->
  vol_mother v = Some mother -> In mother (map fst L) ->
  run_grows L (store_volume v) (fun a => (a, vol_catalog v) :: L).
Proof.
  intros Hs Hc Hmo Hin s Hm HL.
  assert (Hmother : world <= mother < length (volumeStore (g4 s))).
  { apply in_map_iff in Hin. destruct Hin as (k & <- & Hk).
    rewrite List.Forall_forall in HL. destruct (HL k Hk) as (Hlo & x & Hx & _).
    apply lookup_lt_Some in Hx. lia. }
  assert (Hg : grows s (snd (store_volume v s))).
  { unfold grows, store_volume. cbn [snd this g4 with_volumeStore volumeStore
      geometryHasBeenDestroyed latticeTable borderSurfaceTable surfacePropertyTable
      sdManager].
    split; [reflexivity|]. do 4 (split; [reflexivity|]).
    split; [now exists [v]|]. split.
    - intros a x Hx Ha. destruct (lookup_snoc_ge _ _ _ _ Hx Ha) as [-> ->].
      repeat split; [exact Hs|exact Hc|]. exists mother. split; [exact Hmo|lia].
    - exists []. split; [now rewrite app_nil_r|constructor]. }
  split; [exact Hg|].
  constructor.
  - unfold store_volume, known. cbn [fst snd this g4 with_volumeStore volumeStore].
    split; [lia|]. exists v. split; [|reflexivity].
    rewrite lookup_app_r by lia. now rewrite Nat.sub_diag.
  - eapply List.Forall_impl; [|exact HL]. intros k. now apply known_grows.
Qed.

Lemma rg_new_G4PVPlacement L log args mother :
  lv_sensitive log = None -> pSurfChk args = true -> In mother (map fst L) ->
  run_grows L (new_G4PVPlacement log args (Some mother)) (fun a => (a, []) :: L).
Proof.
  intros Hs Hc Hin. unfold new_G4PVPlacement.
  now apply (rg_store_volume L (Placement log args (Some mother)) mother).
Qed.

Lemma rg_new_Assembly L lib cls args mother :
  pSurfChk args = true -> In mother (map fst L) ->
  run_grows L (new_Assembly lib cls args (Some mother))
            (fun inst => (inst_addr inst, inst_catalog inst) :: L).
Proof.
  intros Hc Hin. unfold new_Assembly.
  eapply rg_bind.
  - now apply (rg_store_volume L (Assembly cls args (Some mother) (lib cls args)) mother).
  - intros a. apply rg_ret. cbn. apply incl_refl.
Qed.

Lemma add_borders_grows s bs :
  Forall (interface_well_formed world (volumeStore (g4 s)) m) bs ->
  grows s (add_borders bs s).
Proof.
  intros H. unfold grows, add_borders.
  cbn [this g4 with_borderSurfaceTable volumeStore geometryHasBeenDestroyed
       latticeTable borderSurfaceTable surfacePropertyTable sdManager].
  split; [reflexivity|]. do 4 (split; [reflexivity|]).
  split; [exists []; now rewrite app_nil_r|]. split.
  - intros a v Hv Ha. apply lookup_lt_Some in Hv. lia.
  - exists bs. split; [reflexivity|exact H].
Qed.

Lemma rg_new_G4CMPLogicalBorderSurface L name a prop :
  In a (map fst L) ->
  In prop [fSiNbInterface m; fSiCopperInterface m; fSiVacuumInterface m] ->
  run_grows L
    (new_G4CMPLogicalBorderSurface name (Some (PhysVol (S world))) (Some (PhysVol a)) prop)
    (fun _ => L).
Proof.
  intros Hin Hp s Hm HL.
  assert (Ha : world <= a < length (volumeStore (g4 s))).
  { apply in_map_iff in Hin. destruct Hin as (k & <- & Hk).
    rewrite List.Forall_forall in HL. destruct (HL k Hk) as (Hlo & x & Hx & _).
    apply lookup_lt_Some in Hx. lia. }
  assert (Hg : grows s (snd (new_G4CMPLogicalBorderSurface name
                  (Some (PhysVol (S world))) (Some (PhysVol a)) prop s))).
  { apply (add_borders_grows s [_]). constructor; [|constructor].
    repeat split; [|exact Hp].
    cbn. apply andb_true_iff. split; [apply Nat.leb_le|apply Nat.ltb_lt]; lia. }
  split; [exact Hg|].
  eapply List.Forall_impl; [|exact HL]. intros k. now apply known_grows.
Qed.

Lemma instance_borders_well_formed store vac nb inst x :
  store !! inst_addr inst = Some x ->
  vol_catalog x = inst_catalog inst ->
  world <= inst_addr inst ->
  In vac [fSiNbInterface m; fSiCopperInterface m; fSiVacuumInterface m] ->
  In nb [fSiNbInterface m; fSiCopperInterface m; fSiVacuumInterface m] ->
  Forall (interface_well_formed world store m)
         (instance_borders vac nb (PhysVol (S world)) inst).
Proof.
  intros Hx Hc Hlo Hvac Hnb.
  apply List.Forall_forall. intros b Hb.
  destruct (catalog_borders_imap vac nb (PhysVol (S world)) (inst_addr inst) (fun i => i)
              (inst_catalog inst)) as (_ & Hsound & _).
  destruct (Hsound b Hb) as (i & material & name & Hi & H).
  assert (Hend : endpoint_in world store (Some (SubVol (inst_addr inst) i)) = true).
  { unfold endpoint_in. rewrite Hx, Hc.
    apply andb_true_iff. split; [now apply Nat.leb_le|].
    apply Nat.ltb_lt. apply lookup_lt_Some in Hi. exact Hi. }
  destruct H as [[-> _]|[-> _]]; repeat split; assumption.
Qed.

Lemma rg_border_creation_loop L inst :
  In (inst_addr inst, inst_catalog inst) L ->
  run_grows L (border_creation_loop (PhysVol (S world)) inst) (fun _ => L).
Proof.
  intros Hin s Hm HL. rewrite border_creation_loop_run. cbn [fst snd].
  assert (Hg : grows s (add_borders
            (instance_borders (fSiVacuumInterface (this s)) (fSiNbInterface (this s))
               (PhysVol (S world)) inst) s)).
  { apply add_borders_grows.
    rewrite List.Forall_forall in HL. destruct (HL _ Hin) as (Hlo & x & Hx & Hc).
    rewrite Hm. apply (instance_borders_well_formed _ _ _ _ x); auto; cbn; tauto. }
  split; [exact Hg|].
  eapply List.Forall_impl; [|exact HL]. intros k. now apply known_grows.
Qed.


Ltac in_known := cbn [map fst snd In inst_addr inst_catalog]; tauto.

Ltac incl_known :=
  let k := fresh "k" in
  let Hk := fresh "Hk" in
  intros; intros k Hk; cbn [In] in *; tauto.

Create HintDb growth discriminated.

Hint Extern 1 (In _ _) => in_known : growth.

(** Walking through a block of [SetupGeometry], one operation at a
    time. *)
Ltac walk :=
  cbv beta zeta;
  lazymatch goal with
  | |- run_grows _ (bind (member _) _) _ => apply rg_bind_member; walk
  | |- run_grows _ (bind _ _) _ => eapply rg_bind; [ walk | intros ?; walk ]
  | |- run_grows _ _ ?P =>
      tryif is_evar P then walk_one
      else (eapply rg_weaken; [ walk_one | incl_known ])
  end
with walk_one :=
  lazymatch goal with
  | |- run_grows _ (when _ _) _ => apply rg_when; walk
  | |- run_grows _ (for_each _ _) _ => apply rg_for_each; intros ?; walk
  | |- run_grows _ (ret _) _ => apply rg_ret; incl_known
  | |- run_grows _ (new_G4PVPlacement _ _ _) _ =>
      apply rg_new_G4PVPlacement; [reflexivity | reflexivity | in_known]
  | |- run_grows _ (new_Assembly _ _ _ _) _ =>
      apply rg_new_Assembly; [reflexivity | in_known]
  | |- run_grows _ (new_G4CMPLogicalBorderSurface _ _ _ _) _ =>
      apply rg_new_G4CMPLogicalBorderSurface; [in_known | cbn [In]; tauto]
  | |- run_grows _ (border_creation_loop _ _) _ =>
      apply rg_border_creation_loop; in_known
  | |- _ => solve [eauto 3 with growth]
  end.

Lemma rg_build_element L lib cls rot t name groundPlane :
  In groundPlane (map fst L) ->
  run_grows L (build_element lib cls rot t name (PhysVol (S world)) (Some groundPlane))
            (fun _ => L).
Proof. intros H. unfold build_element. walk. Qed.

Hint Resolve rg_build_element : growth.

Lemma rg_build_transmissionLine L lib groundPlane :
  In groundPlane (map fst L) ->
  run_grows L (build_transmissionLine lib (PhysVol (S world)) (Some groundPlane))
            (fun _ => L).
Proof. intros H. unfold build_transmissionLine. walk. Qed.

Lemma rg_build_resonatorAssemblies L lib dp groundPlane :
  In groundPlane (map fst L) ->
  run_grows L (build_resonatorAssemblies lib dp (PhysVol (S world)) (Some groundPlane))
            (fun _ => L).
Proof. intros H. unfold build_resonatorAssemblies. walk. Qed.

Lemma rg_build_fluxLines L lib dp groundPlane :
  In groundPlane (map fst L) ->
  run_grows L (build_fluxLines lib dp (PhysVol (S world)) (Some groundPlane))
            (fun _ => L).
Proof. intros H. unfold build_fluxLines. walk. Qed.

Lemma rg_build_qubits L lib groundPlane :
  In groundPlane (map fst L) ->
  run_grows L (build_qubits lib (PhysVol (S world)) (Some groundPlane)) (fun _ => L).
Proof. intros H. unfold build_qubits. walk. Qed.

Lemma rg_build_otherPieces L lib dp groundPlane :
  In groundPlane (map fst L) ->
  run_grows L (build_otherPieces lib dp (PhysVol (S world)) (Some groundPlane))
            (fun _ => L).
Proof. intros H. unfold build_otherPieces. walk. Qed.

Hint Resolve rg_build_transmissionLine rg_build_resonatorAssemblies
  rg_build_fluxLines rg_build_qubits rg_build_otherPieces : growth.

Lemma rg_build_groundPlane L lib dp :
  In world (map fst L) ->
  run_grows L (build_groundPlane lib dp (PhysVol (S world)) (Some world)) (fun _ => L).
Proof. intros H. unfold build_groundPlane. walk. Qed.

End Growth.

Lemma rg_housing_and_groundPlane world m L lib dp :
  In world (map fst L) ->
  run_grows world m L (housing_and_groundPlane lib dp world) (fun _ => L).
Proof.
  intros H. unfold housing_and_groundPlane, GetPhysicalVolume.
  eapply rg_bind.
  - apply rg_when.
    eapply rg_bind; [apply rg_new_Assembly; [reflexivity|exact H]|].
    intros housing. cbv beta. apply rg_bind_member.
    eapply rg_weaken.
    + apply rg_new_G4CMPLogicalBorderSurface; [now left|cbn [In]; tauto].
    + intros ? k Hk. now right.
  - intros ?. apply rg_when, rg_build_groundPlane, H.
Qed.

(** ** The stages of [SetupGeometry] and [Construct] *)

Lemma construct_components_stages lib dp s :
  exec (construct_components lib dp) s
  = exec (establish_sensitivity (S (length (volumeStore (g4 s)))))
      (exec (housing_and_groundPlane lib dp (length (volumeStore (g4 s))))
         (world_and_chip dp s)).
Proof.
  unfold exec, construct_components, housing_and_groundPlane, establish_sensitivity,
    world_and_chip, world_volume, chip_volume.
  cbv zeta.
  cbv beta iota delta [bind member set_this new_G4PVPlacement store_volume
    RegisterLattice new_G4CMPLogicalBorderSurface set_g4 fst snd this g4
    with_volumeStore with_latticeTable with_borderSurfaceTable volumeStore latticeTable
    borderSurfaceTable surfacePropertyTable sdManager geometryHasBeenDestroyed
    with_fWorldPhys fWorldPhys fLiquidHelium fSilicon fSiVacuumInterface].
  rewrite !length_app. cbn [length]. rewrite !Nat.add_1_r.
  rewrite <- !app_assoc. cbn [app].
  match goal with
  | |- context [when (dp_useQubitHousing dp) ?b ?s0] =>
      destruct (when (dp_useQubitHousing dp) b s0) as [u1 s1]
  end.
  match goal with
  | |- context [when (dp_useGroundPlane dp) ?b s1] =>
      destruct (when (dp_useGroundPlane dp) b s1) as [u2 s2]
  end.
  reflexivity.
Qed.

Lemma establish_sensitivity_run chip s :
  let d := sensitivity_after (this s) in
  exec (establish_sensitivity chip) s
  = exec (SetSensitiveDetector chip d)
      (exec (AddNewDetector d)
         {| this := with_fSuperconductorSensitivity d (this s); g4 := g4 s |}).
Proof.
  destruct s as [[he ge si al w nb world sens constructed pnb pcu pvac] k].
  destruct sens; reflexivity.
Qed.

Lemma endpoint_in_alter lo (f : StoredVolume -> StoredVolume) a store v :
  (forall x, vol_catalog (f x) = vol_catalog x) ->
  endpoint_in lo (alter f a store) v = endpoint_in lo store v.
Proof.
  intros Hf. destruct v as [[b|b i]|]; unfold endpoint_in; [| |reflexivity].
  - now rewrite length_alter.
  - f_equal. destruct (Nat.eq_dec a b) as [->|Hab].
    + rewrite list_lookup_alter_eq. destruct (store !! b); cbn; [now rewrite Hf|reflexivity].
    + now rewrite list_lookup_alter_ne.
Qed.

(** What [SetupGeometry] does after the surface properties, from any
    state. *)
Lemma construct_components_spec lib dp s :
  let world := length (volumeStore (g4 s)) in
  let d := sensitivity_after (this s) in
  let s' := exec (construct_components lib dp) s in
  let border_world :=
    {| bs_name := "border_siliconChip_world"; bs_vol1 := Some (PhysVol (S world));
       bs_vol2 := Some (PhysVol world); bs_property := fSiVacuumInterface (this s) |} in
  this s' = with_fSuperconductorSensitivity d
              (with_fWorldPhys (Some (PhysVol world)) (this s)) /\
  geometryHasBeenDestroyed (g4 s') = geometryHasBeenDestroyed (g4 s) /\
  surfacePropertyTable (g4 s') = surfacePropertyTable (g4 s) /\
  sdManager (g4 s') = sdManager (g4 (exec (AddNewDetector d) s)) /\
  latticeTable (g4 s')
  = latticeTable (g4 s) ++
    [(PhysVol (S world),
      {| lat_material := fSilicon (this s); lat_name := "Si";
         lat_miller := (1, 0, 0)%Z |})] /\
  (exists vs,
     volumeStore (g4 s')
     = volumeStore (g4 s) ++ world_volume (this s) :: chip_volume dp (this s) world d :: vs /\
     forall i v, vs !! i = Some v -> placed_in_generation world (S (S world) + i) v) /\
  (exists bs,
     borderSurfaceTable (g4 s') = borderSurfaceTable (g4 s) ++ border_world :: bs /\
     Forall (interface_well_formed world (volumeStore (g4 s')) (this s))
            (border_world :: bs)).
Proof.
  intros world d s' border_world.
  pose (s1 := world_and_chip dp s).
  pose (s2 := exec (housing_and_groundPlane lib dp world) s1).
  assert (Hs' : s' = exec (establish_sensitivity (S world)) s2).
  { subst s' s2 s1 world. apply construct_components_stages. }
  assert (Hworld : length (volumeStore (g4 s)) = world) by reflexivity.
  assert (Hs1 : volumeStore (g4 s1)
                = volumeStore (g4 s) ++
                  [world_volume (this s); chip_volume dp (this s) world None]) by reflexivity.
  assert (Hb1 : borderSurfaceTable (g4 s1) = borderSurfaceTable (g4 s) ++ [border_world])
    by reflexivity.
  assert (Hl1 : latticeTable (g4 s1)
                = latticeTable (g4 s) ++
                  [(PhysVol (S world),
                    {| lat_material := fSilicon (this s); lat_name := "Si";
                       lat_miller := (1, 0, 0)%Z |})]) by reflexivity.
  assert (H1 : this s1 = with_fWorldPhys (Some (PhysVol world)) (this s)) by reflexivity.
  assert (Hf1 : geometryHasBeenDestroyed (g4 s1) = geometryHasBeenDestroyed (g4 s))
    by reflexivity.
  assert (Hp1 : surfacePropertyTable (g4 s1) = surfacePropertyTable (g4 s)) by reflexivity.
  assert (Hd1 : sdManager (g4 s1) = sdManager (g4 s)) by reflexivity.
  clearbody world s1.
  destruct (rg_housing_and_groundPlane world (this s1) [(world, []); (S world, [])]
              lib dp (or_introl eq_refl) s1 eq_refl) as [Hg _].
  { unfold known. cbn [fst snd]. rewrite Hs1.
    apply List.Forall_cons; [|apply List.Forall_cons; [|apply List.Forall_nil]];
      cbv beta; cbn [fst snd].
    - split; [lia|]. eexists. split.
      + rewrite lookup_app_r by lia. rewrite Hworld, Nat.sub_diag. reflexivity.
      + reflexivity.
    - split; [lia|]. eexists. split.
      + rewrite lookup_app_r by lia. rewrite Hworld.
        replace (S world - world) with 1 by lia. reflexivity.
      + reflexivity. }
  change (snd (housing_and_groundPlane lib dp world s1)) with s2 in Hg.
  destruct Hg as (Ht & Hf & Hl & Hp & Hd & (vs & Hv) & Hn & (bs & Hb & Hw)).
  rewrite establish_sensitivity_run in Hs'.
  assert (Hd2 : sensitivity_after (this s2) = d).
  { unfold sensitivity_after. rewrite Ht, H1. reflexivity. }
  rewrite Hd2 in Hs'. clearbody s2 d.
  unfold exec, SetSensitiveDetector, set_g4 in Hs'.
  assert (Hstore : volumeStore (g4 s')
                   = volumeStore (g4 s) ++
                     world_volume (this s) :: chip_volume dp (this s) world d :: vs).
  { rewrite Hs'. destruct d as [name|];
      cbn [AddNewDetector set_g4 ret snd this g4 volumeStore with_volumeStore
           with_sdManager];
      rewrite Hv, Hs1, <- app_assoc; cbn [app];
      replace (S world) with (length (volumeStore (g4 s)) + 1) by lia;
      rewrite alter_app_r; reflexivity. }
  split; [|split; [|split; [|split; [|split; [|split]]]]].
  - rewrite Hs'. destruct d; cbn; now rewrite Ht, H1.
  - rewrite Hs'. destruct d; cbn; now rewrite Hf, Hf1.
  - rewrite Hs'. destruct d; cbn; now rewrite Hp, Hp1.
  - rewrite Hs'. unfold exec.
    destruct d; cbn; now rewrite Hd, Hd1.
  - rewrite Hs'. destruct d; cbn; now rewrite Hl, Hl1.
  - exists vs. split; [exact Hstore|].
    intros i v Hi.
    apply (Hn (S (S world) + i) v).
    + rewrite Hv, Hs1.
      rewrite lookup_app_r by (rewrite length_app; cbn [length]; lia).
      rewrite length_app. cbn [length].
      replace (S (S world) + i - (length (volumeStore (g4 s)) + 2)) with i by lia.
      exact Hi.
    + rewrite Hs1, length_app. cbn [length]. lia.
  - exists bs. split.
    + rewrite Hs'. destruct d; cbn; rewrite Hb, Hb1; now rewrite <- app_assoc.
    + assert (Hstore2 : forall v,
                endpoint_in world (volumeStore (g4 s')) v
                = endpoint_in world (volumeStore (g4 s2)) v).
      { intros v. rewrite Hs'.
        destruct d; cbn [AddNewDetector set_g4 ret snd this g4 volumeStore
                         with_volumeStore with_sdManager];
          apply endpoint_in_alter; now intros [? ? ?|? ? ? ?]. }
      constructor.
      * repeat split; [|cbn [In]; tauto].
        rewrite Hstore. unfold border_world, endpoint_in. cbn [bs_vol2].
        apply andb_true_iff. split; [now apply Nat.leb_le|].
        apply Nat.ltb_lt. rewrite length_app. cbn [length]. lia.
      * rewrite H1 in Hw. eapply List.Forall_impl; [|exact Hw].
        intros b (Hx1 & Hx2 & Hx3). repeat split; [exact Hx1| |exact Hx3].
        now rewrite Hstore2.
Qed.

Lemma Construct_stages lib dp s :
  Construct lib dp s
  = (fWorldPhys (this (exec (construct_components lib dp) (prepared s))),
     exec (set_this (with_fConstructed true))
          (exec (construct_components lib dp) (prepared s))).
Proof.
  unfold prepared, exec, Construct, SetupGeometry, bind, member, set_this.
  destruct (when (fConstructed (this s)) teardown s) as [u0 s0]. cbn [snd].
  destruct (DefineMaterials s0) as [u1 s1].
  destruct (define_surface_properties s1) as [u2 s2]. cbn [snd].
  destruct (construct_components lib dp s2) as [u3 s3]. reflexivity.
Qed.

Lemma prepared_spec s :
  let s0 := exec (when (fConstructed (this s)) teardown) s in
  let p := prepared s in
  (geometryHasBeenDestroyed (g4 p) = geometryHasBeenDestroyed (g4 s) /\
   volumeStore (g4 p) = volumeStore (g4 s0) /\
   latticeTable (g4 p) = latticeTable (g4 s0) /\
   borderSurfaceTable (g4 p) = borderSurfaceTable (g4 s0) /\
   sdManager (g4 p) = sdManager (g4 s)) /\
  (fLiquidHelium (this p) = Some G4_AIR /\ fGermanium (this p) = Some G4_Ge /\
   fSilicon (this p) = Some G4_Si /\ fAluminum (this p) = Some G4_Al /\
   fTungsten (this p) = Some G4_W /\ fNiobium (this p) = Some G4_Nb) /\
  fSuperconductorSensitivity (this p) = fSuperconductorSensitivity (this s) /\
  fConstructed (this p) = fConstructed (this s) /\
  exists ps, surfacePropertyTable (g4 p) = surfacePropertyTable (g4 s) ++ ps.
Proof.
  destruct s as [[he ge si al w nb world sens constructed pnb pcu pvac]
                 [destroyed store lattice table props sd]].
  destruct constructed.
  - destruct destroyed; repeat split; exists []; cbn; now rewrite app_nil_r.
  - repeat split. eexists.
    unfold prepared, exec, define_surface_properties, AttachPhononSensor,
      DefineMaterials.
    cbn -[alter app length AddConstProperty SetPhononElectrode AddScatteringProperties].
    rewrite <- !app_assoc. cbn [app].
    rewrite !alter_app_r_alt by (rewrite ?length_app; cbn [length]; lia).
    reflexivity.
Qed.

Lemma teardown_keeps_volumes s :
  fConstructed (this s) && negb (geometryHasBeenDestroyed (g4 s)) = false ->
  volumeStore (g4 (exec (when (fConstructed (this s)) teardown) s)) = volumeStore (g4 s).
Proof.
  destruct s as [[he ge si al w nb world sens constructed pnb pcu pvac]
                 [destroyed store lattice table props sd]].
  cbn [this g4 fConstructed geometryHasBeenDestroyed].
  destruct constructed, destroyed; intros H; [reflexivity|discriminate H|reflexivity..].
Qed.

(** What [Construct] does, from any state [s]: with [s0] the state after
    the teardown, if there is one, and [world] the number of volumes in the
    stores then. *)
Lemma Construct_summary lib dp s :
  let s0 := exec (when (fConstructed (this s)) teardown) s in
  let world := length (volumeStore (g4 s0)) in
  let s' := exec (Construct lib dp) s in
  let d := sensitivity_after (this s) in
  let border_world :=
    {| bs_name := "border_siliconChip_world"; bs_vol1 := Some (PhysVol (S world));
       bs_vol2 := Some (PhysVol world); bs_property := fSiVacuumInterface (this s') |} in
  (fst (Construct lib dp s) = Some (PhysVol world) /\
   fWorldPhys (this s') = Some (PhysVol world) /\
   fConstructed (this s') = true /\
   fSuperconductorSensitivity (this s') = d) /\
  (fLiquidHelium (this s') = Some G4_AIR /\ fGermanium (this s') = Some G4_Ge /\
   fSilicon (this s') = Some G4_Si /\ fAluminum (this s') = Some G4_Al /\
   fTungsten (this s') = Some G4_W /\ fNiobium (this s') = Some G4_Nb) /\
  (geometryHasBeenDestroyed (g4 s') = geometryHasBeenDestroyed (g4 s) /\
   (exists new, surfacePropertyTable (g4 s') = surfacePropertyTable (g4 s) ++ new) /\
   sdManager (g4 s') = sdManager (g4 (exec (AddNewDetector d) s))) /\
  latticeTable (g4 s')
  = latticeTable (g4 s0) ++
    [(PhysVol (S world),
      {| lat_material := Some G4_Si; lat_name := "Si"; lat_miller := (1, 0, 0)%Z |})] /\
  (exists vs,
     volumeStore (g4 s')
     = volumeStore (g4 s0) ++ world_volume (this s') :: chip_volume dp (this s') world d :: vs /\
     forall i v, vs !! i = Some v -> placed_in_generation world (S (S world) + i) v) /\
  (exists bs,
     borderSurfaceTable (g4 s') = borderSurfaceTable (g4 s0) ++ border_world :: bs /\
     Forall (interface_well_formed world (volumeStore (g4 s')) (this s'))
            (border_world :: bs)).
Proof.
  intros s0 world s' d border_world.
  destruct (prepared_spec s) as ((Hf & Hv & Hl & Hb & Hd) & Hmat & Hsens & Hc & (ps & Hps)).
  destruct (construct_components_spec lib dp (prepared s))
    as (Ht & Hf' & Hp' & Hd' & Hl' & (vs & Hv' & Hn) & (bs & Hb' & Hw)).
  fold s0 in Hv, Hl, Hb.
  rewrite Hv in Ht, Hl', Hv', Hn, Hb', Hw.
  fold world in Ht, Hl', Hv', Hn, Hb', Hw.
  assert (Hd0 : sensitivity_after (this (prepared s)) = d).
  { unfold d, sensitivity_after. now rewrite Hsens. }
  rewrite Hd0 in Ht, Hd', Hv'.
  assert (Hs' : s' = exec (set_this (with_fConstructed true))
                       (exec (construct_components lib dp) (prepared s))).
  { unfold s', exec at 1. now rewrite Construct_stages. }
  assert (Hthis : this s' = with_fConstructed true
                    (with_fSuperconductorSensitivity d
                       (with_fWorldPhys (Some (PhysVol world)) (this (prepared s)))))
    by (rewrite Hs', <- Ht; reflexivity).
  assert (Hg4 : g4 s' = g4 (exec (construct_components lib dp) (prepared s)))
    by (rewrite Hs'; reflexivity).
  assert (Hworld : world_volume (this s') = world_volume (this (prepared s)))
    by (rewrite Hthis; reflexivity).
  assert (Hchip : chip_volume dp (this s') world d
                  = chip_volume dp (this (prepared s)) world d)
    by (rewrite Hthis; reflexivity).
  assert (Hbw : border_world
                = {| bs_name := "border_siliconChip_world";
                     bs_vol1 := Some (PhysVol (S world));
                     bs_vol2 := Some (PhysVol world);
                     bs_property := fSiVacuumInterface (this (prepared s)) |})
    by (unfold border_world; rewrite Hthis; reflexivity).
  destruct Hmat as (Hhe & Hge & Hsi & Hal & Htu & Hnb).
  clearbody s' world d border_world.
  rewrite Construct_stages. cbn [fst]. rewrite Hg4, Hworld, Hchip, Hbw.
  split; [|split; [|split; [|split; [|split]]]].
  - rewrite Hthis, Ht. repeat split.
  - rewrite Hthis. repeat split; assumption.
  - split; [congruence|]. split; [exists ps; congruence|].
    rewrite Hd'. unfold exec, AddNewDetector, set_g4.
    destruct d; cbn [snd g4 sdManager with_sdManager ret]; now rewrite Hd.
  - rewrite Hl', Hl, Hsi. reflexivity.
  - exists vs. split; [rewrite Hv'; reflexivity|exact Hn].
  - exists bs. split; [rewrite Hb', Hb; reflexivity|].
    eapply List.Forall_impl; [|exact Hw].
    intros b (H1 & H2 & H3). repeat split; [exact H1|exact H2|].
    rewrite Hthis. exact H3.
Qed.

(** ** [Construct] from any state *)

(** X5.  What [Construct] never removes.  From any state, [Construct]
    leaves the run manager's flag as it is and keeps every surface property
    and every sensitive detector registered before, in place and
    unchanged; what it adds comes after them.  Unless it empties the volume
    stores itself (the object has constructed before and the run manager
    has not destroyed the geometry), it keeps every stored volume; and on
    an object that has not constructed before it keeps every lattice and
    every border surface as well. *)
Theorem Construct_keeps_what_exists lib dp s :
  let s' := exec (Construct lib dp) s in
  geometryHasBeenDestroyed (g4 s') = geometryHasBeenDestroyed (g4 s) /\
  (exists new, surfacePropertyTable (g4 s') = surfacePropertyTable (g4 s) ++ new) /\
  (exists new, sdManager (g4 s') = sdManager (g4 s) ++ new) /\
  (fConstructed (this s) && negb (geometryHasBeenDestroyed (g4 s)) = false ->
   exists new, volumeStore (g4 s') = volumeStore (g4 s) ++ new) /\
  (fConstructed (this s) = false ->
   (exists new, latticeTable (g4 s') = latticeTable (g4 s) ++ new) /\
   (exists new, borderSurfaceTable (g4 s') = borderSurfaceTable (g4 s) ++ new)).
Proof.
  intros s'.
  destruct (Construct_summary lib dp s)
    as (_ & _ & (Hf & Hp & Hd) & Hl & (vs & Hv & _) & (bs & Hb & _)).
  fold s' in Hf, Hp, Hd, Hl, Hv, Hb.
  split; [exact Hf|]. split; [exact Hp|]. split; [|split].
  - rewrite Hd. unfold exec, AddNewDetector, set_g4.
    destruct (sensitivity_after (this s)) as [name|];
      cbn [snd g4 sdManager with_sdManager ret].
    + destruct (existsb (String.eqb name) (sdManager (g4 s)));
        [exists []; now rewrite app_nil_r|now eexists].
    + exists []. now rewrite app_nil_r.
  - intros Hcase. eexists. rewrite Hv, (teardown_keeps_volumes s Hcase). reflexivity.
  - intros Hcon. rewrite Hl, Hb, Hcon. split; eexists; reflexivity.
Qed.

(** X6.  [Construct] places the world and the silicon chip.  From any
    state, with [s0] the state after the teardown (if the object has
    constructed before) and [world] the number of volumes in the stores
    then: [Construct] returns the new world volume, never the null
    pointer; the world is stored at [world], filled with G4_AIR, and the
    chip next after it, made of G4_Si, placed in the world and sensitive;
    one lattice is registered after those of [s0], for the chip, of
    silicon with orientation (1 0 0); and the first border surface created
    joins the chip to the world with the Si-Vacuum property. *)
Theorem Construct_places_world_and_chip lib dp s :
  let s0 := exec (when (fConstructed (this s)) teardown) s in
  let world := length (volumeStore (g4 s0)) in
  let s' := exec (Construct lib dp) s in
  fst (Construct lib dp s) = Some (PhysVol world) /\
  fWorldPhys (this s') = Some (PhysVol world) /\
  (fLiquidHelium (this s') = Some G4_AIR /\ fSilicon (this s') = Some G4_Si) /\
  (exists rest,
     volumeStore (g4 s')
     = volumeStore (g4 s0) ++
       world_volume (this s')
       :: chip_volume dp (this s') world (fSuperconductorSensitivity (this s'))
       :: rest) /\
  latticeTable (g4 s')
  = latticeTable (g4 s0) ++
    [(PhysVol (S world),
      {| lat_material := Some G4_Si; lat_name := "Si"; lat_miller := (1, 0, 0)%Z |})] /\
  exists rest,
    borderSurfaceTable (g4 s')
    = borderSurfaceTable (g4 s0) ++
      {| bs_name := "border_siliconChip_world"; bs_vol1 := Some (PhysVol (S world));
         bs_vol2 := Some (PhysVol world);
         bs_property := fSiVacuumInterface (this s') |} :: rest.
Proof.
  intros s0 world s'.
  destruct (Construct_summary lib dp s)
    as ((Hr & Hw & _ & Hd) & (Hhe & _ & Hsi & _) & _ & Hl & (vs & Hv & _) & (bs & Hb & _)).
  fold s0 world s' in Hr, Hw, Hd, Hhe, Hsi, Hl, Hv, Hb.
  split; [exact Hr|]. split; [exact Hw|]. split; [now split|].
  split; [|split].
  - exists vs. rewrite Hd. exact Hv.
  - exact Hl.
  - exists bs. exact Hb.
Qed.

(** X7.  Every border surface [Construct] creates is well formed.  From
    any state, with [s0] and [world] as before, the border surface table
    after [Construct] is that of [s0] followed by the new surfaces, and
    every new surface has the new silicon chip as its first volume, a
    volume of the new generation that is in the stores as its second (a
    stored volume, or an entry within the catalogue of a stored assembly),
    and one of the three surface properties of the object as its
    property.  On an object that has constructed before, this holds of
    every surface in the table: none refers to a volume of an earlier
    generation. *)
Theorem Construct_interfaces_well_formed lib dp s :
  let s0 := exec (when (fConstructed (this s)) teardown) s in
  let world := length (volumeStore (g4 s0)) in
  let s' := exec (Construct lib dp) s in
  (exists new,
     borderSurfaceTable (g4 s') = borderSurfaceTable (g4 s0) ++ new /\
     Forall (interface_well_formed world (volumeStore (g4 s')) (this s')) new) /\
  (fConstructed (this s) = true ->
   Forall (interface_well_formed world (volumeStore (g4 s')) (this s'))
          (borderSurfaceTable (g4 s'))).
Proof.
  intros s0 world s'.
  destruct (Construct_summary lib dp s) as (_ & _ & _ & _ & _ & (bs & Hb & Hw)).
  fold s0 world s' in Hb, Hw.
  split.
  - eexists. split; [exact Hb|exact Hw].
  - intros Hcon. rewrite Hb. unfold s0. rewrite Hcon.
    change (exec (when true teardown) s) with (exec teardown s).
    destruct (teardown_clears s) as [-> _]. exact Hw.
Qed.

(** X8.  The volumes of a generation form a tree under its world.  From
    any state, with [s0] and [world] as before, [Construct] appends at
    least the world and the chip to the volumes of [s0]; the world has no
    mother, the chip has the world as its mother, and every volume stored
    after them is not sensitive, was placed with the overlap check on, and
    has as its mother a volume of the same generation stored before it: no
    volume is placed in a volume of an earlier generation. *)
Theorem Construct_volumes_in_generation lib dp s :
  let s0 := exec (when (fConstructed (this s)) teardown) s in
  let world := length (volumeStore (g4 s0)) in
  let s' := exec (Construct lib dp) s in
  (exists new, volumeStore (g4 s') = volumeStore (g4 s0) ++ new /\ 2 <= length new) /\
  (forall v, volumeStore (g4 s') !! world = Some v -> vol_mother v = None) /\
  (forall v, volumeStore (g4 s') !! S world = Some v -> vol_mother v = Some world) /\
  (forall a v, volumeStore (g4 s') !! a = Some v -> S world < a ->
               placed_in_generation world a v).
Proof.
  intros s0 world s'.
  destruct (Construct_summary lib dp s) as (_ & _ & _ & _ & (vs & Hv & Hn) & _).
  fold s0 world s' in Hv, Hn.
  rewrite Hv.
  assert (Hworld : length (volumeStore (g4 s0)) = world) by reflexivity.
  clearbody world s'.
  split; [|split; [|split]].
  - eexists. split; [reflexivity|]. cbn [length]. lia.
  - intros v. rewrite lookup_app_r by lia. rewrite Hworld, Nat.sub_diag.
    cbn. now intros [= <-].
  - intros v. rewrite lookup_app_r by lia. rewrite Hworld.
    replace (S world - world) with 1 by lia. cbn. now intros [= <-].
  - intros a v Ha Hlt. rewrite lookup_app_r in Ha by lia. rewrite Hworld in Ha.
    replace a with (S (S world) + (a - S (S world))) by lia.
    apply Hn.
    replace (a - world) with (S (S (a - S (S world)))) in Ha by lia.
    exact Ha.
Qed.

(** X9.  The sensitive detector.  From any state, [Construct] leaves the
    object with a sensitivity object: the one it had, or a new one named
    "PhononElectrode" if it had none.  That detector is handed to the
    detector manager and attached to the logical volume of the new silicon
    chip, and to no other volume of the new generation. *)
Theorem Construct_sensitivity lib dp s :
  let s0 := exec (when (fConstructed (this s)) teardown) s in
  let world := length (volumeStore (g4 s0)) in
  let s' := exec (Construct lib dp) s in
  let d := fSuperconductorSensitivity (this s') in
  d = match fSuperconductorSensitivity (this s) with
      | Some name => Some name
      | None => Some "PhononElectrode"
      end /\
  sdManager (g4 s') = sdManager (g4 (exec (AddNewDetector d) s)) /\
  (exists v, volumeStore (g4 s') !! S world = Some v /\ vol_sensitive v = d) /\
  (forall a v, volumeStore (g4 s') !! a = Some v -> world <= a -> a <> S world ->
               vol_sensitive v = None).
Proof.
  intros s0 world s' d.
  destruct (Construct_summary lib dp s)
    as ((_ & _ & _ & Hd) & _ & (_ & _ & Hm) & _ & (vs & Hv & Hn) & _).
  fold s0 world s' in Hd, Hm, Hv, Hn. fold d in Hd.
  rewrite <- Hd in Hm, Hv.
  assert (Hworld : length (volumeStore (g4 s0)) = world) by reflexivity.
  clearbody world s' d.
  split; [exact Hd|]. split; [exact Hm|]. split.
  - eexists. rewrite Hv. split.
    + rewrite lookup_app_r by lia. rewrite Hworld.
      replace (S world - world) with 1 by lia. reflexivity.
    + reflexivity.
  - intros a v Ha Hlo Hne. rewrite Hv in Ha.
    rewrite lookup_app_r in Ha by lia. rewrite Hworld in Ha.
    destruct (a - world) as [|[|i]] eqn:E; [| lia |].
    + injection Ha as <-. reflexivity.
    + exact (proj1 (Hn i v Ha)).
Qed.

(** ** Any number of constructions *)

Lemma ready_initial_state destroyed : ready (initial_state destroyed).
Proof. split; [left|right]; split; reflexivity. Qed.

Lemma ready_Construct lib dp s : ready s -> ready (exec (Construct lib dp) s).
Proof.
  intros [Hsd _]. split; [right|left; apply Construct_constructed].
  destruct (Construct_summary lib dp s) as ((_ & _ & _ & Hd) & _ & (_ & _ & Hm) & _).
  cbv zeta in Hd, Hm. rewrite Hm, Hd.
  unfold exec, AddNewDetector, set_g4, sensitivity_after.
  destruct Hsd as [[H1 H2]|[H1 H2]]; rewrite H1;
    cbn [snd g4 sdManager with_sdManager]; rewrite H2; split; reflexivity.
Qed.

Lemma ready_constructions builds s : ready s -> ready (constructions builds s).
Proof.
  revert s. induction builds as [|[lib dp] builds IH]; intros s H; [exact H|].
  apply IH, ready_Construct, H.
Qed.

(** ** Rebuilding, whatever was built before *)

Lemma construct_components_ignores_fWorldPhys lib dp w s :
  construct_components lib dp {| this := with_fWorldPhys w (this s); g4 := g4 s |}
  = construct_components lib dp s.
Proof.
  destruct s as [[he ge si al w0 nb world sens constructed pnb pcu pvac]
                 [destroyed store lattice table props sd]].
  vm_compute. reflexivity.
Qed.

Lemma construct_components_relocates lib dp s :
  exec (construct_components lib dp) s
  = relocate (volumeStore (g4 s)) (latticeTable (g4 s)) (borderSurfaceTable (g4 s))
      (exec (construct_components lib dp) (emptied s)).
Proof.
  unfold exec.
  rewrite <- (construct_components_ignores_fWorldPhys lib dp None s).
  rewrite <- relocate_emptied.
  apply sim_construct_components.
Qed.

Lemma prepared_constructed s :
  fConstructed (this s) = true ->
  emptied (prepared s) = prepared (emptied s) /\
  volumeStore (g4 (prepared s)) = volumeStore (g4 (exec teardown s)) /\
  latticeTable (g4 (prepared s)) = [] /\
  borderSurfaceTable (g4 (prepared s)) = [].
Proof.
  destruct s as [[he ge si al w nb world sens constructed pnb pcu pvac]
                 [flag store lattice table props sd]].
  cbn [this fConstructed]. intros ->.
  destruct flag; repeat split.
Qed.

Lemma settled_first lib dp destroyed :
  settled destroyed (exec (Construct lib dp) (initial_state destroyed)).
Proof.
  destruct (Construct_summary lib dp (initial_state destroyed))
    as ((_ & _ & Hc & Hd) & _ & (Hf & _ & Hm) & _).
  cbv zeta in Hc, Hd, Hf, Hm.
  unfold settled. rewrite Hc, Hd, Hf, Hm.
  destruct destroyed; toggle_cases dp; closed_form; vm_compute; repeat split.
Qed.

Lemma settled_Construct lib dp destroyed s :
  settled destroyed s -> settled destroyed (exec (Construct lib dp) s).
Proof.
  intros ((Hcon & Hsens & Hpnb & Hpcu & Hpvac) & Hflag & Hpt & Hsd).
  destruct (Construct_summary lib dp s) as ((_ & _ & Hc & Hd) & _ & (Hf & _ & Hm) & _).
  cbv zeta in Hc, Hd, Hf, Hm.
  destruct (Construct_keeps_properties lib dp s Hcon) as (Hp & Hnb & Hcu & Hvac).
  unfold settled. rewrite Hc, Hd, Hf, Hm, Hp, Hnb, Hcu, Hvac.
  unfold sensitivity_after. rewrite Hsens.
  unfold exec, AddNewDetector, set_g4. cbn [snd g4 sdManager with_sdManager].
  rewrite Hsd. repeat split; assumption.
Qed.

Lemma constructions_cons b builds s :
  constructions (b :: builds) s = constructions builds (exec (Construct (fst b) (snd b)) s).
Proof. reflexivity. Qed.

Lemma settled_constructions builds destroyed s :
  settled destroyed s -> settled destroyed (constructions builds s).
Proof.
  revert s. induction builds as [|b builds IH]; intros s Hs; [exact Hs|].
  rewrite constructions_cons. apply IH, settled_Construct, Hs.
Qed.

(** On emptied stores, a settled object constructs what a new object
    constructs. *)
Lemma settled_generation lib dp destroyed s :
  settled destroyed s ->
  exec (Construct lib dp) (emptied s) = exec (Construct lib dp) (initial_state destroyed).
Proof.
  destruct s as [[he ge si al w nb world sens constructed pnb pcu pvac]
                 [flag store lattice table props sd]].
  unfold settled.
  cbn [this g4 fConstructed fSuperconductorSensitivity fSiNbInterface fSiCopperInterface
       fSiVacuumInterface geometryHasBeenDestroyed surfacePropertyTable sdManager].
  intros ((-> & -> & -> & -> & ->) & -> & -> & ->).
  destruct destroyed; toggle_cases dp; closed_form; vm_compute; reflexivity.
Qed.

Lemma relocate_constructed volumes lattices borders s :
  exec (set_this (with_fConstructed true)) (relocate volumes lattices borders s)
  = relocate volumes lattices borders (exec (set_this (with_fConstructed true)) s).
Proof. reflexivity. Qed.

(** On an object that has constructed before, [Construct] builds behind
    the volumes its teardown leaves what it builds on emptied stores. *)
Lemma Construct_relocates lib dp s :
  fConstructed (this s) = true ->
  exec (Construct lib dp) s
  = relocate (volumeStore (g4 (exec teardown s))) [] []
      (exec (Construct lib dp) (emptied s)).
Proof.
  intros Hc.
  destruct (prepared_constructed s Hc) as (He & Hv & Hl & Hb).
  unfold exec at 1 3. rewrite !Construct_stages. cbn [snd].
  rewrite (construct_components_relocates lib dp (prepared s)).
  rewrite Hv, Hl, Hb, He.
  apply relocate_constructed.
Qed.

(** X15.  Rebuilding is independent of what was built before.  After one
    or more constructions from the initial state, with whatever libraries
    and parameters, a construction with the library [lib] and the
    parameters [dp] ends in the state in which the first construction of a
    new object with [lib] and [dp] ends, moved behind the volumes the
    teardown leaves in the stores (none, unless the run manager has
    destroyed the geometry): the volumes, the lattice, the border
    surfaces, the surface properties, the detectors and the data members
    are those of the first construction, with every address moved by the
    number of stale volumes. *)
Theorem rebuild_history_independent lib0 dp0 builds lib dp destroyed :
  let s := constructions ((lib0, dp0) :: builds) (initial_state destroyed) in
  exec (Construct lib dp) s
  = relocate (volumeStore (g4 (exec teardown s))) [] []
      (exec (Construct lib dp) (initial_state destroyed)).
Proof.
  intros s.
  assert (Hs : settled destroyed s).
  { unfold s. rewrite constructions_cons.
    apply settled_constructions, settled_first. }
  clearbody s. destruct Hs as [Hm Hk].
  rewrite <- (settled_generation lib dp destroyed s (conj Hm Hk)).
  apply Construct_relocates, Hm.
Qed.


Lemma relocate_nil s : relocate [] [] [] s = s.
Proof.
  destruct s as [[he ge si al w nb world sens constructed pnb pcu pvac]
                 [flag store lattice table props sd]].
  unfold relocate.
  cbn [this g4 length app fWorldPhys with_fWorldPhys geometryHasBeenDestroyed volumeStore
       latticeTable borderSurfaceTable surfacePropertyTable sdManager].
  assert (Hv : forall v, shift_vol 0 v = v) by (intros [a|a i]; reflexivity).
  assert (Ho : forall v, option_map (shift_vol 0) v = v)
    by (intros [v|]; cbn [option_map]; [now rewrite Hv|reflexivity]).
  f_equal; [now rewrite Ho|]. f_equal.
  - rewrite <- (map_id store) at 2. apply map_ext.
    intros [log args [m|]|cls args [m|] catalog]; reflexivity.
  - rewrite <- (map_id lattice) at 2. apply map_ext.
    intros [v lat]. unfold shift_lattice. cbn [fst snd]. now rewrite Hv.
  - rewrite <- (map_id table) at 2. apply map_ext.
    intros [name v1 v2 prop]. unfold shift_border.
    cbn [bs_name bs_vol1 bs_vol2 bs_property]. now rewrite !Ho.
Qed.

(** X10.  The state after any number of constructions.  After any number
    of constructions on the same object (none included), with whatever
    libraries and parameters, one more construction with the library [lib]
    and the parameters [dp] leaves the object constructed, with its six
    materials and with the one sensitivity object "PhononElectrode", the
    only detector of the manager.  With [kept] the volumes the teardown of
    this last construction leaves in the stores, the world pointer points
    to the world stored right after [kept], followed by the chip of [dp],
    which has the detector; exactly one lattice is registered, for that
    chip; every border surface in the table is a well-formed surface of
    this generation; and the whole state is the one in which the first
    construction of a new object with [lib] and [dp] ends, moved behind
    [kept]. *)
Theorem constructions_invariant builds lib dp destroyed :
  let s0 := constructions builds (initial_state destroyed) in
  let kept := volumeStore (g4 (exec (when (fConstructed (this s0)) teardown) s0)) in
  let world := length kept in
  let s := exec (Construct lib dp) s0 in
  fConstructed (this s) = true /\
  (fLiquidHelium (this s) = Some G4_AIR /\ fGermanium (this s) = Some G4_Ge /\
   fSilicon (this s) = Some G4_Si /\ fAluminum (this s) = Some G4_Al /\
   fTungsten (this s) = Some G4_W /\ fNiobium (this s) = Some G4_Nb) /\
  fSuperconductorSensitivity (this s) = Some "PhononElectrode" /\
  sdManager (g4 s) = ["PhononElectrode"] /\
  fWorldPhys (this s) = Some (PhysVol world) /\
  (exists rest,
     volumeStore (g4 s)
     = kept ++ world_volume (this s)
               :: chip_volume dp (this s) world (Some "PhononElectrode") :: rest) /\
  latticeTable (g4 s)
  = [(PhysVol (S world),
      {| lat_material := Some G4_Si; lat_name := "Si"; lat_miller := (1, 0, 0)%Z |})] /\
  Forall (interface_well_formed world (volumeStore (g4 s)) (this s))
         (borderSurfaceTable (g4 s)) /\
  s = relocate kept [] [] (exec (Construct lib dp) (initial_state destroyed)).
Proof.
  intros s0 kept world s.
  pose proof (ready_constructions builds _ (ready_initial_state destroyed)) as Hready.
  fold s0 in Hready.
  assert (Hr : ready s) by apply ready_Construct, Hready.
  assert (Hlast : s = relocate kept [] [] (exec (Construct lib dp) (initial_state destroyed))).
  { unfold s, kept, s0. clear. destruct builds as [|[lib0 dp0] builds].
    - change (constructions [] (initial_state destroyed)) with (initial_state destroyed).
      change (volumeStore (g4 (exec (when (fConstructed (this (initial_state destroyed)))
                                       teardown) (initial_state destroyed))))
        with (@nil StoredVolume).
      symmetry. apply relocate_nil.
    - assert (Hs : settled destroyed
                     (constructions ((lib0, dp0) :: builds) (initial_state destroyed))).
      { rewrite constructions_cons. apply settled_constructions, settled_first. }
      generalize dependent (constructions ((lib0, dp0) :: builds) (initial_state destroyed)).
      intros s1 [Hm Hk]. rewrite (proj1 Hm).
      change (exec (when true teardown) s1) with (exec teardown s1).
      rewrite <- (settled_generation lib dp destroyed s1 (conj Hm Hk)).
      apply Construct_relocates, Hm. }
  assert (Hempty : latticeTable (g4 (exec (when (fConstructed (this s0)) teardown) s0)) = []
                   /\ borderSurfaceTable
                        (g4 (exec (when (fConstructed (this s0)) teardown) s0)) = []).
  { destruct Hready as [_ [Hc|[Hl Hb]]].
    - rewrite Hc. change (exec (when true teardown) s0) with (exec teardown s0).
      destruct (teardown_clears s0) as [Hb Hl]. now split.
    - destruct (fConstructed (this s0)).
      + change (exec (when true teardown) s0) with (exec teardown s0).
        destruct (teardown_clears s0) as [Hb' Hl']. now split.
      + now split. }
  destruct Hempty as [Hl0 Hb0].
  destruct (Construct_summary lib dp s0)
    as ((_ & Hw & Hc & Hd) & Hmat & _ & Hl & (vs & Hv & _) & (bs & Hb & Hwf)).
  fold kept in Hw, Hl, Hv, Hb, Hwf. fold world in Hw, Hl, Hv, Hb, Hwf.
  fold s in Hw, Hc, Hd, Hmat, Hl, Hv, Hb, Hwf.
  clearbody s kept s0.
  assert (Hsens : fSuperconductorSensitivity (this s) = Some "PhononElectrode" /\
                  sdManager (g4 s) = ["PhononElectrode"]).
  { destruct Hr as [[[H1 H2]|H] _]; [|exact H].
    rewrite H1 in Hd. unfold sensitivity_after in Hd.
    destruct (fSuperconductorSensitivity (this s0)); discriminate. }
  destruct Hsens as [Hsens Hmgr].
  split; [exact Hc|]. split; [exact Hmat|].
  split; [exact Hsens|]. split; [exact Hmgr|].
  split; [exact Hw|]. split; [|split; [|split; [|exact Hlast]]].
  - exists vs. rewrite Hv. rewrite <- Hd, Hsens. reflexivity.
  - rewrite Hl, Hl0. reflexivity.
  - rewrite Hb, Hb0. exact Hwf.
Qed.


(** ** The inventory of a first construction, for every configuration *)

(** X11.  The inventory of volumes.  Whatever the library and the parameters,
    the first construction stores the world and the silicon chip; the
    housing if its toggle is on; and, if the ground plane is on, the ground
    plane followed by the transmission line, the six resonator assemblies
    and the three flux lines, each if its toggle is on, and then the
    fourteen fixed elements.  The world has no mother; the chip, the
    housing and the ground plane are placed in the world; everything else
    is placed in the ground plane. *)
Theorem volume_inventory lib dp destroyed :
  let s := exec (Construct lib dp) (initial_state destroyed) in
  let groundPlane := if dp_useQubitHousing dp then 3 else 2 in
  let inside :=
    (if dp_useTransmissionLine dp then 1 else 0) +
    (if dp_useResonatorAssembly dp then 6 else 0) +
    (if dp_useFluxLines dp then 3 else 0) + 14 in
  volume_summary s
  = [(None, "World"); (None, "SiliconChip")] ++
    (if dp_useQubitHousing dp then [(Some FourQubitQubitHousing, "QubitHousing")] else []) ++
    (if dp_useGroundPlane dp then
       [(None, "GroundPlane")] ++
       (if dp_useTransmissionLine dp
        then [(Some FourQubitTransmissionLine, "TransmissionLine")] else []) ++
       (if dp_useResonatorAssembly dp
        then map (fun iR => (Some FourQubitResonatorAssembly, sprintf_ResonatorAssembly iR))
                 (seq 0 6)
        else []) ++
       (if dp_useFluxLines dp
        then [(Some FourQubitCurveFluxLine, "TopStraightFluxLine");
              (Some FourQubitCurveFluxLine, "BottomStraightFluxLine");
              (Some FourQubitCurveFluxLine, "bottomRightFluxLine")]
        else []) ++
       [(Some FourQubitTransmon, "Transmon"); (Some FourQubitTransmon, "Transmon");
        (Some FourQubitXmon, "Xmon"); (Some FourQubitXmon, "Xmon");
        (Some FourQubitResonator, "Resonator0"); (Some FourQubitResonator, "Resonator1");
        (Some FourQubitResonator, "Resonator0"); (Some FourQubitResonator, "Resonator1");
        (Some FourQubitCurve, "Curve1"); (Some FourQubitStraight, "Straight1");
        (Some FourQubitCurve, "Curve2"); (Some FourQubitStraight, "Straight2");
        (Some FourQubitCurve, "Curve3"); (Some FourQubitStraight, "Straight3")]
     else []) /\
  map vol_mother (volumeStore (g4 s))
  = [None; Some 0] ++
    (if dp_useQubitHousing dp then [Some 0] else []) ++
    (if dp_useGroundPlane dp then Some 0 :: repeat (Some groundPlane) inside else []).
Proof.
  toggle_cases dp; cbn [dp_useQubitHousing dp_useGroundPlane dp_useTransmissionLine
    dp_useResonatorAssembly dp_useFluxLines]; closed_form; vm_compute; split; reflexivity.
Qed.

(** X12.  The inventory of border surfaces.  Whatever the library and the
    parameters, the first construction creates the chip-world surface; the
    chip-housing surface if the housing is on; and, if the ground plane is
    on, the chip-ground-plane surface followed by the surfaces of the
    border creation loops.  With the ground plane at [groundPlane], the
    loops run for the [looped] assemblies stored right after it (the
    transmission line, the resonator assemblies and the flux lines that are
    on, the transmons, the Xmons and the resonators), in the order of their
    addresses, then for Straight1, then for Curve1; Curve2, Straight2,
    Curve3 and Straight3 have none. *)
Theorem interface_inventory lib dp destroyed :
  let s := exec (Construct lib dp) (initial_state destroyed) in
  let groundPlane := if dp_useQubitHousing dp then 3 else 2 in
  let looped :=
    (if dp_useTransmissionLine dp then 1 else 0) +
    (if dp_useResonatorAssembly dp then 6 else 0) +
    (if dp_useFluxLines dp then 3 else 0) + 8 in
  borderSurfaceTable (g4 s)
  = [{| bs_name := "border_siliconChip_world"; bs_vol1 := Some (PhysVol 1);
        bs_vol2 := Some (PhysVol 0); bs_property := fSiVacuumInterface (this s) |}] ++
    (if dp_useQubitHousing dp
     then [{| bs_name := "border_siliconChip_qubitHousing"; bs_vol1 := Some (PhysVol 1);
              bs_vol2 := Some (PhysVol 2); bs_property := fSiCopperInterface (this s) |}]
     else []) ++
    (if dp_useGroundPlane dp
     then {| bs_name := "border_siliconChip_groundPlane"; bs_vol1 := Some (PhysVol 1);
             bs_vol2 := Some (PhysVol groundPlane);
             bs_property := fSiNbInterface (this s) |}
          :: flat_map (borders_of s 1)
               (seq (S groundPlane) looped ++
                [groundPlane + looped + 2; groundPlane + looped + 1])
     else []).
Proof.
  toggle_cases dp; cbn [dp_useQubitHousing dp_useGroundPlane dp_useTransmissionLine
    dp_useResonatorAssembly dp_useFluxLines]; evaluate_build;
    cbn [borderSurfaceTable g4 this fSiVacuumInterface fSiCopperInterface fSiNbInterface
         app Nat.add seq];
    try reflexivity;
    (change (?a :: ?b :: ?c :: flat_map ?f ?l) with ([a; b; c] ++ flat_map f l)
     || change (?a :: ?b :: flat_map ?f ?l) with ([a; b] ++ flat_map f l));
    rewrite <- fold_left_app_flat_map; reflexivity.
Qed.

(** X13.  The resonator assemblies.  With the ground plane and the resonator
    assemblies on, six resonator assemblies are instantiated in the ground
    plane, named ResonatorAssembly_0 to ResonatorAssembly_5.  The first
    three are not rotated and sit at the lateral steps -1, 0, 1 on the far
    side of the transmission line; the last three are the same row
    mirrored: turned by 180 degrees about z, with the central offset and
    the y coordinate negated. *)
Theorem resonatorAssemblies_build lib dp destroyed :
  dp_useGroundPlane dp = true ->
  dp_useResonatorAssembly dp = true ->
  let s := exec (Construct lib dp) (initial_state destroyed) in
  let groundPlane := if dp_useQubitHousing dp then 3 else 2 in
  let y := (0.5 * dp_resonatorAssemblyBaseNbDimY dp
            + 0.5 * dp_transmissionLineCavityFullWidth dp)%double in
  let top (k : Z) :=
    ThreeVector (dp_resonatorLateralSpacing dp * of_int k
                 + dp_centralResonatorOffsetX dp)%double y 0.0%double in
  let bottom (k : Z) :=
    ThreeVector (dp_resonatorLateralSpacing dp * of_int k
                 - dp_centralResonatorOffsetX dp)%double (-1 * y)%double 0.0%double in
  let turned := Some [rotateZ (180 * Units.deg)%double] in
  map (fun a => option_map (fun v => (vol_args v, vol_mother v)) (volumeStore (g4 s) !! a))
      (class_addresses FourQubitResonatorAssembly s)
  = [Some (placed None (top (-1)%Z) "ResonatorAssembly_0" [], Some groundPlane);
     Some (placed None (top 0%Z) "ResonatorAssembly_1" [], Some groundPlane);
     Some (placed None (top 1%Z) "ResonatorAssembly_2" [], Some groundPlane);
     Some (placed turned (bottom (-1)%Z) "ResonatorAssembly_3" [], Some groundPlane);
     Some (placed turned (bottom 0%Z) "ResonatorAssembly_4" [], Some groundPlane);
     Some (placed turned (bottom 1%Z) "ResonatorAssembly_5" [], Some groundPlane)].
Proof.
  destruct dp as [h g t r f ? ? ? ? ? ? ? ? ? ? ? ? ? ? ? ? ? ? ? ?].
  cbn [dp_useGroundPlane dp_useResonatorAssembly dp_useQubitHousing].
  intros -> ->.
  destruct h, t, f; closed_form; vm_compute; reflexivity.
Qed.

Lemma resonatorAssemblies_build_witness :
  let dp := example_parameters false true false true false in
  (dp_useGroundPlane dp = true /\ dp_useResonatorAssembly dp = true) /\
  length (class_addresses FourQubitResonatorAssembly
            (exec (Construct named_library dp) (initial_state false))) = 6.
Proof.
  intros dp. split.
  - repeat split.
  - pose proof (resonatorAssemblies_build named_library dp false eq_refl eq_refl) as H.
    cbv zeta in H. apply (f_equal (@length _)) in H.
    rewrite length_map in H. exact H.
Defined.

(** X14.  The elements that are never linked.  With the ground plane on,
    whatever the library and the other toggles, the last four volumes
    stored are Curve2, Straight2, Curve3 and Straight3, and no border
    surface has one of their leaves as its second volume; nor has any the
    leaves of the housing, when there is one. *)
Theorem elements_without_interfaces lib dp destroyed :
  dp_useGroundPlane dp = true ->
  let s := exec (Construct lib dp) (initial_state destroyed) in
  let last_four := seq (length (volumeStore (g4 s)) - 4) 4 in
  map (fun a => option_map (fun v => (vol_class v, pName (vol_args v)))
                           (volumeStore (g4 s) !! a)) last_four
  = [Some (Some FourQubitCurve, "Curve2"); Some (Some FourQubitStraight, "Straight2");
     Some (Some FourQubitCurve, "Curve3"); Some (Some FourQubitStraight, "Straight3")] /\
  Forall (fun a => List.filter (touches a) (borderSurfaceTable (g4 s)) = [])
         (class_addresses FourQubitQubitHousing s ++ last_four).
Proof.
  destruct dp as [h g t r f ? ? ? ? ? ? ? ? ? ? ? ? ? ? ? ? ? ? ? ?].
  cbn [dp_useGroundPlane]. intros ->.
  destruct h, t, r, f; evaluate_build;
    (split; [reflexivity|]);
    match goal with
    | |- Forall _ ?l => let l' := eval lazy in l in change l with l'
    end;
    repeat constructor; cbn [borderSurfaceTable g4]; untouched.
Qed.

Lemma elements_without_interfaces_witness :
  let dp := example_parameters true true false false false in
  let s := exec (Construct named_library dp) (initial_state false) in
  dp_useGroundPlane dp = true /\
  Forall (fun a => List.filter (touches a) (borderSurfaceTable (g4 s)) = [])
         (class_addresses FourQubitQubitHousing s
          ++ seq (length (volumeStore (g4 s)) - 4) 4).
Proof.
  intros dp s. split; [reflexivity|].
  exact (proj2 (elements_without_interfaces named_library dp false eq_refl)).
Defined.

(** X16.  The chain of curves and straights follows an accumulating
    anchor.  With the ground plane on, the last six volumes stored are
    Curve1, Straight1, Curve2, Straight2, Curve3 and Straight3, in this
    order.  Curve1 is placed at the start of the chain, and the k-th
    element after it at the start plus the sum of the first k offsets:
    each element is placed at the position of the one before it plus its
    own offset, and only the curve radius of the detector parameters
    enters the offsets.  They are turned about z by 180, 180, 180, 90, 270
    and 180 degrees. *)
Theorem chain_accumulates lib dp destroyed :
  dp_useGroundPlane dp = true ->
  let s := exec (Construct lib dp) (initial_state destroyed) in
  let radius := dp_resonatorCurveCentralRadius dp in
  let start := ThreeVector (1.3755 * Units.mm) (0.692 * Units.mm) 0%double in
  let offsets :=
    [ThreeVector (-0.5 * 312 * Units.um) radius 0;
     ThreeVector (-0.5 * 312 * Units.um) radius 0;
     ThreeVector (-1.0 * radius) (0.5 * 320 * Units.um) 0;
     ThreeVector radius (0.5 * 320 * Units.um) 0;
     ThreeVector (0.5 * 260 * Units.um) radius 0]%double in
  let turned (angle : G4double) := Some [rotateZ (angle * Units.deg)%double] in
  let chain := seq (length (volumeStore (g4 s)) - 6) 6 in
  map (fun a => option_map (fun v => (pName (vol_args v), pRot (vol_args v)))
                           (volumeStore (g4 s) !! a)) chain
  = [Some ("Curve1", turned 180%double); Some ("Straight1", turned 180%double);
     Some ("Curve2", turned 180%double); Some ("Straight2", turned 90%double);
     Some ("Curve3", turned 270%double); Some ("Straight3", turned 180%double)] /\
  map (fun a => option_map (fun v => tLate (vol_args v)) (volumeStore (g4 s) !! a)) chain
  = map (fun k => Some (fold_left vadd (firstn k offsets) start)) (seq 0 6).
Proof.
  destruct dp as [h g t r f ? ? ? ? ? ? ? ? ? ? ? ? ? ? ? ? ? ? ? ?].
  cbn [dp_useGroundPlane]. intros ->.
  destruct h, t, r, f; closed_form; vm_compute; split; reflexivity.
Qed.

Lemma chain_accumulates_witness :
  let dp := example_parameters false true false false false in
  let s := exec (Construct named_library dp) (initial_state false) in
  dp_useGroundPlane dp = true /\
  map (fun a => option_map (fun v => (pName (vol_args v), pRot (vol_args v)))
                           (volumeStore (g4 s) !! a))
      (seq (length (volumeStore (g4 s)) - 6) 6)
  = [Some ("Curve1", Some [rotateZ (180 * Units.deg)%double]);
     Some ("Straight1", Some [rotateZ (180 * Units.deg)%double]);
     Some ("Curve2", Some [rotateZ (180 * Units.deg)%double]);
     Some ("Straight2", Some [rotateZ (90 * Units.deg)%double]);
     Some ("Curve3", Some [rotateZ (270 * Units.deg)%double]);
     Some ("Straight3", Some [rotateZ (180 * Units.deg)%double])].
Proof.
  intros dp s. split; [reflexivity|].
  exact (proj1 (chain_accumulates named_library dp false eq_refl)).
Defined.
